(** * FinSight: a shallow embedding of the metrics engine and the parsers

    This development models the parts of FinSight that compute financial
    metrics ([finsight/metrics/calculator.py]) and extract canonical fields
    from uploaded statements ([finsight/parser/xero_parser.py] and
    [finsight/parser/pdf_parser.py]).

    Modelling conventions.
    - Python floats are modelled as rationals [Q]; comparisons use the
      value-level [Qeq_bool], [Qle_bool] and [Qltb], so [0.0] is any [q]
      with [q == 0].
    - A Python [dict] is a [gmap string Val].  Numeric fields of a period
      record hold a number or [None]; [getq] reads them as [option Q].
    - Objects that the code mutates in place (the period records held by
      [financial_data["data"]]) live in an explicit heap of dict objects,
      so that aliasing between the caller's mapping and the engine's local
      variables is visible.
    - Python exceptions are values of [PyResult]. *)

From Stdlib Require Import QArith Qabs Qminmax String Ascii ZArith Bool Lqa.
From stdpp Require Import base gmap strings list.

Local Open Scope Q_scope.
Set Warnings "-register-all,-notation-for-abbreviation".

(** ** Python runtime values and helpers *)
Module Py.

Inductive Val :=
| VNone
| VNum (q : Q)
| VStr (s : string)
| VList (l : list Val)
| VDict (kv : list (string * Val)).

Abbreviation PyDict := (gmap string Val).

Inductive PyExc := TypeError.

Inductive PyResult (A : Type) :=
| Ok (a : A)
| Err (e : PyExc).
Arguments Ok {A} a.
Arguments Err {A} e.

Definition bind {A B} (m : PyResult A) (k : A -> PyResult B) : PyResult B :=
  match m with Ok a => k a | Err e => Err e end.

Notation "'let*' x := m 'in' k" := (bind m (fun x => k))
  (at level 200, x name, m at level 100, k at level 200).

(** [d.get(k)] *)
Definition get (d : PyDict) (k : string) : Val := default VNone (d !! k).

(** [d.get(k, dflt)] *)
Definition get_or (d : PyDict) (k : string) (dflt : Val) : Val :=
  default dflt (d !! k).

Definition num (v : Val) : option Q :=
  match v with VNum q => Some q | _ => None end.

(** [_get(data, key)] on a numeric field. *)
Definition getq (d : PyDict) (k : string) : option Q := num (get d k).

Definition val_of (o : option Q) : Val :=
  match o with Some q => VNum q | None => VNone end.

Definition is_zero (q : Q) : bool := Qeq_bool q 0.

(** [x or dflt] for a numeric [x] and a numeric default. *)
Definition orq (o : option Q) (dflt : Q) : Q :=
  match o with
  | Some q => if is_zero q then dflt else q
  | None => dflt
  end.

(** [x or y] for two optional numbers. *)
Definition oro (o1 o2 : option Q) : option Q :=
  match o1 with
  | Some q => if is_zero q then o2 else Some q
  | None => o2
  end.

(** Truthiness of an optional number ([if x:]). *)
Definition truthyq (o : option Q) : bool :=
  match o with Some q => negb (is_zero q) | None => false end.

(** Truthiness of a dict ([if d:]). *)
Definition dict_truthy (d : PyDict) : bool := negb (Nat.eqb (size d) 0).

(** [any(v is not None for v in d.values())] *)
Definition any_not_none (d : PyDict) : bool :=
  existsb (fun kv => match kv.2 with VNone => false | _ => true end)
    (map_to_list d).

Definition Qltb (x y : Q) : bool := negb (Qle_bool y x).
Definition Qgtb (x y : Q) : bool := Qltb y x.
Definition Qgeb (x y : Q) : bool := Qle_bool y x.

(** *** Strings *)

Definition is_space (c : ascii) : bool :=
  existsb (Nat.eqb (nat_of_ascii c)) [32; 9; 10; 11; 12; 13]%nat.

Fixpoint lstrip (s : string) : string :=
  match s with
  | String c r => if is_space c then lstrip r else s
  | EmptyString => EmptyString
  end.

Fixpoint srev (s : string) : string :=
  match s with
  | String c r => (srev r ++ String c EmptyString)%string
  | EmptyString => EmptyString
  end.

(** [s.strip()] *)
Definition strip (s : string) : string := srev (lstrip (srev (lstrip s))).

Definition lower_char (c : ascii) : ascii :=
  let n := nat_of_ascii c in
  if (65 <=? n)%nat && (n <=? 90)%nat then ascii_of_nat (n + 32) else c.

(** [s.lower()] on ASCII letters. *)
Fixpoint lower (s : string) : string :=
  match s with
  | String c r => String (lower_char c) (lower r)
  | EmptyString => EmptyString
  end.

(** [s.startswith(p)] *)
Fixpoint startswith (s p : string) : bool :=
  match p, s with
  | EmptyString, _ => true
  | String a p', String b s' => Ascii.eqb a b && startswith s' p'
  | _, _ => false
  end.

(** [s.endswith(p)] *)
Definition endswith (s p : string) : bool := startswith (srev s) (srev p).

(** [p in s] *)
Fixpoint contains (s p : string) : bool :=
  startswith s p ||
  match s with
  | EmptyString => false
  | String _ s' => contains s' p
  end.

(** [s.replace(c, "")] for a single character [c]. *)
Fixpoint remove_char (c : ascii) (s : string) : string :=
  match s with
  | String a r => if Ascii.eqb a c then remove_char c r else String a (remove_char c r)
  | EmptyString => EmptyString
  end.

(** [s[:n]] *)
Fixpoint take (n : nat) (s : string) : string :=
  match n, s with
  | S n', String c r => String c (take n' r)
  | _, _ => EmptyString
  end.

(** *** [float(s)]

    The decimal literals accepted by Python's [float]: an optional sign,
    digits with an optional fractional part, an optional exponent.  The
    spellings [inf], [nan] and digit groups with [_] are not modelled and
    give [None] (Python's [ValueError], caught by the callers). *)

Definition digit (c : ascii) : option Z :=
  let n := nat_of_ascii c in
  if (48 <=? n)%nat && (n <=? 57)%nat then Some (Z.of_nat (n - 48)) else None.

Fixpoint digits (s : string) (acc : Z) (cnt : nat) : Z * nat * string :=
  match s with
  | String c r =>
      match digit c with
      | Some d => digits r (acc * 10 + d)%Z (S cnt)
      | None => (acc, cnt, s)
      end
  | EmptyString => (acc, cnt, s)
  end.

Definition sign (s : string) : Z * string :=
  match s with
  | String "-"%char r => ((-1)%Z, r)
  | String "+"%char r => (1%Z, r)
  | _ => (1%Z, s)
  end.

Definition pow10 (e : Z) : Q :=
  if (0 <=? e)%Z then inject_Z (10 ^ e) else / inject_Z (10 ^ (- e)).

Definition float_of_string (s0 : string) : option Q :=
  let s := strip s0 in
  let '(sg, s1) := sign s in
  let '(ip, ni, s2) := digits s1 0%Z 0%nat in
  let '(fp, nf, s3) :=
    match s2 with
    | String "."%char r => digits r 0%Z 0%nat
    | _ => (0%Z, 0%nat, s2)
    end in
  if (ni + nf =? 0)%nat then None else
  let mant := inject_Z (sg * (ip * 10 ^ Z.of_nat nf + fp))%Z / pow10 (Z.of_nat nf) in
  match s3 with
  | EmptyString => Some mant
  | String c r =>
      if Ascii.eqb c "e"%char || Ascii.eqb c "E"%char then
        let '(esg, r1) := sign r in
        let '(ev, ne, r2) := digits r1 0%Z 0%nat in
        match ne, r2 with
        | O, _ => None
        | _, EmptyString => Some (mant * pow10 (esg * ev)%Z)
        | _, _ => None
        end
      else None
  end.

(** [v is None] *)
Definition is_none (v : Val) : bool := match v with VNone => true | _ => false end.

End Py.

(** ** [benchmarks/ato_fetcher.py] *)
Module Ato.
Import Py.

(** [benchmark_status(actual_pct, low, high, higher_is_better)]; the last
    argument is not read by the code. *)
Definition benchmark_status (actual_pct : option Q) (low high : Q) (higher_is_better : bool)
    : string :=
  match actual_pct with
  | None => "grey"
  | Some a =>
      let in_range := Qle_bool low a && Qle_bool a high in
      if in_range then "green" else
      let range_width := Qmax (high - low) 1 in
      let deviation_pct :=
        if Qltb a low then (low - a) / range_width * 100
        else (a - high) / range_width * 100 in
      if Qle_bool deviation_pct 20 then "amber" else "red"
  end.

End Ato.

(** ** [finsight/metrics/calculator.py] *)
Module Calculator.
Import Py.

(** [MetricResult].  The free-text [tooltip], the benchmark fields and the
    [components] breakdown are display data and are not modelled. *)
Record MetricResult := mkMetric {
  m_name : string;
  m_label : string;
  m_current : option Q;
  m_prior : option Q;
  m_prior2 : option Q;
  m_status : string;
  m_format_type : string;
  m_category : string;
  m_trend : string;
  m_notes : string
}.

Abbreviation Metrics := (gmap string MetricResult).

Definition truthy (v : Val) : bool :=
  match v with
  | VNone => false
  | VNum q => negb (is_zero q)
  | VStr s => negb (String.eqb s "")
  | VList l => negb (Nat.eqb (length l) 0)
  | VDict kv => negb (Nat.eqb (length kv) 0)
  end.

Definition is_str (v : Val) (s : string) : bool :=
  match v with VStr t => String.eqb t s | _ => false end.

Fixpoint assoc (k : string) (kv : list (string * Val)) : option Val :=
  match kv with
  | [] => None
  | (k', v) :: r => if String.eqb k k' then Some v else assoc k r
  end.

(** [d.get(k, dflt)] on a dict value. *)
Definition vget_or (d : Val) (k : string) (dflt : Val) : Val :=
  match d with VDict kv => default dflt (assoc k kv) | _ => dflt end.

Definition strs (v : Val) : list string :=
  match v with
  | VList l => omap (fun x => match x with VStr s => Some s | _ => None end) l
  | _ => []
  end.

(** [_safe_div] *)
Definition safe_div (numerator denominator : option Q) : option Q :=
  match numerator, denominator with
  | Some n, Some d => if is_zero d then None else Some (n / d)
  | _, _ => None
  end.

(** [_pct] *)
Definition pct (numerator denominator : option Q) : option Q :=
  match safe_div numerator denominator with
  | Some r => Some (r * 100)
  | None => None
  end.

(** [_trend] *)
Definition trend (current prior : option Q) (higher_better : bool) : string :=
  match current, prior with
  | Some c, Some p =>
      if Qltb (Qabs (c - p)) (1 # 1000) then "→"
      else if Qgtb c p then (if higher_better then "↑" else "↓")
      else (if higher_better then "↓" else "↑")
  | _, _ => "–"
  end.

(** The threshold dicts passed to [_traffic_light]. *)
Inductive Thresholds :=
| GreenAbove (green_above amber_above : Q)
| GreenBelow (green_below amber_below : Q)
| GreenRange (green_min green_max : Q) (amber_min amber_max : option Q).

(** [_traffic_light] *)
Definition traffic_light (value : option Q) (t : Thresholds) : string :=
  match value with
  | None => "grey"
  | Some v =>
      match t with
      | GreenAbove g a =>
          if Qgeb v g then "green" else if Qgeb v a then "amber" else "red"
      | GreenBelow g a =>
          if Qle_bool v g then "green" else if Qle_bool v a then "amber" else "red"
      | GreenRange gmin gmax amin amax =>
          if Qle_bool gmin v && Qle_bool v gmax then "green"
          else if match amin with Some m => Qle_bool m v | None => true end
                  && match amax with Some m => Qle_bool v m | None => true end
          then "amber" else "red"
      end
  end.

(** [_compute_ebit_from_components]: returns
    [(ebit, ebitda, components_dict, assumption_notes)]. *)
Record EbitOut := {
  eo_ebit : option Q;
  eo_ebitda : option Q;
  eo_components : list (string * Val);
  eo_notes : list string
}.

Definition compute_ebit_from_components (period_data : PyDict) : EbitOut :=
  match getq period_data "net_profit" with
  | None =>
      {| eo_ebit := None; eo_ebitda := None; eo_components := [];
         eo_notes := ["Net Profit not available — EBIT cannot be calculated"] |}
  | Some net_profit =>
      let interest := orq (getq period_data "interest_expense") 0 in
      let tax := orq (getq period_data "tax_expense") 0 in
      let dep := orq (getq period_data "depreciation") 0 in
      let assumption_notes :=
        (if is_zero interest
         then ["Interest expense not identified — EBIT = Net Profit + Tax only"] else [])
        ++ (if is_zero tax
            then ["Tax expense not identified (may be partnership/trust) — EBIT = Net Profit + Interest only"]
            else [])
        ++ (if is_zero dep then ["D&A not identified — EBITDA may be understated"] else []) in
      let ebit := net_profit + interest + tax in
      let ebitda := ebit + dep in
      let int_components := get_or period_data "_interest_components" (VList []) in
      let tax_components := get_or period_data "_tax_components" (VList []) in
      let dep_components := get_or period_data "_dep_components" (VList []) in
      let components :=
        [("net_profit", VNum net_profit);
         ("interest_expense", VNum interest);
         ("interest_items", int_components);
         ("tax_expense", VNum tax);
         ("tax_items", tax_components);
         ("depreciation", VNum dep);
         ("dep_items", dep_components);
         ("assumption_notes", VList (map VStr assumption_notes))] in
      {| eo_ebit := Some ebit; eo_ebitda := Some ebitda;
         eo_components := components; eo_notes := assumption_notes |}
  end.

(** [calculate_liquidity] *)
Definition calculate_liquidity (cur prior prior2 : PyDict) : Metrics :=
  let cr_cur := safe_div (getq cur "current_assets") (getq cur "current_liabilities") in
  let cr_pri := safe_div (getq prior "current_assets") (getq prior "current_liabilities") in
  let cr_p2 := safe_div (getq prior2 "current_assets") (getq prior2 "current_liabilities") in
  let current_ratio := mkMetric "current_ratio" "Current Ratio" cr_cur cr_pri cr_p2
        (traffic_light cr_cur (GreenAbove 2 1)) "ratio" "liquidity"
        (trend cr_cur cr_pri true) "" in
  let inv := orq (getq cur "inventory") 0 in
  let inv_p := orq (getq prior "inventory") 0 in
  let inv_p2 := orq (getq prior2 "inventory") 0 in
  let inv_source := get_or cur "_inventory_source" (VStr "") in
  let inv_note :=
    if negb (truthy inv_source) || is_str inv_source "not_found"
    then "Inventory not identified on Balance Sheet — Quick Ratio equals Current Ratio. Inventory Days cannot be calculated."
    else "" in
  let qr_cur := safe_div (Some (orq (getq cur "current_assets") 0 - inv))
                         (getq cur "current_liabilities") in
  let qr_pri := safe_div (Some (orq (getq prior "current_assets") 0 - inv_p))
                         (getq prior "current_liabilities") in
  let qr_p2 := safe_div (Some (orq (getq prior2 "current_assets") 0 - inv_p2))
                        (getq prior2 "current_liabilities") in
  let quick_ratio := mkMetric "quick_ratio" "Quick Ratio" qr_cur qr_pri qr_p2
        (traffic_light qr_cur (GreenAbove 1 (1 # 2))) "ratio" "liquidity"
        (trend qr_cur qr_pri true) inv_note in
  let opex := getq cur "operating_expenses" in
  let cash_cur := getq cur "cash" in
  let dcoh_cur := if truthyq opex then safe_div cash_cur (safe_div opex (Some 365)) else None in
  let opex_p := getq prior "operating_expenses" in
  let cash_pri := getq prior "cash" in
  let dcoh_pri := if truthyq opex_p then safe_div cash_pri (safe_div opex_p (Some 365)) else None in
  let days_cash := mkMetric "days_cash_on_hand" "Days Cash on Hand" dcoh_cur dcoh_pri None
        (traffic_light dcoh_cur (GreenAbove 30 15)) "days" "liquidity"
        (trend dcoh_cur dcoh_pri true) "" in
  list_to_map [("current_ratio", current_ratio); ("quick_ratio", quick_ratio);
               ("days_cash_on_hand", days_cash)].

(** [calculate_profitability] *)
Definition calculate_profitability (cur prior prior2 : PyDict) : Metrics :=
  let ebit_cur := getq cur "_ebit_computed" in
  let ebit_pri := if dict_truthy prior then getq prior "_ebit_computed" else None in
  let ebit_p2 := if dict_truthy prior2 then getq prior2 "_ebit_computed" else None in
  let ebitda_cur := getq cur "_ebitda_computed" in
  let ebitda_pri := if dict_truthy prior then getq prior "_ebitda_computed" else None in
  let ebitda_p2 := if dict_truthy prior2 then getq prior2 "_ebitda_computed" else None in
  let ebit_components_cur := get_or cur "_ebit_components" (VDict []) in
  let gpm_cur := pct (getq cur "gross_profit") (getq cur "revenue") in
  let gpm_pri := pct (getq prior "gross_profit") (getq prior "revenue") in
  let gpm_p2 := pct (getq prior2 "gross_profit") (getq prior2 "revenue") in
  let gpm := mkMetric "gross_profit_margin" "Gross Profit Margin %" gpm_cur gpm_pri gpm_p2
        "grey" "percentage" "profitability" (trend gpm_cur gpm_pri true) "" in
  let npm_cur := pct (getq cur "net_profit") (getq cur "revenue") in
  let npm_pri := pct (getq prior "net_profit") (getq prior "revenue") in
  let npm_p2 := pct (getq prior2 "net_profit") (getq prior2 "revenue") in
  let npm := mkMetric "net_profit_margin" "Net Profit Margin %" npm_cur npm_pri npm_p2
        "grey" "percentage" "profitability" (trend npm_cur npm_pri true) "" in
  let ebit_m_cur := pct ebit_cur (getq cur "revenue") in
  let ebit_m_pri := pct ebit_pri (getq prior "revenue") in
  let ebit_m_p2 := pct ebit_p2 (getq prior2 "revenue") in
  let ebit_margin := mkMetric "ebit_margin" "EBIT Margin %" ebit_m_cur ebit_m_pri ebit_m_p2
        (traffic_light ebit_m_cur (GreenAbove 10 3)) "percentage" "profitability"
        (trend ebit_m_cur ebit_m_pri true)
        (String.concat "; " (strs (vget_or ebit_components_cur "assumption_notes" (VList [])))) in
  let ebitda_m_cur := pct ebitda_cur (getq cur "revenue") in
  let ebitda_m_pri := pct ebitda_pri (getq prior "revenue") in
  let ebitda_m_p2 := pct ebitda_p2 (getq prior2 "revenue") in
  let dep_note :=
    if truthy ebit_components_cur
       && is_zero (orq (num (vget_or ebit_components_cur "depreciation" VNone)) 0)
    then "D&A not identified — EBITDA may be understated" else "" in
  let ebitda_margin := mkMetric "ebitda_margin" "EBITDA Margin %" ebitda_m_cur ebitda_m_pri ebitda_m_p2
        (traffic_light ebitda_m_cur (GreenAbove 15 5)) "percentage" "profitability"
        (trend ebitda_m_cur ebitda_m_pri true) dep_note in
  let roa_cur := pct (getq cur "net_profit") (getq cur "total_assets") in
  let roa_pri := pct (getq prior "net_profit") (getq prior "total_assets") in
  let roa_p2 := pct (getq prior2 "net_profit") (getq prior2 "total_assets") in
  let roa := mkMetric "return_on_assets" "Return on Assets %" roa_cur roa_pri roa_p2
        (traffic_light roa_cur (GreenAbove 10 3)) "percentage" "profitability"
        (trend roa_cur roa_pri true) "" in
  let roe_cur := pct (getq cur "net_profit") (getq cur "equity") in
  let roe_pri := pct (getq prior "net_profit") (getq prior "equity") in
  let roe_p2 := pct (getq prior2 "net_profit") (getq prior2 "equity") in
  let roe := mkMetric "return_on_equity" "Return on Equity %" roe_cur roe_pri roe_p2
        (traffic_light roe_cur (GreenAbove 15 5)) "percentage" "profitability"
        (trend roe_cur roe_pri true) "" in
  list_to_map [("gross_profit_margin", gpm); ("net_profit_margin", npm);
               ("ebit_margin", ebit_margin); ("ebitda_margin", ebitda_margin);
               ("return_on_assets", roa); ("return_on_equity", roe)].

Definition times365 (o : option Q) : option Q := Some (orq o 0 * 365).

(** [calculate_efficiency] *)
Definition calculate_efficiency (cur prior prior2 : PyDict) : Metrics :=
  let dd_cur := safe_div (times365 (getq cur "accounts_receivable")) (getq cur "revenue") in
  let dd_pri := safe_div (times365 (getq prior "accounts_receivable")) (getq prior "revenue") in
  let dd_p2 := safe_div (times365 (getq prior2 "accounts_receivable")) (getq prior2 "revenue") in
  let debtor_days := mkMetric "debtor_days" "Debtor Days" dd_cur dd_pri dd_p2
        (traffic_light dd_cur (GreenBelow 30 60)) "days" "efficiency"
        (trend dd_cur dd_pri false) "" in
  let cogs := oro (getq cur "cogs") (getq cur "revenue") in
  let cogs_p := oro (getq prior "cogs") (getq prior "revenue") in
  let cogs_p2 := oro (getq prior2 "cogs") (getq prior2 "revenue") in
  let cd_cur := safe_div (times365 (getq cur "accounts_payable")) cogs in
  let cd_pri := safe_div (times365 (getq prior "accounts_payable")) cogs_p in
  let cd_p2 := safe_div (times365 (getq prior2 "accounts_payable")) cogs_p2 in
  let creditor_days := mkMetric "creditor_days" "Creditor Days" cd_cur cd_pri cd_p2
        "grey" "days" "efficiency" (trend cd_cur cd_pri true)
        (match cd_cur, dd_cur with
         | Some c, Some d => if Qltb c d
             then "⚠️ Creditor days below debtor days creates working capital pressure." else ""
         | _, _ => "" end) in
  let inv_source := get_or cur "_inventory_source" (VStr "") in
  let inv_note :=
    if negb (truthy inv_source) || is_str inv_source "not_found"
    then "Inventory not identified on Balance Sheet — Inventory Days cannot be calculated."
    else "" in
  let no_note := String.eqb inv_note "" in
  let id_cur := if no_note then safe_div (times365 (getq cur "inventory")) cogs else None in
  let id_pri := if no_note then safe_div (times365 (getq prior "inventory")) cogs_p else None in
  let id_p2 := if no_note then safe_div (times365 (getq prior2 "inventory")) cogs_p2 else None in
  let inventory_days := mkMetric "inventory_days" "Inventory Days" id_cur id_pri id_p2
        (if truthyq id_cur then traffic_light id_cur (GreenBelow 45 90) else "grey")
        "days" "efficiency" (trend id_cur id_pri false) inv_note in
  let ccc_cur := match dd_cur, cd_cur with
                 | Some d, Some c => Some (d + orq id_cur 0 - c) | _, _ => None end in
  let ccc_pri := match dd_pri, cd_pri with
                 | Some d, Some c => Some (d + orq id_pri 0 - c) | _, _ => None end in
  let ccc := mkMetric "cash_conversion_cycle" "Cash Conversion Cycle" ccc_cur ccc_pri None
        (match ccc_cur with Some _ => traffic_light ccc_cur (GreenBelow 30 60) | None => "grey" end)
        "days" "efficiency" (trend ccc_cur ccc_pri false) "" in
  list_to_map [("debtor_days", debtor_days); ("creditor_days", creditor_days);
               ("inventory_days", inventory_days); ("cash_conversion_cycle", ccc)].

(** [calculate_leverage] *)
Definition calculate_leverage (cur prior prior2 : PyDict) : Metrics :=
  let dte_cur := safe_div (getq cur "total_liabilities") (getq cur "equity") in
  let dte_pri := safe_div (getq prior "total_liabilities") (getq prior "equity") in
  let dte_p2 := safe_div (getq prior2 "total_liabilities") (getq prior2 "equity") in
  let dte := mkMetric "debt_to_equity" "Debt-to-Equity Ratio" dte_cur dte_pri dte_p2
        (match dte_cur with Some _ => traffic_light dte_cur (GreenBelow 1 2) | None => "grey" end)
        "ratio" "leverage" (trend dte_cur dte_pri false) "" in
  let ebit_cur := oro (getq cur "_ebit_computed") (getq cur "ebit") in
  let ebit_pri := oro (if dict_truthy prior then getq prior "_ebit_computed" else None)
                      (getq prior "ebit") in
  let ebit_p2 := oro (if dict_truthy prior2 then getq prior2 "_ebit_computed" else None)
                     (getq prior2 "ebit") in
  let ic_cur := safe_div ebit_cur (getq cur "interest_expense") in
  let ic_pri := safe_div ebit_pri (getq prior "interest_expense") in
  let ic_p2 := safe_div ebit_p2 (getq prior2 "interest_expense") in
  let ic := mkMetric "interest_coverage" "Interest Coverage Ratio" ic_cur ic_pri ic_p2
        (match ic_cur with Some _ => traffic_light ic_cur (GreenAbove 3 (3 # 2)) | None => "grey" end)
        "ratio" "leverage" (trend ic_cur ic_pri true) "" in
  let nd_cur :=
    match getq cur "total_debt" with
    | Some _ => Some (orq (getq cur "total_debt") 0 - orq (getq cur "cash") 0)
    | None =>
        match getq cur "total_liabilities" with
        | Some _ => Some (orq (getq cur "total_liabilities") 0 - orq (getq cur "cash") 0)
        | None => None
        end
    end in
  let nd_pri :=
    match getq prior "total_debt" with
    | Some _ => Some (orq (getq prior "total_debt") 0 - orq (getq prior "cash") 0)
    | None => None
    end in
  let nd := mkMetric "net_debt" "Net Debt" nd_cur nd_pri None "grey" "currency" "leverage"
        (trend nd_cur nd_pri false) "" in
  list_to_map [("debt_to_equity", dte); ("interest_coverage", ic); ("net_debt", nd)].

Definition growth_pct (cur prior : PyDict) (k : string) : option Q :=
  pct (Some (orq (getq cur k) 0 - orq (getq prior k) 0)) (getq prior k).

Definition up_down (g : option Q) : string := if Qgtb (orq g 0) 0 then "↑" else "↓".

(** [calculate_growth] *)
Definition calculate_growth (cur prior prior2 : PyDict) : Metrics :=
  if negb (dict_truthy prior) || negb (any_not_none prior) then ∅ else
  let rev_growth := growth_pct cur prior "revenue" in
  let revenue_growth := mkMetric "revenue_growth" "Revenue Growth % YoY" rev_growth None None
        (match rev_growth with Some _ => traffic_light rev_growth (GreenAbove 10 0) | None => "grey" end)
        "percentage" "growth" (up_down rev_growth) "" in
  let gp_growth := growth_pct cur prior "gross_profit" in
  let gross_profit_growth := mkMetric "gross_profit_growth" "Gross Profit $ Growth % YoY" gp_growth None None
        (match gp_growth with Some _ => traffic_light gp_growth (GreenAbove 10 0) | None => "grey" end)
        "percentage" "growth" (up_down gp_growth) "" in
  let exp_growth := growth_pct cur prior "operating_expenses" in
  let expense_flag :=
    match exp_growth, rev_growth with
    | Some e, Some r => if Qgtb e (r + 2) then "⚠️ Expenses growing faster than revenue." else ""
    | _, _ => ""
    end in
  let expense_growth := mkMetric "expense_growth" "Expense Growth % YoY" exp_growth None None
        (if negb (String.eqb expense_flag "") then "red"
         else if Qle_bool (orq exp_growth 0) (orq rev_growth 0) then "green" else "amber")
        "percentage" "growth" (up_down exp_growth) expense_flag in
  let np_growth := growth_pct cur prior "net_profit" in
  let net_profit_growth := mkMetric "net_profit_growth" "Net Profit Growth % YoY" np_growth None None
        (match np_growth with Some _ => traffic_light np_growth (GreenAbove 10 0) | None => "grey" end)
        "percentage" "growth" (up_down np_growth) "" in
  list_to_map [("revenue_growth", revenue_growth); ("gross_profit_growth", gross_profit_growth);
               ("expense_growth", expense_growth); ("net_profit_growth", net_profit_growth)].

(** [SelfCheckResult].  The constant [description] and [what_it_means]
    texts and the [values] dict are not modelled; a [detail] that renders
    numbers with [f"${x:,.0f}"] is kept as the list of rendered figures. *)
Inductive Detail :=
| DText (s : string)
| DFigures (xs : list Q).

Record SelfCheckResult := mkCheck {
  sc_check_name : string;
  sc_status : string;
  sc_detail : Detail
}.

Definition missing_names (fields : list (string * option Q)) : list string :=
  omap (fun kv => match kv.2 with None => Some kv.1 | Some _ => None end) fields.

(** CHECK 1: P&L Balance. *)
Definition check_pl_balance (cur : PyDict) : list SelfCheckResult :=
  let revenue := getq cur "revenue" in
  let cogs := getq cur "cogs" in
  let opex := getq cur "operating_expenses" in
  let net_profit := getq cur "net_profit" in
  let interest := orq (getq cur "interest_expense") 0 in
  let tax := orq (getq cur "tax_expense") 0 in
  match revenue, cogs, opex, net_profit with
  | Some r, Some c, Some o, Some np =>
      let calc_np := r - orq (Some c) 0 - orq (Some o) 0 - interest - tax in
      let diff := Qabs (calc_np - np) in
      let tolerance := Qmax 1 (Qabs np * (1 # 1000)) in
      let status := if Qle_bool diff 1 then "pass"
                    else if Qle_bool diff tolerance then "warn" else "fail" in
      [mkCheck "P&L Balance" status (DFigures [calc_np; np; diff])]
  | _, _, _, _ =>
      let missing := missing_names [("Revenue", revenue); ("COGS", cogs);
                       ("Operating Expenses", opex); ("Net Profit", net_profit)] in
      [mkCheck "P&L Balance" "warn"
         (DText ("Cannot perform check — missing: " ++ String.concat ", " missing))]
  end.

(** CHECK 2: Gross Profit Consistency. *)
Definition check_gross_profit (cur : PyDict) : list SelfCheckResult :=
  match getq cur "revenue", getq cur "cogs", getq cur "gross_profit" with
  | Some r, Some c, Some gp =>
      let calc_gp := r - c in
      let diff := Qabs (gp - calc_gp) in
      [mkCheck "Gross Profit Check" (if Qle_bool diff 1 then "pass" else "fail")
         (DFigures [gp; calc_gp; diff])]
  | Some _, Some _, None => []
  | _, _, _ =>
      [mkCheck "Gross Profit Check" "warn"
         (DText "Cannot perform check — Revenue or COGS not available")]
  end.

(** CHECK 3: Balance Sheet Equation. *)
Definition check_balance_sheet (cur : PyDict) : list SelfCheckResult :=
  let total_assets := getq cur "total_assets" in
  let total_liabilities := getq cur "total_liabilities" in
  let equity := getq cur "equity" in
  match total_assets, total_liabilities, equity with
  | Some ta, Some tl, Some eq =>
      let liab_plus_eq := tl + eq in
      let diff := Qabs (ta - liab_plus_eq) in
      let status := if Qle_bool diff 1 then "pass"
                    else if Qle_bool diff (ta * (5 # 1000)) then "warn" else "fail" in
      [mkCheck "Balance Sheet Equation" status (DFigures [ta; liab_plus_eq; diff])]
  | _, _, _ =>
      let missing := missing_names [("Total Assets", total_assets);
                       ("Total Liabilities", total_liabilities); ("Equity", equity)] in
      [mkCheck "Balance Sheet Equation" "warn"
         (DText ("Cannot perform check — missing: " ++ String.concat ", " missing))]
  end.

(** CHECK 4: Equity Movement, only with prior data. *)
Definition check_equity_movement (cur prior : PyDict) : list SelfCheckResult :=
  if dict_truthy prior then
    match getq prior "equity", getq cur "equity", getq cur "net_profit" with
    | Some pe, Some ce, Some np =>
        let expected_eq := pe + np in
        let diff := Qabs (ce - expected_eq) in
        [mkCheck "Equity Movement" (if Qgtb diff 1 then "warn" else "pass")
           (DFigures [ce; expected_eq; diff])]
    | _, _, _ =>
        [mkCheck "Equity Movement" "warn"
           (DText "Prior year equity or current net profit not available")]
    end
  else [].

(** CHECK 5: Current Assets Subtotal. *)
Definition check_current_assets (cur : PyDict) : list SelfCheckResult :=
  let cash := orq (getq cur "cash") 0 in
  let ar := orq (getq cur "accounts_receivable") 0 in
  let inv := orq (getq cur "inventory") 0 in
  match getq cur "current_assets" with
  | Some ca =>
      if negb (is_zero cash) || negb (is_zero ar) || negb (is_zero inv) then
        let component_sum := cash + ar + inv in
        if Qgtb component_sum (ca + 1) then
          [mkCheck "Current Assets Subtotal" "warn"
             (DFigures [component_sum; ca; component_sum - ca])]
        else
          [mkCheck "Current Assets Subtotal" "pass" (DFigures [component_sum; ca])]
      else []
  | None => []
  end.

(** CHECK 6: Revenue Reasonableness. *)
Definition check_revenue_reasonableness (cur prior : PyDict) : list SelfCheckResult :=
  if dict_truthy prior then
    let prior_revenue := getq prior "revenue" in
    let cur_revenue := getq cur "revenue" in
    match prior_revenue, cur_revenue with
    | Some pr, Some cr =>
        if truthyq prior_revenue && truthyq cur_revenue && Qgtb pr 0 then
          let pct_change := (cr - pr) / pr * 100 in
          if Qgtb (Qabs pct_change) 50 then
            [mkCheck "Revenue Reasonableness" "warn" (DFigures [cr; pr; pct_change])]
          else
            [mkCheck "Revenue Reasonableness" "pass" (DFigures [cr; pr; pct_change])]
        else []
    | _, _ => []
    end
  else [].

(** The body of [run_self_checks], after it has read [cur] and [prior]
    from [financial_data["data"]]: the six checks in order. *)
Definition self_checks_of (cur prior : PyDict) : list SelfCheckResult :=
  check_pl_balance cur ++ check_gross_profit cur ++ check_balance_sheet cur
  ++ check_equity_movement cur prior ++ check_current_assets cur
  ++ check_revenue_reasonableness cur prior.

(** The warnings of [detect_red_flags]; each carries the numbers its
    f-string renders. *)
Inductive Flag :=
| FlagCurrentRatio (cr : Q)
| FlagInterestCoverage (ic : Q)
| FlagNetLoss (loss : Q)
| FlagReceivables (ar_growth_pct rev_growth_pct : Q)
| FlagInventory (inv_growth_pct cogs_growth_pct : Q)
| FlagCashFlow (ocf_pri ocf_cur : Q)
| FlagExpenses (exp_growth rev_growth : Q).

(** Rendering [f"{x:.1f}"]: [format(None, ".1f")] raises [TypeError]. *)
Definition fmt (x : option Q) : PyResult Q :=
  match x with Some q => Ok q | None => Err TypeError end.

Definition metric_current (metrics : Metrics) (k : string) : option Q :=
  match metrics !! k with Some m => m_current m | None => None end.

(** [detect_red_flags] *)
Definition detect_red_flags (cur prior prior2 : PyDict) (metrics : Metrics)
    : PyResult (list Flag) :=
  let f_cr :=
    match metric_current metrics "current_ratio" with
    | Some c => if Qltb c 1 then [FlagCurrentRatio c] else []
    | None => [] end in
  let f_ic :=
    match metric_current metrics "interest_coverage" with
    | Some c => if Qltb c (3 # 2) then [FlagInterestCoverage c] else []
    | None => [] end in
  let f_np :=
    match getq cur "net_profit" with
    | Some np => if Qltb np 0 then [FlagNetLoss (Qabs np)] else []
    | None => [] end in
  let f_ar :=
    if dict_truthy prior then
      let rev_cur := orq (getq cur "revenue") 0 in
      let rev_pri := orq (getq prior "revenue") 1 in
      let ar_cur := orq (getq cur "accounts_receivable") 0 in
      let ar_pri := orq (getq prior "accounts_receivable") 0 in
      if Qgtb rev_pri 0 && Qgtb ar_pri 0 then
        let rev_growth := (rev_cur - rev_pri) / rev_pri in
        let ar_growth := (ar_cur - ar_pri) / ar_pri in
        if Qgtb ar_growth (rev_growth + (1 # 20)) && Qgtb ar_growth (1 # 20)
        then [FlagReceivables (ar_growth * 100) (rev_growth * 100)] else []
      else []
    else [] in
  let f_inv :=
    if dict_truthy prior then
      let cogs_cur := orq (getq cur "cogs") 0 in
      let cogs_pri := orq (getq prior "cogs") 1 in
      let inv_cur := orq (getq cur "inventory") 0 in
      let inv_pri := orq (getq prior "inventory") 0 in
      if Qgtb cogs_pri 0 && Qgtb inv_pri 0 then
        let cogs_growth := (cogs_cur - cogs_pri) / cogs_pri in
        let inv_growth := (inv_cur - inv_pri) / inv_pri in
        if Qgtb inv_growth (cogs_growth + (1 # 20)) && Qgtb inv_growth (1 # 20)
        then [FlagInventory (inv_growth * 100) (cogs_growth * 100)] else []
      else []
    else [] in
  let f_ocf :=
    if dict_truthy prior then
      let rev_cur := orq (getq cur "revenue") 0 in
      let rev_pri := orq (getq prior "revenue") 0 in
      match getq cur "operating_cash_flow", getq prior "operating_cash_flow" with
      | Some ocf_cur, Some ocf_pri =>
          if Qgtb rev_cur rev_pri && Qltb ocf_cur ocf_pri
          then [FlagCashFlow ocf_pri ocf_cur] else []
      | _, _ => []
      end
    else [] in
  let flags := f_cr ++ f_ic ++ f_np ++ f_ar ++ f_inv ++ f_ocf in
  match metrics !! "expense_growth", metrics !! "revenue_growth" with
  | Some exp_metric, Some rev_metric =>
      if Qgtb (orq (m_current exp_metric) 0) (orq (m_current rev_metric) 0 + 2) then
        let* e := fmt (m_current exp_metric) in
        let* r := fmt (m_current rev_metric) in
        Ok (flags ++ [FlagExpenses e r])
      else Ok flags
  | _, _ => Ok flags
  end.

(** *** [run_analysis] and the objects it shares with its caller

    The period records are dict objects in a heap; the mapping
    [financial_data["data"]] holds references to them ([SRef]) or [None]. *)
Abbreviation Heap := (gmap positive PyDict).

Inductive Slot :=
| SNone
| SRef (l : positive).

(** [financial_data]: its ["data"] mapping (absent ["data"] is the empty
    mapping) and its optional ["period_labels"]. *)
Record FinancialData := {
  fd_data : gmap string Slot;
  fd_period_labels : option (list string)
}.

(** [data.get(k) or {}]: the referenced object when it is a non-empty
    dict, otherwise ([None]) a fresh empty dict. *)
Definition period_ref (h : Heap) (data : gmap string Slot) (k : string) : option positive :=
  match data !! k with
  | Some (SRef l) =>
      match h !! l with
      | Some d => if dict_truthy d then Some l else None
      | None => None
      end
  | _ => None
  end.

Definition deref (h : Heap) (r : option positive) : PyDict :=
  match r with Some l => default ∅ (h !! l) | None => ∅ end.

(** [run_self_checks(financial_data)] *)
Definition run_self_checks (h : Heap) (fd : FinancialData) : list SelfCheckResult :=
  self_checks_of (deref h (period_ref h (fd_data fd) "current"))
                 (deref h (period_ref h (fd_data fd) "prior")).

(** One iteration of the pre-computation loop of [run_analysis]: it writes
    into the period dict itself. *)
Definition store_ebit (h : Heap) (r : option positive) : Heap :=
  match r with
  | None => h
  | Some l =>
      match h !! l with
      | None => h
      | Some period_data =>
          if negb (dict_truthy period_data) then h else
          let out := compute_ebit_from_components period_data in
          match eo_ebit out with
          | Some ebit =>
              <[l := <["_ebit_components" := VDict (eo_components out)]>
                     (<["_ebitda_computed" := val_of (eo_ebitda out)]>
                        (<["_ebit_computed" := VNum ebit]> period_data))]> h
          | None => h
          end
      end
  end.

Definition precompute (h : Heap) (refs : list (option positive)) : Heap :=
  fold_left store_ebit refs h.

Record AnalysisResult := {
  ar_metrics : Metrics;
  ar_red_flags : list Flag;
  ar_period_labels : list string;
  ar_raw_data : gmap string Slot;
  ar_self_checks : list SelfCheckResult;
  ar_has_self_check_fails : bool;
  ar_has_self_check_warns : bool
}.

(** [run_analysis(financial_data)] with [industry_benchmarks=None] (no
    benchmark application, no benchmark comparisons).  It returns the
    result, or the exception raised, together with the heap after the
    call. *)
Definition run_analysis (fd : FinancialData) (h : Heap) : PyResult AnalysisResult * Heap :=
  let data := fd_data fd in
  let rc := period_ref h data "current" in
  let rp := period_ref h data "prior" in
  let rp2 := period_ref h data "prior2" in
  let h' := precompute h [rc; rp; rp2] in
  let cur := deref h' rc in
  let prior := deref h' rp in
  let prior2 := deref h' rp2 in
  let all_metrics :=
    calculate_growth cur prior prior2 ∪ calculate_leverage cur prior prior2
    ∪ calculate_efficiency cur prior prior2 ∪ calculate_profitability cur prior prior2
    ∪ calculate_liquidity cur prior prior2 in
  match detect_red_flags cur prior prior2 all_metrics with
  | Err e => (Err e, h')
  | Ok flags =>
      let self_checks := run_self_checks h' fd in
      (Ok {| ar_metrics := all_metrics;
             ar_red_flags := flags;
             ar_period_labels := default ["Current"; "Prior"] (fd_period_labels fd);
             ar_raw_data := data;
             ar_self_checks := self_checks;
             ar_has_self_check_fails :=
               existsb (fun c => String.eqb (sc_status c) "fail") self_checks;
             ar_has_self_check_warns :=
               existsb (fun c => String.eqb (sc_status c) "warn") self_checks |}, h')
  end.

(** One entry of [calculate_benchmark_comparisons]' result. *)
Record Comparison := mkComparison {
  c_label : string;
  c_actual_pct : option Q;
  c_benchmark_low : Val;
  c_benchmark_high : Val
}.

(** [benchmark_map]: benchmark key, data key and label. *)
Definition benchmark_map : list (string * (option string * string)) :=
  [("cost_of_sales", (Some "cogs", "Cost of Sales"));
   ("labour", (Some "operating_expenses", "Labour / Wages"));
   ("rent", (None, "Rent"));
   ("motor_vehicle", (None, "Motor Vehicle Expenses"))].

(** One iteration of the loop of [calculate_benchmark_comparisons]. *)
Definition benchmark_step (cur : PyDict) (revenue : option Q)
    (industry_benchmarks : gmap string PyDict) (comparisons : gmap string Comparison)
    (entry : string * (option string * string)) : gmap string Comparison :=
  let '(bm_key, (data_key, label)) := entry in
  let bm := default ∅ (industry_benchmarks !! bm_key) in
  if negb (dict_truthy bm) then comparisons else
  let actual_val := match data_key with Some k => getq cur k | None => None end in
  let actual_pct := if truthyq actual_val then pct actual_val revenue else None in
  <[bm_key := mkComparison label actual_pct (get bm "low") (get bm "high")]> comparisons.

(** [calculate_benchmark_comparisons]; [industry_benchmarks] maps a
    benchmark key to its dict. *)
Definition calculate_benchmark_comparisons (cur : PyDict)
    (industry_benchmarks : gmap string PyDict) : gmap string Comparison :=
  let revenue := getq cur "revenue" in
  if negb (truthyq revenue) || Nat.eqb (size industry_benchmarks) 0 then ∅ else
  fold_left (benchmark_step cur revenue industry_benchmarks) benchmark_map ∅.

End Calculator.

(** ** [finsight/parser/xero_parser.py] *)
Module Xero.
Import Py.

(** A cell of the DataFrame read by pandas: text, a number, or NaN. *)
Inductive Cell :=
| CStr (s : string)
| CNum (q : Q)
| CNaN.

(** A row: [str(row[label_col])] and the cells of the other columns, by
    column name. *)
Record Row := mkRow {
  r_label : string;
  r_cells : list (string * Cell)
}.

(** A DataFrame: its column names (the first one is the label column) and
    its rows. *)
Record Frame := mkFrame {
  f_columns : list string;
  f_rows : list Row
}.

Definition SUBTOTAL_KEYWORDS : list string :=
  ["total"; "subtotal"; "gross profit"; "net profit"; "net loss"; "net income";
   "net revenue"; "net sales"].

Definition REVENUE_KEYWORDS : list string :=
  ["revenue"; "income"; "sales"; "turnover"; "fees"; "service income";
   "trading income"; "gross receipts"; "total income"; "total revenue";
   "grant income"; "other income"].

Definition REVENUE_TOTAL_KEYWORDS : list string :=
  ["total revenue"; "total income"; "total sales"; "total trading income";
   "total fees"; "total service income"; "total turnover"; "gross income";
   "total receipts"; "total gross receipts"].

(** [_clean_amount] *)
Definition clean_amount (c : Cell) : option Q :=
  match c with
  | CNaN => None
  | CNum q => Some q
  | CStr v =>
      let s := strip v in
      if existsb (String.eqb s) [""; "-"; "n/a"; "N/A"; "—"] then None else
      let negative := startswith s "(" && endswith s ")" in
      let s := remove_char "("%char (remove_char ")"%char s) in
      let s := remove_char "$"%char (remove_char ","%char (remove_char " "%char s)) in
      match float_of_string s with
      | Some r => Some (if negative then - r else r)
      | None => None
      end
  end.

(** [_matches_keywords] *)
Definition matches_keywords (text : string) (keywords : list string) : bool :=
  let t := lower (strip text) in
  existsb (fun kw => contains t (lower kw)) keywords.

(** [_is_subtotal_row] *)
Definition is_subtotal_row (label : string) : bool :=
  let label_lower := lower (strip label) in
  existsb (fun kw => contains label_lower kw) SUBTOTAL_KEYWORDS.

(** [row[col]]; column names are taken to be distinct. *)
Definition cell_at (r : Row) (col : string) : Cell :=
  match find (fun kc => String.eqb kc.1 col) (r_cells r) with
  | Some kc => kc.2
  | None => CNaN
  end.

(** [value_cols] of the search helpers: the columns other than the label
    column, minus [skip_cols]. *)
Definition value_cols (df : Frame) (skip_cols : list string) : list string :=
  match f_columns df with
  | [] => []
  | label_col :: _ =>
      filter (fun c => negb (existsb (String.eqb c) skip_cols))
        (filter (fun c => negb (String.eqb c label_col)) (f_columns df))
  end.

(** The loop state of [_find_value]: [(first_match, first_subtotal)]. *)
Definition find_value_step (keywords : list string) (vcol : string)
    (st : option Q * option Q) (r : Row) : option Q * option Q :=
  let '(first_match, first_subtotal) := st in
  let label := strip (r_label r) in
  if matches_keywords label keywords then
    match clean_amount (cell_at r vcol) with
    | Some v =>
        (match first_match with None => Some v | Some _ => first_match end,
         match first_subtotal with
         | None => if is_subtotal_row label then Some v else None
         | Some _ => first_subtotal
         end)
    | None => st
    end
  else st.

(** [_find_value] *)
Definition find_value (df : Frame) (keywords : list string) (col_idx : nat)
    (skip_cols : list string) : option Q :=
  match nth_error (value_cols df skip_cols) col_idx with
  | None => None
  | Some vcol =>
      let '(first_match, first_subtotal) :=
        fold_left (find_value_step keywords vcol) (f_rows df) (None, None) in
      match first_subtotal with
      | Some v => Some v
      | None => first_match
      end
  end.

(** [_find_value_prefer_subtotal] *)
Definition find_value_prefer_subtotal (df : Frame) (total_keywords fallback_keywords : list string)
    (col_idx : nat) (skip_cols : list string) : option Q :=
  match find_value df total_keywords col_idx skip_cols with
  | Some result => Some result
  | None => find_value df fallback_keywords col_idx skip_cols
  end.

(** The component and section sums, the period and balance-sheet extraction,
    and [merge_financial_data]. *)

Definition subtotal_hit (keywords : list string) (vcol : string) (r : Row) : option (Q * string) :=
  let label := strip (r_label r) in
  if matches_keywords label keywords && is_subtotal_row label then
    match clean_amount (cell_at r vcol) with
    | Some v => Some (v, label)
    | None => None
    end
  else None.

Fixpoint first_subtotal_hit (keywords : list string) (vcol : string) (rows : list Row)
    : option (Q * string) :=
  match rows with
  | [] => None
  | r :: rest =>
      match subtotal_hit keywords vcol r with
      | Some h => Some h
      | None => first_subtotal_hit keywords vcol rest
      end
  end.

Definition sum_all_step (keywords : list string) (vcol : string)
    (st : Q * list (string * Q) * list string) (r : Row) : Q * list (string * Q) * list string :=
  let '(total, components, seen_labels) := st in
  let label := strip (r_label r) in
  let label_lower := lower label in
  if is_subtotal_row label then st else
  if matches_keywords label keywords && negb (existsb (String.eqb label_lower) seen_labels) then
    match clean_amount (cell_at r vcol) with
    | Some v => (total + v, components ++ [(label, v)], label_lower :: seen_labels)
    | None => st
    end
  else st.

Definition sum_all_matching (df : Frame) (keywords : list string) (col_idx : nat)
    (skip_cols : list string) : option Q * list (string * Q) :=
  match nth_error (value_cols df skip_cols) col_idx with
  | None => (None, [])
  | Some vcol =>
      match first_subtotal_hit keywords vcol (f_rows df) with
      | Some (v, label) => (Some v, [(label, v)])
      | None =>
          let '(total, components, _) :=
            fold_left (sum_all_step keywords vcol) (f_rows df) (0, [], []) in
          (match components with [] => None | _ => Some total end, components)
      end
  end.

Definition section_total (section_items : list Q) : option Q :=
  match section_items with [] => None | _ => Some (fold_left Qplus section_items 0) end.

Fixpoint section_loop (keywords : list string) (vcol : string) (rows : list Row)
    (in_section : bool) (section_items : list Q) : option Q :=
  match rows with
  | [] => section_total section_items
  | r :: rest =>
      let label := strip (r_label r) in
      let val := clean_amount (cell_at r vcol) in
      if negb in_section then
        if matches_keywords label keywords && match val with None => true | Some _ => false end then
          section_loop keywords vcol rest true section_items
        else section_loop keywords vcol rest false section_items
      else
        match val with
        | None => section_loop keywords vcol rest true section_items
        | Some v =>
            if is_subtotal_row label && matches_keywords label keywords then Some v
            else if is_subtotal_row label then section_total section_items
            else section_loop keywords vcol rest true (section_items ++ [v])
        end
  end.

Definition sum_section_lines (df : Frame) (section_header_keywords : list string)
    (col_idx : nat) (skip_cols : list string) : option Q :=
  match nth_error (value_cols df skip_cols) col_idx with
  | None => None
  | Some vcol => section_loop section_header_keywords vcol (f_rows df) false []
  end.

Definition CASH_KEYWORDS : list string := ["cash"; "bank"; "cash and cash equivalents"; "cash at bank"].

Definition RECEIVABLES_KEYWORDS : list string :=
  ["accounts receivable"; "debtors"; "trade receivables"; "receivables";
   "trade debtors"; "sundry debtors"].

Definition INVENTORY_KEYWORDS : list string :=
  ["inventory"; "stock on hand"; "closing stock"; "finished goods";
   "raw materials"; "work in progress"; "wip"; "trading stock"; "stock"].

Definition CURRENT_ASSETS_KEYWORDS : list string := ["current assets"; "total current assets"].

Definition NON_CURRENT_ASSETS_KEYWORDS : list string :=
  ["non-current assets"; "fixed assets"; "total non-current assets";
   "plant and equipment"; "property plant"].

Definition TOTAL_ASSETS_KEYWORDS : list string := ["total assets"].

Definition CURRENT_LIABILITIES_KEYWORDS : list string := ["current liabilities"; "total current liabilities"].

Definition PAYABLES_KEYWORDS : list string :=
  ["accounts payable"; "creditors"; "trade payables"; "trade creditors"; "sundry creditors"].

Definition NON_CURRENT_LIABILITIES_KEYWORDS : list string :=
  ["non-current liabilities"; "long-term liabilities"; "total non-current liabilities"].

Definition TOTAL_LIABILITIES_KEYWORDS : list string := ["total liabilities"].

Definition EQUITY_KEYWORDS : list string :=
  ["equity"; "total equity"; "shareholders equity"; "net assets"; "owners equity"].

Definition DEBT_KEYWORDS : list string :=
  ["loans"; "borrowings"; "bank loan"; "term loan"; "line of credit"; "overdraft"].

(** The section flags of [_extract_balance_sheet_data]:
    [in_current_assets], [in_non_current_assets], [in_current_liabilities],
    [in_equity]. *)
Record BsFlags := mkBsFlags {
  in_current_assets : bool;
  in_non_current_assets : bool;
  in_current_liabilities : bool;
  in_equity : bool
}.

(** An entry of [bs_line_items]; its ["source"] is always ["balance_sheet"]. *)
Record BsLineItem := mkBsLineItem {
  li_label : string;
  li_value : Q;
  li_subsection : string;
  li_is_subtotal : bool
}.

(** Section transitions on a header row (a row without a value). *)
Definition bs_header (label_lower : string) (f : BsFlags) : BsFlags :=
  if (contains label_lower "non-current assets" || contains label_lower "noncurrent assets"
      || contains label_lower "fixed assets" || contains label_lower "plant and equipment")
     && negb (contains label_lower "total") then mkBsFlags false true false false
  else if contains label_lower "current assets" && negb (contains label_lower "non")
     && negb (contains label_lower "total") then mkBsFlags true false false false
  else if contains label_lower "current liabilities" && negb (contains label_lower "non")
     && negb (contains label_lower "total") then mkBsFlags false false true false
  else if contains label_lower "non-current liabilities"
     || contains label_lower "long-term liabilities" then
    mkBsFlags (in_current_assets f) (in_non_current_assets f) false (in_equity f)
  else if (contains label_lower "equity" || contains label_lower "net assets"
           || contains label_lower "shareholders") && negb (contains label_lower "total") then
    mkBsFlags false false false true
  else f.

Definition bs_subsection (f : BsFlags) : string :=
  if in_current_assets f then "current_assets"
  else if in_non_current_assets f then "non_current_assets"
  else if in_current_liabilities f then "current_liabilities"
  else if in_equity f then "equity"
  else "unknown".

Definition not_in (d : PyDict) (k : string) : bool :=
  match d !! k with Some _ => false | None => true end.

(** [if k not in data and cond: data[k] = val] *)
Definition capture (k : string) (cond : bool) (v : Q) (data : PyDict) : PyDict :=
  if not_in data k && cond then <[k := VNum v]> data else data.

(** The inventory capture, which also records its source. *)
Definition capture_inventory (f : BsFlags) (label : string) (v : Q) (data : PyDict) : PyDict :=
  if not_in data "inventory" && in_current_assets f && matches_keywords label INVENTORY_KEYWORDS
  then <["_inventory_source" := VStr ("balance_sheet/current_assets (" ++ label ++ ")")]>
         (<["inventory" := VNum v]> data)
  else data.

(** The keyword captures of a line-item row. *)
Definition bs_capture (f : BsFlags) (label : string) (v : Q) (data : PyDict) : PyDict :=
  let data := capture "cash" (matches_keywords label CASH_KEYWORDS) v data in
  let data := capture "accounts_receivable" (matches_keywords label RECEIVABLES_KEYWORDS) v data in
  let data := capture_inventory f label v data in
  let data := capture "current_assets" (matches_keywords label CURRENT_ASSETS_KEYWORDS) v data in
  let data := capture "non_current_assets"
                (matches_keywords label NON_CURRENT_ASSETS_KEYWORDS
                 && (is_subtotal_row label || in_non_current_assets f)) v data in
  let data := capture "total_assets" (matches_keywords label TOTAL_ASSETS_KEYWORDS) v data in
  let data := capture "accounts_payable" (matches_keywords label PAYABLES_KEYWORDS) v data in
  let data := capture "current_liabilities"
                (matches_keywords label CURRENT_LIABILITIES_KEYWORDS) v data in
  let data := capture "non_current_liabilities"
                (matches_keywords label NON_CURRENT_LIABILITIES_KEYWORDS) v data in
  let data := capture "total_liabilities" (matches_keywords label TOTAL_LIABILITIES_KEYWORDS) v data in
  let data := capture "equity"
                (matches_keywords label EQUITY_KEYWORDS
                 && (is_subtotal_row label || in_equity f)) v data in
  let data := capture "total_debt" (matches_keywords label DEBT_KEYWORDS) v data in
  data.

Record BsState := mkBsState {
  bs_flags : BsFlags;
  bs_data : PyDict;
  bs_line_items : list BsLineItem
}.

(** One iteration of the row loop of [_extract_balance_sheet_data]. *)
Definition bs_step (vcol : string) (st : BsState) (r : Row) : BsState :=
  let '(mkBsState f data items) := st in
  let label := strip (r_label r) in
  let label_lower := lower label in
  match clean_amount (cell_at r vcol) with
  | None => mkBsState (bs_header label_lower f) data items
  | Some v =>
      if contains label_lower "total current assets" then
        mkBsState (mkBsFlags false (in_non_current_assets f) (in_current_liabilities f) (in_equity f))
          (<["current_assets" := VNum v]> data) items
      else if contains label_lower "total non-current assets"
              || contains label_lower "total fixed assets" then
        mkBsState (mkBsFlags (in_current_assets f) false (in_current_liabilities f) (in_equity f))
          (<["non_current_assets" := VNum v]> data) items
      else if contains label_lower "total current liabilities" then
        mkBsState (mkBsFlags (in_current_assets f) (in_non_current_assets f) false (in_equity f))
          (<["current_liabilities" := VNum v]> data) items
      else if contains label_lower "total non-current liabilities" then
        mkBsState f (capture "non_current_liabilities" true v data) items
      else if contains label_lower "total assets" && negb (contains label_lower "non") then
        mkBsState f (<["total_assets" := VNum v]> data) items
      else if contains label_lower "total liabilities" && negb (contains label_lower "non-current")
              && negb (contains label_lower "current") then
        mkBsState f (<["total_liabilities" := VNum v]> data) items
      else
        mkBsState f (bs_capture f label v data)
          (items ++ [mkBsLineItem label v (bs_subsection f) (is_subtotal_row label)])
  end.

(** The fallback derivations after the loop. *)
Definition fallback_inventory (data : PyDict) : PyDict :=
  if not_in data "inventory"
  then <["_inventory_source" := VStr "not_found"]> (<["inventory" := VNone]> data)
  else data.

Definition fallback_current_assets (data : PyDict) : PyDict :=
  if is_none (get data "current_assets") then
    let parts := omap num [get data "cash"; get data "accounts_receivable"; get data "inventory"] in
    match parts with
    | [] => data
    | _ => <["current_assets" := VNum (fold_left Qplus parts 0)]> data
    end
  else data.

Definition fallback_total_assets (data : PyDict) : PyDict :=
  if is_none (get data "total_assets") then
    match getq data "current_assets", getq data "non_current_assets" with
    | Some ca, Some nca => <["total_assets" := VNum (ca + nca)]> data
    | _, _ => data
    end
  else data.

Definition fallback_total_liabilities (data : PyDict) : PyDict :=
  if is_none (get data "total_liabilities") then
    match getq data "current_liabilities", getq data "non_current_liabilities" with
    | Some cl, Some ncl => <["total_liabilities" := VNum (cl + ncl)]> data
    | _, _ => data
    end
  else data.

Definition bs_fallbacks (data : PyDict) : PyDict :=
  fallback_total_liabilities (fallback_total_assets (fallback_current_assets
    (fallback_inventory data))).

Definition bs_init : BsState := mkBsState (mkBsFlags false false false false) ∅ [].

(** [_extract_balance_sheet_data]: the returned dict, and the list it stores
    under ["_bs_line_items"]. *)
Definition extract_balance_sheet_data (df : Frame) (col_idx : nat) (skip_cols : list string)
    : PyDict * list BsLineItem :=
  match nth_error (value_cols df skip_cols) col_idx with
  | None => (∅, [])
  | Some vcol =>
      let st := fold_left (bs_step vcol) (f_rows df) bs_init in
      (bs_fallbacks (bs_data st), bs_line_items st)
  end.

Definition COGS_KEYWORDS : list string :=
  ["cost of sales"; "cost of goods"; "cogs"; "direct costs"; "direct expenses";
   "purchases"; "cost of revenue"; "materials"; "subcontractors";
   "direct labour"; "direct wages"; "opening stock"; "closing stock";
   "freight in"; "freight-in"].

Definition COGS_TOTAL_KEYWORDS : list string :=
  ["total cost of sales"; "total cost of goods"; "total cogs";
   "total direct costs"; "total direct expenses"; "total purchases";
   "total cost of revenue"; "total materials"].

Definition GROSS_PROFIT_KEYWORDS : list string := ["gross profit"; "gross margin"].

Definition OPERATING_EXPENSES_KEYWORDS : list string :=
  ["operating expenses"; "expenses"; "overheads"; "administrative"; "general expenses";
   "selling expenses"; "total expenses"; "total overheads"].

Definition EBIT_KEYWORDS : list string :=
  ["ebit"; "operating profit"; "profit from operations"; "operating income"].

Definition EBITDA_KEYWORDS : list string := ["ebitda"].

Definition NET_PROFIT_KEYWORDS : list string :=
  ["net profit"; "net income"; "profit after tax"; "profit before tax";
   "net loss"; "net earnings"; "profit for the year"; "surplus"].

Definition DEPRECIATION_KEYWORDS : list string :=
  ["depreciation"; "amortisation"; "amortization"; "dep &";
   "depreciation and amortisation"; "depreciation and amortization";
   "d&a"; "right of use"; "rou asset depreciation"; "right-of-use";
   "amortisation of intangibles"; "amortization of intangibles"].

Definition INTEREST_KEYWORDS : list string :=
  ["interest expense"; "finance charge"; "bank charge"; "loan interest";
   "interest on loan"; "borrowing cost"; "finance costs"; "interest paid";
   "bank interest"; "interest on overdraft"; "hire purchase interest"].

Definition TAX_KEYWORDS : list string :=
  ["income tax"; "tax expense"; "taxation"; "company tax";
   "income tax expense"; "provision for tax"; "corporate tax"; "tax payable";
   "fringe benefits tax"; "fbt"].

(** A [(label, value)] component tuple, as a two-element list. *)
Definition components_val (items : list (string * Q)) : Val :=
  VList (map (fun lv => VList [VStr lv.1; VNum lv.2]) items).

(** [# Derive gross profit if missing] *)
Definition derive_gross_profit (data : PyDict) : PyDict :=
  if is_none (get data "gross_profit") && truthyq (getq data "revenue")
     && negb (is_none (get data "cogs")) then
    match getq data "revenue", getq data "cogs" with
    | Some r, Some c => <["gross_profit" := VNum (r - c)]> data
    | _, _ => data
    end
  else data.

(** [# Derive EBITDA if not explicit] *)
Definition derive_ebitda (data : PyDict) : PyDict :=
  if is_none (get data "ebitda") && negb (is_none (get data "ebit")) then
    match getq data "ebit" with
    | Some e => <["ebitda" := VNum (e + orq (getq data "depreciation") 0)]> data
    | None => data
    end
  else data.

(** [_extract_period_data] *)
Definition extract_period_data (df : Frame) (col_idx : nat) (skip_cols : list string) : PyDict :=
  let g keywords := find_value df keywords col_idx skip_cols in
  let revenue := find_value_prefer_subtotal df REVENUE_TOTAL_KEYWORDS REVENUE_KEYWORDS
                   col_idx skip_cols in
  let revenue := match revenue with
                 | None => sum_section_lines df ["revenue"; "income"; "sales"] col_idx skip_cols
                 | Some _ => revenue
                 end in
  let data : PyDict := <["revenue" := val_of revenue]> ∅ in
  let cogs := find_value_prefer_subtotal df COGS_TOTAL_KEYWORDS COGS_KEYWORDS col_idx skip_cols in
  let cogs := match cogs with
              | None => sum_section_lines df ["cost of sales"; "cost of goods"; "direct costs"]
                          col_idx skip_cols
              | Some _ => cogs
              end in
  let data := <["cogs" := val_of cogs]> data in
  let data := <["gross_profit" := val_of (g GROSS_PROFIT_KEYWORDS)]> data in
  let data := <["operating_expenses" := val_of (g OPERATING_EXPENSES_KEYWORDS)]> data in
  let data := <["ebit" := val_of (g EBIT_KEYWORDS)]> data in
  let data := <["ebitda" := val_of (g EBITDA_KEYWORDS)]> data in
  let data := <["net_profit" := val_of (g NET_PROFIT_KEYWORDS)]> data in
  let '(dep_total, dep_items) := sum_all_matching df DEPRECIATION_KEYWORDS col_idx skip_cols in
  let '(interest_total, interest_items) :=
    sum_all_matching df INTEREST_KEYWORDS col_idx skip_cols in
  let '(tax_total, tax_items) := sum_all_matching df TAX_KEYWORDS col_idx skip_cols in
  let data := <["depreciation" := val_of dep_total]> data in
  let data := <["interest_expense" := val_of interest_total]> data in
  let data := <["tax_expense" := val_of tax_total]> data in
  let data := <["_dep_components" := components_val dep_items]> data in
  let data := <["_interest_components" := components_val interest_items]> data in
  let data := <["_tax_components" := components_val tax_items]> data in
  let data := derive_gross_profit data in
  let data := <["_ebit_parsed" := get data "ebit"]> data in
  derive_ebitda data.

(** A parsed statement as [merge_financial_data] reads it: its period dicts
    (a period that is missing or [None] is absent), and its optional
    ["period_labels"] and ["reference_columns"] entries. *)
Record XeroParsed := mkXeroParsed {
  xp_periods : gmap string PyDict;
  xp_period_labels : option (list string);
  xp_reference_columns : option (list string)
}.

(** The result of [merge_financial_data]; ["reference_columns"] is
    [list(set(...))], whose order Python leaves unspecified. *)
Record Merged := mkMerged {
  m_data : gmap string PyDict;
  m_period_labels : list string;
  m_reference_columns : gset string
}.

Definition period_of (p : XeroParsed) (period : string) : PyDict :=
  default ∅ (xp_periods p !! period).

(** One iteration of the period loop. *)
Definition merge_period (pl_data bs_data : XeroParsed) (cf_data : option XeroParsed)
    (merged : gmap string PyDict) (period : string) : gmap string PyDict :=
  let pl := period_of pl_data period in
  let bs := period_of bs_data period in
  let cf := match cf_data with Some c => period_of c period | None => ∅ end in
  if negb (existsb (fun v => negb (is_none v))
             (map snd (map_to_list pl) ++ map snd (map_to_list bs)))
  then merged
  else <[period := cf ∪ (bs ∪ pl)]> merged.

(** [merge_financial_data] *)
Definition merge_financial_data (pl_data bs_data : XeroParsed) (cf_data : option XeroParsed)
    : Merged :=
  let merged := fold_left (merge_period pl_data bs_data cf_data) ["current"; "prior"; "prior2"] ∅ in
  let labels := default ["Current"; "Prior"] (xp_period_labels pl_data) in
  let ref_cols_pl := default [] (xp_reference_columns pl_data) in
  let ref_cols_bs := default [] (xp_reference_columns bs_data) in
  mkMerged merged labels (list_to_set (ref_cols_pl ++ ref_cols_bs)).

End Xero.

(** ** [finsight/parser/pdf_parser.py] *)
Module Pdf.
Import Py.

Definition INVENTORY_KEYWORDS : list string :=
  ["inventory"; "stock on hand"; "closing stock"; "finished goods";
   "raw materials"; "work in progress"; "wip"; "trading stock"; "stock"].

Definition SUBTOTAL_KEYWORDS : list string :=
  ["total"; "subtotal"; "gross profit"; "net profit"; "net loss"; "net income"].

Definition SECTION_KEYWORDS : list (string * list string) :=
  [("revenue", ["total revenue"; "total income"; "total sales"; "revenue"; "sales"; "turnover"; "total trading income"]);
   ("cogs", ["total cost of sales"; "total cost of goods"; "total direct costs"; "cost of sales"; "cost of goods"; "direct costs"]);
   ("gross_profit", ["gross profit"]);
   ("operating_expenses", ["total expenses"; "total operating expenses"; "operating expenses"; "total overheads"]);
   ("ebit", ["ebit"; "operating profit"; "profit from operations"]);
   ("depreciation", ["depreciation"; "amortisation"; "amortization"; "dep &";
                     "depreciation and amortisation"; "d&a"; "right of use"; "rou asset depreciation"]);
   ("ebitda", ["ebitda"]);
   ("interest_expense", ["interest expense"; "finance costs"; "interest paid"; "finance charge";
                         "loan interest"; "bank charge"; "borrowing cost"]);
   ("tax_expense", ["income tax"; "tax expense"; "taxation"; "company tax"; "provision for tax"]);
   ("net_profit", ["net profit"; "net income"; "profit after tax"; "profit before tax"; "net loss"]);
   ("cash", ["cash at bank"; "cash and cash equivalents"; "bank balances"; "cash"]);
   ("accounts_receivable", ["accounts receivable"; "trade receivables"; "debtors"]);
   ("current_assets", ["total current assets"]);
   ("non_current_assets", ["total non-current assets"; "total fixed assets"]);
   ("total_assets", ["total assets"]);
   ("accounts_payable", ["accounts payable"; "trade payables"; "creditors"]);
   ("current_liabilities", ["total current liabilities"]);
   ("non_current_liabilities", ["total non-current liabilities"]);
   ("total_liabilities", ["total liabilities"]);
   ("equity", ["total equity"; "net assets"; "shareholders equity"]);
   ("total_debt", ["total loans"; "total borrowings"; "bank loans"]);
   ("operating_cash_flow", ["net cash from operating"; "cash from operations"; "operating cash flow"]);
   ("investing_cash_flow", ["net cash from investing"; "investing activities"]);
   ("financing_cash_flow", ["net cash from financing"; "financing activities"])].

(** [_is_subtotal_row] *)
Definition is_subtotal_row (label : string) : bool :=
  existsb (fun kw => contains (lower label) kw) SUBTOTAL_KEYWORDS.

(** [_keyword_match] *)
Definition keyword_match (text : string) (keywords : list string) : bool :=
  let t := lower text in
  existsb (fun kw => contains t (lower kw)) keywords.

Definition is_whitespace_or (cs : list ascii) (c : ascii) : bool :=
  is_space c || existsb (Ascii.eqb c) cs.

(** [re.sub(r"[$()\s,]", "", s)] *)
Fixpoint strip_amount_chars (s : string) : string :=
  match s with
  | String c r =>
      if is_whitespace_or ["$"; "("; ")"; ","]%char c then strip_amount_chars r
      else String c (strip_amount_chars r)
  | EmptyString => EmptyString
  end.

(** [_clean_amount(val)] on [str(val)]. *)
Definition clean_amount (val : string) : option Q :=
  let s := strip val in
  if existsb (String.eqb s) [""; "-"; "n/a"; "N/A"; "—"; "nil"] then None else
  let negative := startswith s "(" && endswith s ")" in
  match float_of_string (strip_amount_chars s) with
  | Some r => Some (if negative then - r else r)
  | None => None
  end.

(** [val == int(val)] *)
Definition is_integral (q : Q) : bool := (Z.modulo (Qnum q) (Zpos (Qden q)) =? 0)%Z.

Definition digit_or_comma (c : ascii) : bool :=
  match digit c with Some _ => true | None => Ascii.eqb c ","%char end.

(** [re.findall(r"[\d,]{4,}", line)] is non-empty: [line] has a run of
    at least four digits or commas.  [run] counts the current run. *)
Fixpoint has_run4_from (run : nat) (s : string) : bool :=
  match s with
  | EmptyString => false
  | String c r =>
      if digit_or_comma c then (3 <=? run)%nat || has_run4_from (S run) r
      else has_run4_from 0 r
  end.

Definition large_numbers (line : string) : bool := has_run4_from 0 line.

(** [_is_likely_note_ref_value] *)
Definition is_likely_note_ref_value (val : option Q) (line : string) : bool :=
  match val with
  | None => false
  | Some v =>
      if negb (Qle_bool 1 v && Qle_bool v 50 && is_integral v) then false
      else if large_numbers line then true
      else if contains line "$" then false
      else true
  end.

(** A table found by [pdfplumber], as [pd.DataFrame(tbl[1:], columns=tbl[0])]:
    column names and rows of cells ([None] or text).  Column names are
    taken to be distinct, so [row[col]] is the cell at [col]'s position. *)
Record Table := mkTable {
  t_columns : list string;
  t_rows : list (list (option string))
}.

(** [str(v)] of a cell. *)
Definition cell_str (c : option string) : string :=
  match c with Some s => s | None => "None" end.

Definition cell (row : list (option string)) (i : nat) : string :=
  cell_str (default None (nth_error row i)).

Definition has_key (d : PyDict) (k : string) : bool :=
  match d !! k with Some _ => true | None => false end.

(** The classification of one column [i] by [_classify_table_columns]:
    [Some true] for a reference column, [Some false] for a value column,
    [None] when it holds no number.  The test [median_abs <= 50] is implied
    by [all_small_int] and is left out. *)
Definition classify_column (t : Table) (i : nat) : option bool :=
  let numeric_vals := omap (fun row => clean_amount (cell row i)) (t_rows t) in
  let has_decimal := existsb (fun c => negb (is_integral c)) numeric_vals in
  match numeric_vals with
  | [] => None
  | _ =>
      let all_small_int :=
        forallb (fun v => Qle_bool 1 v && Qle_bool v 50 && is_integral v) numeric_vals in
      Some (all_small_int && negb has_decimal)
  end.

(** The reference columns of [_classify_table_columns] (its second
    result; [df.empty] or fewer than two columns give none). *)
Definition reference_cols (t : Table) : list string :=
  if (length (t_columns t) <? 2)%nat || (length (t_rows t) =? 0)%nat then [] else
  omap (fun ic => match classify_column t ic.1 with Some true => Some ic.2 | _ => None end)
    (drop 1 (imap pair (t_columns t))).

(** The [for field, keywords in SECTION_KEYWORDS.items()] loop of
    [_parse_tables_to_data] for one row: the first field not yet in
    [data] whose keywords match the label decides, then [break]. *)
Fixpoint table_fields (fields : list (string * list string)) (label vcell : string)
    (data : PyDict) : PyDict :=
  match fields with
  | [] => data
  | (field, keywords) :: rest =>
      if negb (has_key data field) && keyword_match label keywords then
        match clean_amount vcell with
        | Some v =>
            if String.eqb field "revenue" || String.eqb field "cogs" then
              if is_subtotal_row label || negb (has_key data field)
              then <[field := VNum v]> data else data
            else <[field := VNum v]> data
        | None => data
        end
      else table_fields rest label vcell data
  end.

(** One row of [_parse_tables_to_data], [vi] being the value column. *)
Definition table_row (vi : nat) (data : PyDict) (row : list (option string)) : PyDict :=
  let label := strip (cell row 0) in
  if String.eqb label "" || String.eqb (lower label) "nan" then data
  else if keyword_match label INVENTORY_KEYWORDS then
    if has_key data "inventory" then data else
    match clean_amount (cell row vi) with
    | Some v =>
        if Qgtb v 0 then
          <["_inventory_source" := VStr ("table_extraction (" ++ take 40 label ++ ")")]>
            (<["inventory" := VNum v]> data)
        else data
    | None => data
    end
  else table_fields SECTION_KEYWORDS label (cell row vi) data.

(** The loop state of [_parse_tables_to_data]: [data] and [column_info]. *)
Record TablesState := {
  ts_data : PyDict;
  ts_excluded_ref_cols : list string;
  ts_value_cols_used : list string
}.

Definition table_step (st : TablesState) (t : Table) : TablesState :=
  if (length (t_rows t) =? 0)%nat || (length (t_columns t) <? 2)%nat then st else
  let ref_cols := reference_cols t in
  let st := {| ts_data := ts_data st;
               ts_excluded_ref_cols := ts_excluded_ref_cols st ++ ref_cols;
               ts_value_cols_used := ts_value_cols_used st |} in
  let non_ref :=
    filter (fun ic => negb (existsb (String.eqb ic.2) ref_cols))
      (drop 1 (imap pair (t_columns t))) in
  match non_ref with
  | [] => st
  | (vi, value_col) :: _ =>
      {| ts_data := fold_left (table_row vi) (t_rows t) (ts_data st);
         ts_excluded_ref_cols := ts_excluded_ref_cols st;
         ts_value_cols_used := ts_value_cols_used st ++ [value_col] |}
  end.

(** [_parse_tables_to_data] *)
Definition parse_tables_to_data (tables : list Table) : PyDict :=
  let st := fold_left table_step tables
              {| ts_data := ∅; ts_excluded_ref_cols := []; ts_value_cols_used := [] |} in
  let column_info :=
    VDict [("excluded_ref_cols", VList (map VStr (ts_excluded_ref_cols st)));
           ("value_cols_used", VList (map VStr (ts_value_cols_used st)))] in
  <["_column_info" := column_info]> (ts_data st).

Definition vstr (v : Val) : string := match v with VStr s => s | _ => "" end.

(** The merge at the end of [parse_pdf], from the results of
    [_parse_text_to_data] and [_parse_tables_to_data] ([notes] omitted). *)
Definition parse_pdf_merge (text_data table_data : PyDict) : PyDict :=
  let merged := table_data ∪ text_data in
  let merged :=
    if startswith (vstr (get_or text_data "_inventory_source" (VStr ""))) "balance_sheet"
       && has_key text_data "inventory"
    then <["_inventory_source" := get text_data "_inventory_source"]>
           (<["inventory" := get text_data "inventory"]> merged)
    else merged in
  match num (get merged "inventory") with
  | Some inv =>
      if Qltb inv 0
      then <["_inventory_source" := VStr "cleared_negative"]> (<["inventory" := VNone]> merged)
      else merged
  | None => merged
  end.

(** ** [_find_amount_in_line] *)

Definition is_digit (c : ascii) : bool :=
  match digit c with Some _ => true | None => false end.

(** The longest prefix of [s] matched by [[\d,]+] (possibly empty) and the rest. *)
Fixpoint take_run (s : string) : string * string :=
  match s with
  | String c r =>
      if digit_or_comma c then let '(a, b) := take_run r in (String c a, b)
      else (EmptyString, s)
  | EmptyString => (EmptyString, EmptyString)
  end.

(** [(?:\.\d{1,2})?] at the start of [s], greedy, with nothing required after it. *)
Definition opt_frac (s : string) : string :=
  match s with
  | String "."%char (String d1 (String d2 _)) =>
      if is_digit d1 then
        if is_digit d2 then String "." (String d1 (String d2 EmptyString))
        else String "." (String d1 EmptyString)
      else EmptyString
  | String "."%char (String d1 EmptyString) =>
      if is_digit d1 then String "." (String d1 EmptyString) else EmptyString
  | _ => EmptyString
  end.

(** [\([\d,]+(?:\.\d{1,2})?\)] anchored at the start of [s]. *)
Definition match_paren (s : string) : option string :=
  match s with
  | String "("%char r =>
      let '(run, t) := take_run r in
      if String.eqb run "" then None else
      match t with
      | String ")"%char _ => Some ("(" ++ run ++ ")")%string
      | String "."%char (String d1 (String ")"%char _)) =>
          if is_digit d1 then Some ("(" ++ run ++ String "." (String d1 ")"))%string else None
      | String "."%char (String d1 (String d2 (String ")"%char _))) =>
          if is_digit d1 && is_digit d2
          then Some ("(" ++ run ++ String "." (String d1 (String d2 ")")))%string else None
      | _ => None
      end
  | _ => None
  end.

(** [-[\d,]+(?:\.\d{1,2})?] anchored at the start of [s]. *)
Definition match_minus (s : string) : option string :=
  match s with
  | String "-"%char r =>
      let '(run, t) := take_run r in
      if String.eqb run "" then None else Some ("-" ++ run ++ opt_frac t)%string
  | _ => None
  end.

(** [[\d,]+(?:\.\d{1,2})?] anchored at the start of [s]. *)
Definition match_plain (s : string) : option string :=
  let '(run, t) := take_run s in
  if String.eqb run "" then None else Some (run ++ opt_frac t)%string.

(** [re.search(pattern, s).group()]: the match at the leftmost position. *)
Fixpoint re_search (m : string -> option string) (s : string) : option string :=
  match m s with
  | Some g => Some g
  | None => match s with String _ r => re_search m r | EmptyString => None end
  end.

(** The loop of [_find_amount_in_line] over its patterns. *)
Fixpoint first_amount (patterns : list (string -> option string)) (line : string) : option Q :=
  match patterns with
  | [] => None
  | pattern :: rest =>
      match re_search pattern line with
      | Some g =>
          let val := clean_amount g in
          match val with
          | Some v => if is_likely_note_ref_value val line then first_amount rest line else Some v
          | None => first_amount rest line
          end
      | None => first_amount rest line
      end
  end.

(** [_find_amount_in_line] *)
Definition find_amount_in_line (line : string) : option Q :=
  first_amount [match_paren; match_minus; match_plain] line.

(** ** [_parse_text_to_data] *)

(** [text.split("\n")] *)
Fixpoint split_lines (s : string) : list string :=
  match s with
  | EmptyString => [EmptyString]
  | String c r =>
      if Ascii.eqb c "010"%char then EmptyString :: split_lines r
      else match split_lines r with
           | l :: ls => String c l :: ls
           | [] => [String c EmptyString]
           end
  end.

Definition PL_SECTION_HEADERS : list (string * list string) :=
  [("revenue", ["revenue"; "income"; "total income"; "total revenue"; "sales";
                "turnover"; "trading income"; "gross receipts"]);
   ("cogs", ["cost of sales"; "cost of goods sold"; "direct costs"; "purchases";
             "cost of revenue"]);
   ("gross_profit", ["gross profit"]);
   ("operating_expenses", ["operating expenses"; "expenses"; "overheads"; "administrative";
                           "general and administrative"]);
   ("below_ebit", ["finance costs"; "interest"; "income tax"; "taxation"])].

(** [SECTION_KEYWORDS[k]] *)
Definition section_keywords (k : string) : list string :=
  default [] (snd <$> find (fun e => String.eqb e.1 k) SECTION_KEYWORDS).

Definition opt_str_eqb (o : option string) (s : string) : bool :=
  match o with Some x => String.eqb x s | None => false end.

(** The loop state of [_parse_text_to_data] ([notes] is never returned
    and is left out). *)
Record TextState := mkTextState {
  tx_data : PyDict;
  tx_pl_section : option string;
  tx_bs_section : option string;
  tx_in_balance_sheet : bool;
  tx_in_pl : bool;
  tx_revenue_candidates : list (bool * Q);
  tx_cogs_candidates : list (bool * Q)
}.

Definition tx_init : TextState := mkTextState ∅ None None false true [] [].

(** The P&L section header search: the first section whose keywords match. *)
Fixpoint pl_section_of (sections : list (string * list string)) (line_lower : string)
    (cur : option string) : option string :=
  match sections with
  | [] => cur
  | (section, keywords) :: rest =>
      if keyword_match line_lower keywords then Some section
      else pl_section_of rest line_lower cur
  end.

(** The balance-sheet section header detection. *)
Definition bs_section_of (line_lower : string) (cur : option string) : option string :=
  if contains line_lower "non-current assets" || contains line_lower "noncurrent assets"
     || contains line_lower "fixed assets" then Some "non_current_assets"
  else if contains line_lower "current assets" && negb (contains line_lower "total")
  then Some "current_assets"
  else if contains line_lower "current liabilities" && negb (contains line_lower "non")
          && negb (contains line_lower "total") then Some "current_liabilities"
  else if contains line_lower "non-current liabilities"
          || contains line_lower "long-term liabilities" then Some "non_current_liabilities"
  else if contains line_lower "equity" && negb (contains line_lower "total") then Some "equity"
  else cur.

(** The [if in_pl:] block; the boolean is [true] when it ends in [continue]. *)
Definition text_pl (st : TextState) (line_stripped line_lower : string) : TextState * bool :=
  if negb (tx_in_pl st) then (st, false) else
  match find_amount_in_line line_stripped with
  | None =>
      (mkTextState (tx_data st) (pl_section_of PL_SECTION_HEADERS line_lower (tx_pl_section st))
         (tx_bs_section st) (tx_in_balance_sheet st) (tx_in_pl st)
         (tx_revenue_candidates st) (tx_cogs_candidates st), true)
  | Some amount =>
      if opt_str_eqb (tx_pl_section st) "revenue"
         || keyword_match line_lower (section_keywords "revenue") then
        (mkTextState (tx_data st) (tx_pl_section st) (tx_bs_section st)
           (tx_in_balance_sheet st) (tx_in_pl st)
           (tx_revenue_candidates st ++ [(is_subtotal_row line_stripped, amount)])
           (tx_cogs_candidates st), false)
      else if opt_str_eqb (tx_pl_section st) "cogs"
              || keyword_match line_lower (section_keywords "cogs") then
        (mkTextState (tx_data st) (tx_pl_section st) (tx_bs_section st)
           (tx_in_balance_sheet st) (tx_in_pl st) (tx_revenue_candidates st)
           (tx_cogs_candidates st ++ [(is_subtotal_row line_stripped, amount)]), false)
      else (st, false)
  end.

(** The [if in_balance_sheet:] block; [true] when it ends in [continue]. *)
Definition text_bs (st : TextState) (line_stripped line_lower : string) : TextState * bool :=
  if negb (tx_in_balance_sheet st) then (st, false) else
  match find_amount_in_line line_stripped with
  | None =>
      (mkTextState (tx_data st) (tx_pl_section st)
         (bs_section_of line_lower (tx_bs_section st)) (tx_in_balance_sheet st) (tx_in_pl st)
         (tx_revenue_candidates st) (tx_cogs_candidates st), true)
  | Some amount =>
      let data := tx_data st in
      let data :=
        if has_key data "inventory" && negb (opt_str_eqb (tx_bs_section st) "current_assets")
        then data
        else if opt_str_eqb (tx_bs_section st) "current_assets"
                && keyword_match line_lower INVENTORY_KEYWORDS then
          if negb (has_key data "inventory") then
            <["_inventory_source" :=
                VStr ("balance_sheet/current_assets (" ++ take 40 line_stripped ++ ")")]>
              (<["inventory" := VNum amount]> data)
          else data
        else data in
      (mkTextState data (tx_pl_section st) (tx_bs_section st) (tx_in_balance_sheet st)
         (tx_in_pl st) (tx_revenue_candidates st) (tx_cogs_candidates st), false)
  end.

(** The general field extraction loop over [SECTION_KEYWORDS]. *)
Fixpoint text_fields (fields : list (string * list string)) (line_stripped : string)
    (data : PyDict) : PyDict :=
  match fields with
  | [] => data
  | (field, keywords) :: rest =>
      if String.eqb field "inventory" then text_fields rest line_stripped data else
      if negb (has_key data field) && keyword_match line_stripped keywords then
        match find_amount_in_line line_stripped with
        | Some amount =>
            if String.eqb field "revenue" || String.eqb field "cogs" then
              if is_subtotal_row line_stripped || negb (has_key data field)
              then <[field := VNum amount]> data else data
            else <[field := VNum amount]> data
        | None => text_fields rest line_stripped data
        end
      else text_fields rest line_stripped data
  end.

(** One line of the loop of [_parse_text_to_data]. *)
Definition text_step (st : TextState) (line : string) : TextState :=
  let line_stripped := strip line in
  if String.eqb line_stripped "" then st else
  let line_lower := lower line_stripped in
  if contains line_lower "balance sheet"
     || contains line_lower "statement of financial position" then
    mkTextState (tx_data st) None (tx_bs_section st) true false
      (tx_revenue_candidates st) (tx_cogs_candidates st)
  else if contains line_lower "profit and loss" || contains line_lower "income statement"
          || contains line_lower "statement of profit"
          || contains line_lower "statement of comprehensive income" then
    mkTextState (tx_data st) (tx_pl_section st) None false true
      (tx_revenue_candidates st) (tx_cogs_candidates st)
  else
  let '(st, skip) := text_pl st line_stripped line_lower in
  if skip then st else
  let '(st, skip) := text_bs st line_stripped line_lower in
  if skip then st else
  mkTextState (text_fields SECTION_KEYWORDS line_stripped (tx_data st))
    (tx_pl_section st) (tx_bs_section st) (tx_in_balance_sheet st) (tx_in_pl st)
    (tx_revenue_candidates st) (tx_cogs_candidates st).

(** The subtotal preference applied to the revenue or COGS candidates. *)
Definition apply_candidates (candidates : list (bool * Q)) (k : string) (data : PyDict)
    : PyDict :=
  match candidates with
  | [] => data
  | _ =>
      let subtotals := omap (fun c : bool * Q => if c.1 then Some c.2 else None) candidates in
      match last subtotals with
      | Some v => <[k := VNum v]> data
      | None =>
          if negb (has_key data k) then
            match last candidates with
            | Some (_, v) => <[k := VNum v]> data
            | None => data
            end
          else data
      end
  end.

Definition INVENTORY_NOTE : string :=
  "Inventory not identified on Balance Sheet — Quick Ratio equals Current Ratio. Inventory Days cannot be calculated.".

(** [if "inventory" not in data:] after the loop. *)
Definition mark_inventory_not_found (data : PyDict) : PyDict :=
  if negb (has_key data "inventory") then
    <["_inventory_note" := VStr INVENTORY_NOTE]> (<["_inventory_source" := VStr "not_found"]> data)
  else data.

(** The derivation of missing calculated fields.  The values stored under
    the field names are numbers, so [getq] reads them. *)
Definition derive_missing (data : PyDict) : PyDict :=
  let data :=
    if negb (has_key data "gross_profit") && has_key data "revenue" && has_key data "cogs" then
      match getq data "revenue", getq data "cogs" with
      | Some r, Some c => <["gross_profit" := VNum (r - c)]> data
      | _, _ => data
      end
    else data in
  let data :=
    if negb (has_key data "ebit") && has_key data "net_profit" then
      let tax := orq (getq data "tax_expense") 0 in
      let interest := orq (getq data "interest_expense") 0 in
      match getq data "net_profit" with
      | Some np => <["ebit" := VNum (np + tax + interest)]> data
      | None => data
      end
    else data in
  if negb (has_key data "ebitda") && has_key data "ebit" then
    let dep := orq (getq data "depreciation") 0 in
    match getq data "ebit" with
    | Some e => <["ebitda" := VNum (e + dep)]> data
    | None => data
    end
  else data.

(** [_parse_text_to_data] *)
Definition parse_text_to_data (text : string) : PyDict :=
  let st := fold_left text_step (split_lines text) tx_init in
  let data := apply_candidates (tx_revenue_candidates st) "revenue" (tx_data st) in
  let data := apply_candidates (tx_cogs_candidates st) "cogs" data in
  derive_missing (mark_inventory_not_found data).

(** ** [build_confirmed_data] *)

(** The conversion of one confirmed value. *)
Definition confirm_value (value : Val) : Val :=
  match value with
  | VNum q => VNum q
  | VStr s => if String.eqb (strip s) "" then VNone else val_of (clean_amount s)
  | _ => VNone
  end.

(** [if result.get("inventory") is not None:] *)
Definition confirm_tag_inventory (result : PyDict) : PyDict :=
  if negb (is_none (get result "inventory")) then
    <["_inventory_source" := VStr "balance_sheet/current_assets (user confirmed)"]> result
  else result.

(** The derivation of a missing gross profit. *)
Definition confirm_gross_profit (result : PyDict) : PyDict :=
  if is_none (get result "gross_profit") && truthyq (getq result "revenue")
     && truthyq (getq result "cogs") then
    match getq result "revenue", getq result "cogs" with
    | Some r, Some c => <["gross_profit" := VNum (r - c)]> result
    | _, _ => result
    end
  else result.

(** EBIT, always derived from its components when [net_profit] is set. *)
Definition confirm_ebit (result : PyDict) : PyDict :=
  match get result "net_profit" with
  | VNum np =>
      let tax := orq (getq result "tax_expense") 0 in
      let interest := orq (getq result "interest_expense") 0 in
      let computed_ebit := np + tax + interest in
      <["_ebit_components" := VDict [("net_profit", VNum np);
                                      ("interest_expense", VNum interest);
                                      ("tax_expense", VNum tax)]]>
        (<["ebit" := VNum computed_ebit]> result)
  | _ => result
  end.

Definition confirm_ebitda (result : PyDict) : PyDict :=
  match get result "ebit" with
  | VNum e =>
      let dep := orq (getq result "depreciation") 0 in
      <["ebitda" := VNum (e + dep)]> result
  | _ => result
  end.

(** [build_confirmed_data] *)
Definition build_confirmed_data (confirmed_values : PyDict) : PyDict :=
  confirm_ebitda (confirm_ebit (confirm_gross_profit (confirm_tag_inventory
    (confirm_value <$> confirmed_values)))).

End Pdf.

(** * Properties of the embedding *)
Import Py Ato Calculator Xero Pdf.

(** ** Inputs and auxiliary notions *)

Definition loc1 : positive := 1%positive.
Definition loc2 : positive := 2%positive.

(** A client with a current period only. *)
Definition fd_current_only : FinancialData :=
  {| fd_data := {[ "current" := SRef loc1 ]}; fd_period_labels := None |}.

(** A client with a current and a prior period. *)
Definition fd_two_periods : FinancialData :=
  {| fd_data := {[ "current" := SRef loc1; "prior" := SRef loc2 ]}; fd_period_labels := None |}.

Definition heap1 (cur : PyDict) : Heap := {[ loc1 := cur ]}.
Definition heap2 (cur prior : PyDict) : Heap := {[ loc1 := cur; loc2 := prior ]}.

(** The spec's example: a parsed EBIT line next to its components. *)
Definition rec_ebit_150 : PyDict :=
  list_to_map [("net_profit", VNum 100); ("tax_expense", VNum 30);
               ("interest_expense", VNum 20); ("ebit", VNum 999999)].

(** Components summing to an EBIT of exactly zero, with a parsed EBIT line. *)
Definition rec_ebit_zero : PyDict :=
  list_to_map [("net_profit", VNum (-50)); ("tax_expense", VNum 30);
               ("interest_expense", VNum 20); ("ebit", VNum 999999)].

Definition rec_rev (q : Q) : PyDict := {[ "revenue" := VNum q ]}.

Definition rec_ar (q : Q) : PyDict := {[ "accounts_receivable" := VNum q ]}.

Definition rec_no_current_assets : PyDict :=
  list_to_map [("current_liabilities", VNum 380000); ("_inventory_source", VStr "not_found")].

Definition rec_rev_cogs : PyDict :=
  list_to_map [("revenue", VNum 100); ("cogs", VNum 60)].

(** A metric of an analysis, by name. *)
Definition analysed_metric (res : PyResult AnalysisResult * Heap) (k : string)
    : option MetricResult :=
  match fst res with Ok r => ar_metrics r !! k | Err _ => None end.

(** The assumption note of [_compute_ebit_from_components] for a missing
    component. *)
Definition not_identified_note (k : string) : string :=
  if String.eqb k "interest_expense" then "Interest expense not identified — EBIT = Net Profit + Tax only"
  else if String.eqb k "tax_expense" then "Tax expense not identified (may be partnership/trust) — EBIT = Net Profit + Interest only"
  else "D&A not identified — EBITDA may be understated".

(** A P&L table whose closing-stock row lies outside any balance-sheet
    section. *)
Definition pl_table : Table :=
  mkTable ["Account"; "2024"]
    [[Some "Revenue"; Some "9000"]; [Some "Closing Stock"; Some "500"]].

(** What [_parse_text_to_data] leaves when the text has no balance-sheet
    inventory line. *)
Definition text_without_bs_inventory : PyDict :=
  {[ "_inventory_source" := VStr "not_found" ]}.

(** The rows matched by [_find_value] in column [vcol], in table order,
    with their subtotal flag and value. *)
Definition match_entry (keywords : list string) (vcol : string) (r : Row) : option (bool * Q) :=
  let label := strip (r_label r) in
  if matches_keywords label keywords then
    match Xero.clean_amount (cell_at r vcol) with
    | Some v => Some (Xero.is_subtotal_row label, v)
    | None => None
    end
  else None.

Definition matching_values (keywords : list string) (vcol : string) (rows : list Row)
    : list (bool * Q) :=
  omap (match_entry keywords vcol) rows.

(** The value of the first subtotal match, else of the first match. *)
Definition first_subtotal_else_first (ms : list (bool * Q)) : option Q :=
  match find fst ms with
  | Some (_, v) => Some v
  | None => option_map snd (head ms)
  end.

Definition revenue_frame (rows : list (string * Q)) : Frame :=
  mkFrame ["Account"; "2024"] (map (fun lv => mkRow lv.1 [("2024", CNum lv.2)]) rows).

(** Equality of optional numbers up to [==]. *)
Definition opt_Qeq (a b : option Q) : Prop :=
  match a, b with
  | Some x, Some y => x == y
  | None, None => True
  | _, _ => False
  end.

(** The keys [run_analysis] writes into a period dict. *)
Definition derived_keys : list string :=
  ["_ebit_computed"; "_ebitda_computed"; "_ebit_components"].

(** [h'] differs from [h] only by derived keys added to existing dicts,
    and leaves dicts without a net profit alone. *)
Definition heap_grows (h h' : Heap) : Prop :=
  forall l,
    (h !! l = None -> h' !! l = None) /\
    (forall d, h !! l = Some d ->
       exists d', h' !! l = Some d' /\
         (forall k, ~ In k derived_keys -> d' !! k = d !! k) /\
         (getq d "net_profit" = None -> d' = d)).

(** A period dict after the pre-computation loop of [run_analysis] has
    written its three derived keys into it. *)
Definition with_derived (d : PyDict) : PyDict :=
  let out := compute_ebit_from_components d in
  <["_ebit_components" := VDict (eo_components out)]>
    (<["_ebitda_computed" := val_of (eo_ebitda out)]>
       (<["_ebit_computed" := val_of (eo_ebit out)]> d)).

(** A period dict after one iteration of the pre-computation loop: the
    derived keys are written when an EBIT can be computed. *)
Definition ebit_stored (d : PyDict) : PyDict :=
  match eo_ebit (compute_ebit_from_components d) with
  | Some _ => with_derived d
  | None => d
  end.

(** A P&L with revenue, COGS, operating expenses and net profit but no
    interest or tax expense. *)
Definition rec_pl_no_interest_tax : PyDict :=
  list_to_map [("revenue", VNum 100); ("cogs", VNum 60);
               ("operating_expenses", VNum 20); ("net_profit", VNum 20)].

(** The lines of a text joined with newlines. *)
Definition lines_text (ls : list string) : string :=
  String.concat (String "010"%char EmptyString) ls.

(** The revenue or COGS value the PDF text parser ends with: the last
    candidate flagged as a subtotal, else the value the line loop
    recorded, else the last candidate. *)
Definition candidate_pick (candidates : list (bool * Q)) (loop_value : option Val)
    : option Val :=
  match last (omap (fun c : bool * Q => if c.1 then Some c.2 else None) candidates) with
  | Some v => Some (VNum v)
  | None =>
      match loop_value with
      | Some x => Some x
      | None => option_map (fun c : bool * Q => VNum c.2) (last candidates)
      end
  end.

Ltac qbool :=
  repeat match goal with
  | H : Qle_bool _ _ = true |- _ => apply Qle_bool_iff in H
  | H : Qle_bool _ _ = false |- _ =>
      apply not_true_iff_false in H; rewrite Qle_bool_iff in H; apply Qnot_le_lt in H
  end.

Definition status_rank (s : string) : nat :=
  if String.eqb s "green" then 2 else if String.eqb s "amber" then 1 else 0.

Definition inv_sourced (d : PyDict) : Prop :=
  (d !! "inventory" = None /\ d !! "_inventory_source" = None) \/
  (exists v s, d !! "inventory" = Some (VNum v) /\
     d !! "_inventory_source" = Some (VStr ("balance_sheet/current_assets (" ++ s ++ ")"))).

Definition none_or_num (v : Val) : Prop := v = VNone \/ exists q, v = VNum q.

Definition numeric_fields (d : PyDict) : Prop :=
  forall k v, d !! k = Some v -> k <> "_inventory_source" -> k <> "_ebit_components" ->
    none_or_num v.

Definition sum_q (l : list Q) : Q := fold_right Qplus 0 l.

Definition is_section_header (keywords : list string) (vcol : string) (r : Row) : bool :=
  matches_keywords (strip (r_label r)) keywords &&
  match Xero.clean_amount (cell_at r vcol) with None => true | Some _ => false end.

Definition sec_frame : Frame :=
  mkFrame ["Account"; "2024"]
    [mkRow "Revenue 2023 restated" [("2024", CNum 7)];
     mkRow "Revenue" [("2024", CNaN)];
     mkRow "Sales" [("2024", CNum 100)];
     mkRow "Fees" [("2024", CStr "50")];
     mkRow "Total Trading" [("2024", CNum 150)]].

Definition inventory_captured (f : BsFlags) (label : string) (d : PyDict) : bool :=
  not_in d "inventory" && in_current_assets f && matches_keywords label Xero.INVENTORY_KEYWORDS.

(** The total stored under [total_key] is the sum of the component tuples
    stored under [comp_key], which carry distinct labels matching [keywords];
    it is [None] exactly when there are no components. *)
Definition components_ok (d : PyDict) (total_key comp_key : string) (keywords : list string) : Prop :=
  exists items, d !! comp_key = Some (components_val items) /\
    NoDup (map (fun c => lower c.1) items) /\
    Forall (fun c => matches_keywords c.1 keywords = true) items /\
    match items with
    | [] => d !! total_key = Some VNone
    | _ => exists t, d !! total_key = Some (VNum t) /\ t == sum_q (map snd items)
    end.

(** ** Claim C1 *)

(** The canonical EBIT and EBITDA formulas. *)
Lemma compute_ebit_formula (d : PyDict) (np : Q) :
  getq d "net_profit" = Some np ->
  eo_ebit (compute_ebit_from_components d)
    = Some (np + orq (getq d "interest_expense") 0 + orq (getq d "tax_expense") 0) /\
  eo_ebitda (compute_ebit_from_components d)
    = Some (np + orq (getq d "interest_expense") 0 + orq (getq d "tax_expense") 0
            + orq (getq d "depreciation") 0).
Proof. intros Hnp. unfold compute_ebit_from_components. rewrite Hnp. split; reflexivity. Qed.

(** Claim C1 (code_bug): the canonical EBIT of the spec's example is 150,
    but Interest Coverage falls back to the parsed [ebit] line whenever the
    computed EBIT is falsy: with net profit -50, tax 30 and interest 20 the
    computed EBIT is 0, and Interest Coverage is 999999 / 20, computed from
    the parsed EBIT 999999. *)
Theorem C1_interest_coverage_uses_parsed_ebit :
  eo_ebit (compute_ebit_from_components rec_ebit_150) = Some 150 /\
  eo_ebit (compute_ebit_from_components rec_ebit_zero) = Some 0 /\
  option_map m_current
    (analysed_metric (run_analysis fd_current_only (heap1 rec_ebit_zero)) "interest_coverage")
    = Some (Some (999999 # 20)).
Proof. split; [|split]; vm_compute; reflexivity. Qed.

(** ** Claim C2 *)

(** Claim C2 (code_bug): a "Closing Stock" row of a P&L table, outside any
    balance-sheet section, populates [inventory] (500) in the result of
    [parse_pdf], with source "table_extraction (Closing Stock)" instead of
    "not_found". *)
Theorem C2_table_row_outside_balance_sheet_sets_inventory :
  parse_pdf_merge text_without_bs_inventory (parse_tables_to_data [pl_table]) !! "inventory"
    = Some (VNum 500) /\
  parse_pdf_merge text_without_bs_inventory (parse_tables_to_data [pl_table]) !! "_inventory_source"
    = Some (VStr "table_extraction (Closing Stock)").
Proof. split; vm_compute; reflexivity. Qed.

(** ** Claim C3 *)

(** Claim C3 (code_bug): with no prior operating expenses the Expense
    Growth metric has no current value, yet its status is "green" (revenue
    grew from 100 to 110). *)
Theorem C3_expense_growth_null_is_green :
  match analysed_metric (run_analysis fd_two_periods (heap2 (rec_rev 110) (rec_rev 100)))
          "expense_growth" with
  | Some m => m_current m = None /\ m_status m = "green"
  | None => False
  end.
Proof. vm_compute. split; reflexivity. Qed.

(** ** Claim C4 *)

Lemma is_zero_orq (o : option Q) : is_zero (orq o 0) = negb (truthyq o).
Proof.
  destruct o as [q|]; [|reflexivity]. unfold orq, truthyq.
  destruct (is_zero q) eqn:E; [reflexivity|exact E].
Qed.

Lemma getq_insert_ne (d : PyDict) (k k' : string) (v : Val) :
  k <> k' -> getq (<[k := v]> d) k' = getq d k'.
Proof. intros H. unfold getq, get. rewrite lookup_insert_ne by exact H. reflexivity. Qed.

Lemma getq_insert_eq (d : PyDict) (k : string) (q : Q) :
  getq (<[k := VNum q]> d) k = Some q.
Proof. unfold getq, get. rewrite lookup_insert_eq. reflexivity. Qed.

(** Claim C4, counterexample: with revenue and COGS but no gross profit,
    current assets or prior year, the Gross Profit and Current Assets checks
    are silently omitted, though their current-period inputs are missing;
    and with interest and tax expense missing, P&L Balance still reports
    "pass". *)
Lemma C4_missing_inputs_omitted_checks :
  getq rec_rev_cogs "gross_profit" = None /\
  getq rec_rev_cogs "current_assets" = None /\
  map sc_check_name (run_self_checks (heap1 rec_rev_cogs) fd_current_only)
    = ["P&L Balance"; "Balance Sheet Equation"] /\
  getq rec_pl_no_interest_tax "interest_expense" = None /\
  getq rec_pl_no_interest_tax "tax_expense" = None /\
  map sc_status (check_pl_balance rec_pl_no_interest_tax) = ["pass"].
Proof. repeat split; vm_compute; reflexivity. Qed.

(** Claim C4, amended: not every missing current-period input gives a
    warn.  P&L Balance warns naming exactly the missing fields when revenue,
    COGS, operating expenses or net profit is missing; otherwise it reports
    pass, warn or fail, reading a missing interest or tax expense as 0.
    Gross Profit warns when revenue or COGS is missing and is omitted when
    only gross profit is; Balance Sheet Equation warns naming exactly the
    missing fields; Equity Movement warns when prior data exists and is
    omitted otherwise; Current Assets Subtotal is omitted without current
    assets or when cash, receivables and inventory are all missing or zero,
    and otherwise reports pass or warn on their sum, a missing one read as
    0; Revenue Reasonableness is omitted without either revenue. *)
Theorem C4_self_checks_on_missing_inputs (cur prior : PyDict) :
  ((getq cur "revenue" = None \/ getq cur "cogs" = None \/
    getq cur "operating_expenses" = None \/ getq cur "net_profit" = None) ->
   check_pl_balance cur =
     [mkCheck "P&L Balance" "warn"
        (DText ("Cannot perform check — missing: " ++ String.concat ", "
           (missing_names [("Revenue", getq cur "revenue"); ("COGS", getq cur "cogs");
                           ("Operating Expenses", getq cur "operating_expenses");
                           ("Net Profit", getq cur "net_profit")])))]) /\
  ((getq cur "revenue" = None \/ getq cur "cogs" = None) ->
   check_gross_profit cur =
     [mkCheck "Gross Profit Check" "warn"
        (DText "Cannot perform check — Revenue or COGS not available")]) /\
  (getq cur "revenue" <> None -> getq cur "cogs" <> None ->
   getq cur "gross_profit" = None -> check_gross_profit cur = []) /\
  ((getq cur "total_assets" = None \/ getq cur "total_liabilities" = None \/
    getq cur "equity" = None) ->
   check_balance_sheet cur =
     [mkCheck "Balance Sheet Equation" "warn"
        (DText ("Cannot perform check — missing: " ++ String.concat ", "
           (missing_names [("Total Assets", getq cur "total_assets");
                           ("Total Liabilities", getq cur "total_liabilities");
                           ("Equity", getq cur "equity")])))]) /\
  (dict_truthy prior = true ->
   (getq prior "equity" = None \/ getq cur "equity" = None \/ getq cur "net_profit" = None) ->
   check_equity_movement cur prior =
     [mkCheck "Equity Movement" "warn"
        (DText "Prior year equity or current net profit not available")]) /\
  (dict_truthy prior = false -> check_equity_movement cur prior = []) /\
  (getq cur "current_assets" = None -> check_current_assets cur = []) /\
  ((getq cur "revenue" = None \/ getq prior "revenue" = None) ->
   check_revenue_reasonableness cur prior = []) /\
  ((getq cur "revenue" <> None /\ getq cur "cogs" <> None /\
    getq cur "operating_expenses" <> None /\ getq cur "net_profit" <> None) ->
   exists st figs, check_pl_balance cur = [mkCheck "P&L Balance" st (DFigures figs)] /\
     (st = "pass" \/ st = "warn" \/ st = "fail")) /\
  (forall k, In k ["interest_expense"; "tax_expense"] -> getq cur k = None ->
   check_pl_balance cur = check_pl_balance (<[k := VNum 0]> cur)) /\
  (forall ca, getq cur "current_assets" = Some ca ->
   truthyq (getq cur "cash") = false -> truthyq (getq cur "accounts_receivable") = false ->
   truthyq (getq cur "inventory") = false -> check_current_assets cur = []) /\
  (forall ca, getq cur "current_assets" = Some ca ->
   (truthyq (getq cur "cash") = true \/ truthyq (getq cur "accounts_receivable") = true \/
    truthyq (getq cur "inventory") = true) ->
   exists st figs, check_current_assets cur =
     [mkCheck "Current Assets Subtotal" st
        (DFigures ((orq (getq cur "cash") 0 + orq (getq cur "accounts_receivable") 0
                    + orq (getq cur "inventory") 0)%Q :: figs))] /\
     (st = "pass" \/ st = "warn")).
Proof.
  split; [|split; [|split; [|split; [|split; [|split; [|split;
    [|split; [|split; [|split; [|split]]]]]]]]]].
  - unfold check_pl_balance.
    destruct (getq cur "revenue"), (getq cur "cogs"), (getq cur "operating_expenses"),
      (getq cur "net_profit"); intros H; try reflexivity;
      destruct H as [H|[H|[H|H]]]; discriminate.
  - unfold check_gross_profit.
    destruct (getq cur "revenue"), (getq cur "cogs"), (getq cur "gross_profit");
      intros H; try reflexivity; destruct H as [H|H]; discriminate.
  - unfold check_gross_profit.
    destruct (getq cur "revenue"), (getq cur "cogs"), (getq cur "gross_profit");
      intros H1 H2 H3; try reflexivity; congruence.
  - unfold check_balance_sheet.
    destruct (getq cur "total_assets"), (getq cur "total_liabilities"), (getq cur "equity");
      intros H; try reflexivity; destruct H as [H|[H|H]]; discriminate.
  - unfold check_equity_movement. intros Hp. rewrite Hp.
    destruct (getq prior "equity"), (getq cur "equity"), (getq cur "net_profit");
      intros H; try reflexivity; destruct H as [H|[H|H]]; discriminate.
  - unfold check_equity_movement. intros Hp. rewrite Hp. reflexivity.
  - unfold check_current_assets. intros H. rewrite H. reflexivity.
  - unfold check_revenue_reasonableness.
    destruct (dict_truthy prior); [|reflexivity].
    destruct (getq prior "revenue"), (getq cur "revenue"); intros H; try reflexivity;
      destruct H as [H|H]; discriminate.
  - intros (H1 & H2 & H3 & H4). unfold check_pl_balance.
    destruct (getq cur "revenue"), (getq cur "cogs"), (getq cur "operating_expenses"),
      (getq cur "net_profit"); try congruence.
    eexists _, _. split; [reflexivity|].
    destruct (Qle_bool _ _); [left; reflexivity|].
    destruct (Qle_bool _ _); [right; left; reflexivity | right; right; reflexivity].
  - intros k Hk Hn. unfold check_pl_balance. cbv zeta.
    destruct Hk as [<-|[<-|[]]];
      repeat match goal with
      | |- context [getq (<[?k := VNum ?q]> ?d) ?k'] =>
          first [rewrite (getq_insert_ne d k k' (VNum q)) by discriminate
                | rewrite (getq_insert_eq d k q)]
      end; rewrite Hn; reflexivity.
  - intros ca Hca H1 H2 H3. unfold check_current_assets. rewrite Hca, !is_zero_orq, H1, H2, H3.
    reflexivity.
  - intros ca Hca H. unfold check_current_assets. rewrite Hca, !is_zero_orq.
    replace (negb (negb (truthyq (getq cur "cash"))) || negb (negb (truthyq (getq cur "accounts_receivable")))
             || negb (negb (truthyq (getq cur "inventory")))) with true
      by (destruct H as [H|[H|H]]; rewrite H; rewrite ?orb_true_r; reflexivity).
    destruct (Qgtb _ _); eexists _, _; (split; [reflexivity|]); [right|left]; reflexivity.
Qed.

Lemma C4_self_checks_on_missing_inputs_witness :
  ((getq (rec_rev 100) "revenue" = None \/ getq (rec_rev 100) "cogs" = None) /\
   check_gross_profit (rec_rev 100) =
     [mkCheck "Gross Profit Check" "warn"
        (DText "Cannot perform check — Revenue or COGS not available")]) /\
  ((In "interest_expense" ["interest_expense"; "tax_expense"] /\
    getq rec_pl_no_interest_tax "interest_expense" = None) /\
   check_pl_balance rec_pl_no_interest_tax =
     check_pl_balance (<["interest_expense" := VNum 0]> rec_pl_no_interest_tax)).
Proof.
  split; split.
  - right. reflexivity.
  - apply (proj1 (proj2 (C4_self_checks_on_missing_inputs (rec_rev 100) ∅))).
    right. reflexivity.
  - split; [simpl; tauto | reflexivity].
  - apply (proj1 (proj2 (proj2 (proj2 (proj2 (proj2 (proj2 (proj2 (proj2
             (proj2 (C4_self_checks_on_missing_inputs rec_pl_no_interest_tax ∅)))))))))));
      [simpl; tauto | reflexivity].
Defined.

(** ** Claim C5 *)

(** The loop of [_find_value] keeps the first match and the first
    subtotal match. *)
Lemma find_value_fold (keywords : list string) (vcol : string) (rows : list Row)
    (fm fs : option Q) :
  fold_left (find_value_step keywords vcol) rows (fm, fs) =
  (match fm with None => option_map snd (head (matching_values keywords vcol rows)) | Some _ => fm end,
   match fs with None => option_map snd (find fst (matching_values keywords vcol rows)) | Some _ => fs end).
Proof.
  revert fm fs. induction rows as [|r rows IH]; intros fm fs.
  - destruct fm, fs; reflexivity.
  - cbn [fold_left]. unfold matching_values. cbn [omap list_omap].
    unfold find_value_step at 2, match_entry.
    destruct (matches_keywords (strip (r_label r)) keywords).
    + destruct (Xero.clean_amount (cell_at r vcol)) as [v|].
      * rewrite IH. unfold matching_values.
        destruct fm, fs, (Xero.is_subtotal_row (strip (r_label r))); reflexivity.
      * apply IH.
    + apply IH.
Qed.

Lemma text_pl_data st ls ll : tx_data (fst (text_pl st ls ll)) = tx_data st.
Proof.
  unfold text_pl. destruct (negb (tx_in_pl st)); [reflexivity|].
  destruct (find_amount_in_line ls); [|reflexivity].
  repeat case_match; reflexivity.
Qed.

Lemma text_bs_keeps (st : TextState) (a b k : string) (v : Val) :
  k <> "_inventory_source" -> tx_data st !! k = Some v ->
  tx_data (text_bs st a b).1 !! k = Some v.
Proof.
  intros Hk Hv. unfold text_bs.
  destruct (negb (tx_in_balance_sheet st)); [exact Hv|].
  destruct (find_amount_in_line a) as [amount|]; [|exact Hv]. simpl.
  destruct (has_key (tx_data st) "inventory" && _); [exact Hv|].
  destruct (_ && _); [|exact Hv].
  destruct (has_key (tx_data st) "inventory") eqn:Hh; [exact Hv|]. simpl.
  rewrite lookup_insert_ne by congruence.
  destruct (decide (k = "inventory")) as [->|Hne].
  - unfold has_key in Hh. rewrite Hv in Hh. discriminate.
  - rewrite lookup_insert_ne by congruence. exact Hv.
Qed.

Lemma text_fields_keeps (fields : list (string * list string)) (line k : string)
    (data : PyDict) (v : Val) :
  data !! k = Some v -> text_fields fields line data !! k = Some v.
Proof.
  intros Hv. induction fields as [|[field keywords] rest IH]; [exact Hv|]. simpl.
  destruct (String.eqb field "inventory"); [exact IH|].
  destruct (negb (has_key data field) && keyword_match line keywords) eqn:Hc; [|exact IH].
  apply andb_true_iff in Hc as [Hc _]. apply negb_true_iff in Hc.
  assert (field <> k) as Hne by (intros ->; unfold has_key in Hc; rewrite Hv in Hc; discriminate).
  destruct (find_amount_in_line line); [|exact IH].
  repeat case_match; rewrite ?lookup_insert_ne by exact Hne; exact Hv.
Qed.

Lemma text_step_keeps (st : TextState) (line k : string) (v : Val) :
  k <> "_inventory_source" -> tx_data st !! k = Some v ->
  tx_data (text_step st line) !! k = Some v.
Proof.
  intros Hk Hv. unfold text_step.
  destruct (String.eqb (strip line) ""); [exact Hv|].
  set (ll := lower (strip line)).
  destruct (contains ll "balance sheet" || contains ll "statement of financial position");
    [exact Hv|].
  destruct (contains ll "profit and loss" || contains ll "income statement"
            || contains ll "statement of profit"
            || contains ll "statement of comprehensive income"); [exact Hv|].
  destruct (text_pl st (strip line) ll) as [st1 skip1] eqn:E1.
  assert (H1 : tx_data st1 !! k = Some v).
  { pose proof (text_pl_data st (strip line) ll) as P.
    rewrite E1 in P. cbn [fst] in P. rewrite P. exact Hv. }
  destruct skip1; [exact H1|].
  destruct (text_bs st1 (strip line) ll) as [st2 skip2] eqn:E2.
  assert (H2 : tx_data st2 !! k = Some v).
  { pose proof (text_bs_keeps st1 (strip line) ll k v Hk H1) as P.
    rewrite E2 in P. exact P. }
  destruct skip2; [exact H2|]. cbn [tx_data]. apply text_fields_keeps. exact H2.
Qed.

Lemma text_loop_keeps (lines : list string) (st : TextState) (k : string) (v : Val) :
  k <> "_inventory_source" -> tx_data st !! k = Some v ->
  tx_data (fold_left text_step lines st) !! k = Some v.
Proof.
  revert st. induction lines as [|line lines IH]; intros st Hk Hv; [exact Hv|].
  simpl. apply IH; [exact Hk|]. apply text_step_keeps; assumption.
Qed.

Lemma apply_candidates_at (cands : list (bool * Q)) (k : string) (data : PyDict) :
  apply_candidates cands k data !! k = candidate_pick cands (data !! k).
Proof.
  unfold apply_candidates, candidate_pick.
  destruct cands as [|c cands]; [destruct (data !! k); reflexivity|].
  destruct (last (omap _ (c :: cands))) as [v|]; [apply lookup_insert_eq|].
  unfold has_key. destruct (data !! k) as [x|] eqn:Hx; [exact Hx|]. simpl.
  destruct (last (c :: cands)) as [[b w]|]; [apply lookup_insert_eq | exact Hx].
Qed.

Lemma apply_candidates_other cands k data k' :
  k' <> k -> apply_candidates cands k data !! k' = data !! k'.
Proof.
  intros Hk. unfold apply_candidates. repeat case_match; try reflexivity;
    apply lookup_insert_ne; congruence.
Qed.

Lemma derive_missing_other data k :
  k <> "gross_profit" -> k <> "ebit" -> k <> "ebitda" -> derive_missing data !! k = data !! k.
Proof.
  intros H1 H2 H3. unfold derive_missing. cbv zeta.
  repeat case_match; rewrite ?lookup_insert_ne by congruence; reflexivity.
Qed.

Lemma mark_inventory_other (data : PyDict) (k : string) :
  k <> "_inventory_note" -> k <> "_inventory_source" ->
  mark_inventory_not_found data !! k = data !! k.
Proof.
  intros H1 H2. unfold mark_inventory_not_found.
  destruct (negb _); [|reflexivity]. rewrite !lookup_insert_ne by congruence. reflexivity.
Qed.

(** Claim C5, counterexample: no row resolves the revenue total keywords;
    among the matching rows ("Sales" 100 then "Other revenue" 250, none a
    subtotal) the extractor returns the first, 100, not the last, 250; and
    among two subtotal matches ("Net sales" 100 then "Revenue subtotal"
    300) it returns the first, 100.  The PDF text parser also ends with the
    first of the lines "Sales 100" and "Other revenue 250". *)
Lemma C5_first_match_wins :
  find_value (revenue_frame [("Sales", 100); ("Other revenue", 250)])
    REVENUE_TOTAL_KEYWORDS 0 [] = None /\
  matching_values REVENUE_KEYWORDS "2024"
    (f_rows (revenue_frame [("Sales", 100); ("Other revenue", 250)]))
    = [(false, 100); (false, 250)] /\
  find_value_prefer_subtotal (revenue_frame [("Sales", 100); ("Other revenue", 250)])
    REVENUE_TOTAL_KEYWORDS REVENUE_KEYWORDS 0 [] = Some 100 /\
  find_value (revenue_frame [("Net sales", 100); ("Revenue subtotal", 300)])
    REVENUE_TOTAL_KEYWORDS 0 [] = None /\
  matching_values REVENUE_KEYWORDS "2024"
    (f_rows (revenue_frame [("Net sales", 100); ("Revenue subtotal", 300)]))
    = [(true, 100); (true, 300)] /\
  find_value_prefer_subtotal (revenue_frame [("Net sales", 100); ("Revenue subtotal", 300)])
    REVENUE_TOTAL_KEYWORDS REVENUE_KEYWORDS 0 [] = Some 100 /\
  parse_text_to_data (lines_text ["Profit and Loss"; "Sales 100"; "Other revenue 250"])
    !! "revenue" = Some (VNum 100).
Proof. repeat split; vm_compute; reflexivity. Qed.

(** Claim C5, amended: when no row resolves the total keywords, the Xero
    extractor returns the value of the FIRST matching subtotal row, else of
    the first matching row (first-wins).  In the PDF text parser, a value
    the line loop has recorded is never overwritten by a later line, and
    revenue and COGS end as the LAST candidate line flagged as a subtotal,
    else the value the loop recorded, else the last candidate line. *)
Theorem C5_fallback_is_first_wins (df : Frame) (total_keywords fallback_keywords : list string)
    (col_idx : nat) (skip_cols : list string) (text : string) :
  (find_value df total_keywords col_idx skip_cols = None ->
   find_value_prefer_subtotal df total_keywords fallback_keywords col_idx skip_cols =
   match nth_error (value_cols df skip_cols) col_idx with
   | None => None
   | Some vcol => first_subtotal_else_first (matching_values fallback_keywords vcol (f_rows df))
   end) /\
  (forall lines st k v, k <> "_inventory_source" -> tx_data st !! k = Some v ->
     tx_data (fold_left text_step lines st) !! k = Some v) /\
  parse_text_to_data text !! "revenue" =
    candidate_pick (tx_revenue_candidates (fold_left text_step (split_lines text) tx_init))
      (tx_data (fold_left text_step (split_lines text) tx_init) !! "revenue") /\
  parse_text_to_data text !! "cogs" =
    candidate_pick (tx_cogs_candidates (fold_left text_step (split_lines text) tx_init))
      (tx_data (fold_left text_step (split_lines text) tx_init) !! "cogs").
Proof.
  split; [|split; [exact text_loop_keeps|]].
  - intros H. unfold find_value_prefer_subtotal. rewrite H.
    unfold find_value. destruct (nth_error (value_cols df skip_cols) col_idx) as [vcol|];
      [|reflexivity].
    rewrite find_value_fold. unfold first_subtotal_else_first.
    destruct (find fst (matching_values fallback_keywords vcol (f_rows df))) as [[b v]|];
      reflexivity.
  - unfold parse_text_to_data.
    rewrite !derive_missing_other, !mark_inventory_other by discriminate.
    split.
    + rewrite apply_candidates_other by discriminate. apply apply_candidates_at.
    + rewrite apply_candidates_at, apply_candidates_other by discriminate. reflexivity.
Qed.

Lemma C5_fallback_is_first_wins_witness :
  (find_value (revenue_frame [("Sales", 100); ("Other revenue", 250)])
     REVENUE_TOTAL_KEYWORDS 0 [] = None /\
   find_value_prefer_subtotal (revenue_frame [("Sales", 100); ("Other revenue", 250)])
     REVENUE_TOTAL_KEYWORDS REVENUE_KEYWORDS 0 [] =
   match nth_error (value_cols (revenue_frame [("Sales", 100); ("Other revenue", 250)]) []) 0 with
   | None => None
   | Some vcol => first_subtotal_else_first (matching_values REVENUE_KEYWORDS vcol
                    (f_rows (revenue_frame [("Sales", 100); ("Other revenue", 250)])))
   end) /\
  (tx_data (mkTextState {[ "revenue" := VNum 100 ]} None None false true [] []) !! "revenue"
     = Some (VNum 100) /\
   tx_data (fold_left text_step ["Other revenue 250"]
              (mkTextState {[ "revenue" := VNum 100 ]} None None false true [] [])) !! "revenue"
     = Some (VNum 100)).
Proof.
  split; split.
  - vm_compute. reflexivity.
  - apply (proj1 (C5_fallback_is_first_wins
                    (revenue_frame [("Sales", 100); ("Other revenue", 250)])
                    REVENUE_TOTAL_KEYWORDS REVENUE_KEYWORDS 0 [] "")).
    vm_compute. reflexivity.
  - reflexivity.
  - apply (proj1 (proj2 (C5_fallback_is_first_wins
                           (revenue_frame [("Sales", 100); ("Other revenue", 250)])
                           REVENUE_TOTAL_KEYWORDS REVENUE_KEYWORDS 0 [] ""))).
    + discriminate.
    + reflexivity.
Defined.

(** ** Claim C6 *)

(** When [inventory_source] is "not_found", no inventory is recorded and
    current assets are given, Quick Ratio equals Current Ratio, the Quick
    Ratio carries the note, and Inventory Days is null. *)
Lemma quick_ratio_equals_current_ratio (cur prior prior2 : PyDict) (ca : Q) :
  getq cur "current_assets" = Some ca ->
  getq cur "inventory" = None ->
  get_or cur "_inventory_source" (VStr "") = VStr "not_found" ->
  opt_Qeq (metric_current (calculate_liquidity cur prior prior2) "quick_ratio")
          (metric_current (calculate_liquidity cur prior prior2) "current_ratio") /\
  option_map m_notes (calculate_liquidity cur prior prior2 !! "quick_ratio")
    = Some "Inventory not identified on Balance Sheet — Quick Ratio equals Current Ratio. Inventory Days cannot be calculated." /\
  metric_current (calculate_efficiency cur prior prior2) "inventory_days" = None.
Proof.
  intros Hca Hinv Hsrc.
  unfold metric_current, calculate_liquidity, calculate_efficiency.
  rewrite Hca, Hinv, Hsrc. cbn [list_to_map foldr fst snd].
  rewrite !lookup_insert_ne by discriminate. rewrite !lookup_insert_eq.
  cbn [m_current m_notes option_map fst snd].
  split; [|split; reflexivity].
  unfold opt_Qeq, safe_div, orq.
  destruct (getq cur "current_liabilities") as [cl|]; [|exact I].
  destruct (is_zero cl); [exact I|].
  destruct (is_zero ca) eqn:Hz.
  - apply Qeq_bool_iff in Hz. rewrite Hz. reflexivity.
  - unfold Qdiv. ring.
Qed.

(** Claim C6 (code_bug): with [inventory_source = "not_found"] and no
    current assets, Current Ratio is null while Quick Ratio is 0 (status
    "red"), since the code reads missing current assets as 0. *)
Theorem C6_quick_ratio_zero_without_current_assets :
  option_map m_current (analysed_metric (run_analysis fd_current_only (heap1 rec_no_current_assets))
                          "current_ratio") = Some None /\
  option_map (fun m => (m_current m, m_status m))
    (analysed_metric (run_analysis fd_current_only (heap1 rec_no_current_assets)) "quick_ratio")
    = Some (Some (0 # 380000), "red").
Proof. split; vm_compute; reflexivity. Qed.

(** ** Claim C7 *)

(** Claim C7 (code_bug): the rules substitute defaults for missing inputs.
    With prior operating expenses missing and revenue falling 10%, the
    expense rule fires and formatting its null growth raises [TypeError];
    with both revenues missing, the receivables rule still raises a flag. *)
Theorem C7_red_flags_fire_on_missing_inputs :
  fst (run_analysis fd_two_periods (heap2 (rec_rev 90) (rec_rev 100))) = Err TypeError /\
  match fst (run_analysis fd_two_periods (heap2 (rec_ar 200) (rec_ar 100))) with
  | Ok r => match ar_red_flags r with [FlagReceivables _ _] => True | _ => False end
  | Err _ => False
  end.
Proof. split; vm_compute; [reflexivity | exact I]. Qed.

(** ** Claim C8 *)

(** Claim C8, counterexample: 5 in a line that also holds 120000 is taken
    as a note reference. *)
Lemma C8_large_number_gives_note_ref :
  large_numbers "Revenue 5 120000" = true /\
  is_likely_note_ref_value (Some 5) "Revenue 5 120000" = true.
Proof. split; vm_compute; reflexivity. Qed.

(** Claim C8, amended: the predicate holds exactly when the value is an
    integer in [1, 50] and the line either has a run of four or more digits
    or commas, or has no "$". *)
Theorem C8_note_ref_characterisation (val : option Q) (line : string) :
  is_likely_note_ref_value val line = true <->
  exists v, val = Some v /\ 1 <= v /\ v <= 50 /\ is_integral v = true /\
    (large_numbers line = true \/ contains line "$" = false).
Proof.
  unfold is_likely_note_ref_value. destruct val as [v|].
  - split.
    + intros H.
      destruct (Qle_bool 1 v) eqn:E1, (Qle_bool v 50) eqn:E2, (is_integral v) eqn:E3;
        simpl in H; try discriminate.
      apply Qle_bool_iff in E1, E2.
      exists v. split; [reflexivity|]. split; [exact E1|]. split; [exact E2|].
      split; [exact E3|].
      destruct (large_numbers line); [left; reflexivity|]. right.
      destruct (contains line "$"); [discriminate | reflexivity].
    + intros (w & Hw & H1 & H2 & H3 & H4). injection Hw as <-.
      apply Qle_bool_iff in H1, H2. rewrite H1, H2, H3. simpl.
      destruct H4 as [H4|H4]; rewrite H4; [reflexivity|].
      destruct (large_numbers line); reflexivity.
  - split; [discriminate | intros (w & Hw & _); discriminate].
Qed.

Lemma C8_note_ref_characterisation_witness :
  exists v, Some 5 = Some v /\ 1 <= v /\ v <= 50 /\ is_integral v = true /\
    (large_numbers "Note 5" = true \/ contains "Note 5" "$" = false).
Proof.
  apply (proj1 (C8_note_ref_characterisation (Some 5) "Note 5")).
  vm_compute. reflexivity.
Defined.

(** ** Claim C9 *)

Lemma heap_grows_refl (h : Heap) : heap_grows h h.
Proof. intros l. split; [auto|]. intros d Hd. exists d. auto. Qed.

Lemma heap_grows_trans (h1 h2 h3 : Heap) :
  heap_grows h1 h2 -> heap_grows h2 h3 -> heap_grows h1 h3.
Proof.
  intros H12 H23 l. destruct (H12 l) as [N12 S12], (H23 l) as [N23 S23]. split; [auto|].
  intros d Hd. destruct (S12 d Hd) as (d2 & Hd2 & K2 & P2).
  destruct (S23 d2 Hd2) as (d3 & Hd3 & K3 & P3).
  exists d3. split; [exact Hd3|]. split.
  - intros k Hk. rewrite K3, K2; auto.
  - intros Hnp. assert (d2 = d) as -> by auto. apply P3. exact Hnp.
Qed.

Lemma store_ebit_grows (h : Heap) (r : option positive) : heap_grows h (store_ebit h r).
Proof.
  unfold store_ebit. destruct r as [l0|]; [|apply heap_grows_refl].
  destruct (h !! l0) as [p|] eqn:Hl0; [|apply heap_grows_refl].
  destruct (negb (dict_truthy p)); [apply heap_grows_refl|].
  destruct (eo_ebit (compute_ebit_from_components p)) as [e|] eqn:He;
    [|apply heap_grows_refl].
  intros l. destruct (decide (l = l0)) as [->|Hne].
  - rewrite lookup_insert_eq. split; [congruence|].
    intros d Hd. rewrite Hl0 in Hd. injection Hd as <-.
    eexists. split; [reflexivity|]. split.
    + intros k Hk. unfold derived_keys in Hk. simpl in Hk.
      rewrite !lookup_insert_ne; try reflexivity; intros Heq; subst k; tauto.
    + intros Hnp. unfold compute_ebit_from_components in He.
      rewrite Hnp in He. discriminate.
  - rewrite lookup_insert_ne by congruence. split; [auto|].
    intros d Hd. exists d. auto.
Qed.

Lemma precompute_grows (h : Heap) (refs : list (option positive)) :
  heap_grows h (precompute h refs).
Proof.
  unfold precompute. revert h. induction refs as [|r refs IH]; intros h.
  - apply heap_grows_refl.
  - simpl. eapply heap_grows_trans; [apply store_ebit_grows | apply IH].
Qed.

Lemma precompute_frame (h : Heap) (refs : list (option positive)) (l : positive) :
  ~ In (Some l) refs -> precompute h refs !! l = h !! l.
Proof.
  unfold precompute. revert h. induction refs as [|r refs IH]; intros h Hn; [reflexivity|].
  simpl. rewrite IH by (simpl in Hn; tauto).
  unfold store_ebit. destruct r as [l0|]; [|reflexivity].
  assert (l0 <> l) by (intros ->; simpl in Hn; tauto).
  destruct (h !! l0) as [p|]; [|reflexivity].
  destruct (negb (dict_truthy p)); [reflexivity|].
  destruct (eo_ebit (compute_ebit_from_components p)); [|reflexivity].
  apply lookup_insert_ne. exact H.
Qed.

Lemma run_analysis_heap (fd : FinancialData) (h : Heap) :
  snd (run_analysis fd h) =
  precompute h [period_ref h (fd_data fd) "current"; period_ref h (fd_data fd) "prior";
                period_ref h (fd_data fd) "prior2"].
Proof.
  unfold run_analysis. cbv zeta.
  destruct (detect_red_flags _ _ _ _); reflexivity.
Qed.

Lemma compute_ebit_insert_derived (d : PyDict) (k : string) (v : Val) :
  In k derived_keys ->
  compute_ebit_from_components (<[k := v]> d) = compute_ebit_from_components d.
Proof.
  intros Hk. unfold derived_keys in Hk.
  destruct Hk as [<-|[<-|[<-|[]]]];
    unfold compute_ebit_from_components, getq, get, get_or;
    rewrite !lookup_insert_ne by discriminate; reflexivity.
Qed.

Lemma compute_ebit_with_derived (d : PyDict) :
  compute_ebit_from_components (with_derived d) = compute_ebit_from_components d.
Proof.
  unfold with_derived. cbv zeta.
  rewrite !compute_ebit_insert_derived by (unfold derived_keys; simpl; tauto).
  reflexivity.
Qed.

Lemma with_derived_idem (d : PyDict) : with_derived (with_derived d) = with_derived d.
Proof.
  unfold with_derived at 1. rewrite compute_ebit_with_derived. unfold with_derived.
  apply map_eq. intros i. rewrite !lookup_insert.
  repeat case_decide; congruence.
Qed.

Lemma with_derived_truthy (d : PyDict) : dict_truthy (with_derived d) = true.
Proof.
  unfold dict_truthy. destruct (Nat.eqb_spec (size (with_derived d)) 0) as [E|E];
    [|reflexivity].
  apply map_size_empty_iff in E.
  assert (with_derived d !! "_ebit_components" = None) as H by (rewrite E; apply lookup_empty).
  unfold with_derived in H. rewrite lookup_insert_eq in H. discriminate.
Qed.

Lemma store_ebit_other (h : Heap) (r : option positive) (l : positive) :
  r <> Some l -> store_ebit h r !! l = h !! l.
Proof.
  intros Hr. unfold store_ebit. destruct r as [l0|]; [|reflexivity].
  destruct (h !! l0) as [p|]; [|reflexivity].
  destruct (negb (dict_truthy p)); [reflexivity|].
  destruct (eo_ebit _); [|reflexivity].
  apply lookup_insert_ne. congruence.
Qed.

Lemma store_ebit_here (h : Heap) (l : positive) (d : PyDict) :
  h !! l = Some d -> dict_truthy d = true ->
  store_ebit h (Some l) !! l = Some (ebit_stored d).
Proof.
  intros Hd Ht. unfold store_ebit, ebit_stored. rewrite Hd, Ht. simpl.
  destruct (eo_ebit (compute_ebit_from_components d)) as [e|] eqn:He; [|exact Hd].
  rewrite lookup_insert_eq. unfold with_derived. rewrite He. reflexivity.
Qed.

Lemma ebit_stored_idem (d : PyDict) : ebit_stored (ebit_stored d) = ebit_stored d.
Proof.
  unfold ebit_stored at 2.
  destruct (eo_ebit (compute_ebit_from_components d)) as [e|] eqn:He.
  - unfold ebit_stored. rewrite compute_ebit_with_derived, He. apply with_derived_idem.
  - unfold ebit_stored. rewrite He. reflexivity.
Qed.

Lemma ebit_stored_truthy (d : PyDict) : dict_truthy d = true -> dict_truthy (ebit_stored d) = true.
Proof.
  intros H. unfold ebit_stored. destruct (eo_ebit _); [apply with_derived_truthy | exact H].
Qed.

Lemma precompute_in (refs : list (option positive)) (h : Heap) (l : positive) (d : PyDict) :
  h !! l = Some d -> dict_truthy d = true -> In (Some l) refs ->
  precompute h refs !! l = Some (ebit_stored d).
Proof.
  unfold precompute. revert h d. induction refs as [|r refs IH]; intros h d Hd Ht Hin;
    [destruct Hin|].
  simpl. destruct (decide (r = Some l)) as [->|Hne].
  - assert (H1 : store_ebit h (Some l) !! l = Some (ebit_stored d))
      by (apply store_ebit_here; assumption).
    destruct (in_dec (fun x y : option positive => decide (x = y)) (Some l) refs) as [Hin'|Hin'].
    + rewrite (IH _ _ H1 (ebit_stored_truthy d Ht) Hin'). rewrite ebit_stored_idem.
      reflexivity.
    + fold (precompute (store_ebit h (Some l)) refs).
      rewrite precompute_frame by exact Hin'. exact H1.
  - destruct Hin as [Heq|Hin]; [congruence|].
    apply IH; [|exact Ht|exact Hin]. rewrite store_ebit_other by exact Hne. exact Hd.
Qed.

Lemma period_ref_some (h : Heap) (data : gmap string Slot) (k : string) (l : positive) :
  period_ref h data k = Some l -> exists d, h !! l = Some d /\ dict_truthy d = true.
Proof.
  unfold period_ref. destruct (data !! k) as [[|l0]|]; try discriminate.
  destruct (h !! l0) as [d|] eqn:Hd; [|discriminate].
  destruct (dict_truthy d) eqn:Ht; [|discriminate]. intros [= <-]. eauto.
Qed.

(** Claim C9, counterexample: [run_analysis] adds [_ebit_computed] to the
    caller's current-period dict. *)
Lemma C9_run_analysis_adds_keys :
  heap1 rec_ebit_150 !! loc1 ≫= (fun d => d !! "_ebit_computed") = None /\
  snd (run_analysis fd_current_only (heap1 rec_ebit_150)) !! loc1
    ≫= (fun d => d !! "_ebit_computed") = Some (VNum 150).
Proof. split; vm_compute; reflexivity. Qed.

(** Claim C9, amended: [run_analysis] writes into the caller's period
    dicts.  A dict referenced as the current, prior or prior2 period (so
    non-empty) whose net profit is present ends as [with_derived d]: the
    keys [_ebit_computed], [_ebitda_computed] and [_ebit_components] are
    set, every other key is kept as it was.  Every other dict, and every
    dict without a net profit, is left unchanged, and no dict is added. *)
Theorem C9_run_analysis_only_adds_derived_keys (fd : FinancialData) (h : Heap) (l : positive) :
  (h !! l = None -> snd (run_analysis fd h) !! l = None) /\
  (forall d, h !! l = Some d ->
     (exists k, In k ["current"; "prior"; "prior2"] /\ period_ref h (fd_data fd) k = Some l) ->
     getq d "net_profit" <> None ->
     snd (run_analysis fd h) !! l = Some (with_derived d)) /\
  (forall d, h !! l = Some d ->
     ((forall k, In k ["current"; "prior"; "prior2"] -> period_ref h (fd_data fd) k <> Some l)
      \/ getq d "net_profit" = None) ->
     snd (run_analysis fd h) !! l = Some d).
Proof.
  rewrite run_analysis_heap.
  destruct (precompute_grows h [period_ref h (fd_data fd) "current";
              period_ref h (fd_data fd) "prior"; period_ref h (fd_data fd) "prior2"] l)
    as [HN HS].
  split; [exact HN|]. split.
  - intros d Hd (k & Hk & Hr) Hnp.
    destruct (period_ref_some _ _ _ _ Hr) as (d0 & Hd0 & Ht). rewrite Hd in Hd0.
    injection Hd0 as <-.
    rewrite (precompute_in _ _ _ d Hd Ht).
    + unfold ebit_stored, compute_ebit_from_components.
      destruct (getq d "net_profit"); [reflexivity | congruence].
    + rewrite <- Hr. simpl. destruct Hk as [<-|[<-|[<-|[]]]]; tauto.
  - intros d Hd [Hn|Hnp].
    + rewrite precompute_frame; [exact Hd|]. simpl.
      intros [H|[H|[H|[]]]]; refine (Hn _ _ H); simpl; tauto.
    + destruct (HS d Hd) as (d' & Hd' & _ & Hp). rewrite Hd', (Hp Hnp). reflexivity.
Qed.

Lemma C9_run_analysis_only_adds_derived_keys_witness :
  (heap1 rec_ebit_150 !! loc1 = Some rec_ebit_150 /\
   (exists k, In k ["current"; "prior"; "prior2"] /\
      period_ref (heap1 rec_ebit_150) (fd_data fd_current_only) k = Some loc1) /\
   getq rec_ebit_150 "net_profit" <> None) /\
  snd (run_analysis fd_current_only (heap1 rec_ebit_150)) !! loc1 = Some (with_derived rec_ebit_150).
Proof.
  assert (H1 : heap1 rec_ebit_150 !! loc1 = Some rec_ebit_150) by reflexivity.
  assert (H2 : exists k, In k ["current"; "prior"; "prior2"] /\
      period_ref (heap1 rec_ebit_150) (fd_data fd_current_only) k = Some loc1)
    by (exists "current"; split; [simpl; tauto | vm_compute; reflexivity]).
  assert (H3 : getq rec_ebit_150 "net_profit" <> None) by (vm_compute; discriminate).
  split; [split; [exact H1 | split; [exact H2 | exact H3]]|].
  exact (proj1 (proj2 (C9_run_analysis_only_adds_derived_keys fd_current_only
                         (heap1 rec_ebit_150) loc1)) rec_ebit_150 H1 H2 H3).
Defined.

(** ** Claim C10 *)

(** Claim C10: setting interest expense, tax expense or depreciation to a
    parsed zero, or to null, gives the same EBIT result (figures,
    components and notes) as leaving it out, and that result carries the
    component's "not identified" note. *)
Theorem C10_zero_indistinguishable_from_missing (d : PyDict) (k : string) (z : Q) :
  In k ["interest_expense"; "tax_expense"; "depreciation"] -> z == 0 ->
  compute_ebit_from_components (<[k := VNum z]> d) = compute_ebit_from_components (delete k d) /\
  compute_ebit_from_components (<[k := VNone]> d) = compute_ebit_from_components (delete k d) /\
  (getq d "net_profit" <> None ->
   In (not_identified_note k) (eo_notes (compute_ebit_from_components (delete k d)))).
Proof.
  intros Hk Hz.
  assert (Hzero : is_zero z = true) by (apply Qeq_bool_iff; exact Hz).
  destruct Hk as [<-|[<-|[<-|[]]]];
    unfold compute_ebit_from_components, getq, get, get_or;
    simplify_map_eq; cbn [num orq default]; rewrite ?Hzero;
    repeat split; try reflexivity;
    intros Hnp; destruct (num (default VNone (d !! "net_profit"))); try congruence;
    unfold not_identified_note; simpl;
    rewrite ?in_app_iff; simpl; auto 10.
Qed.

Lemma C10_zero_indistinguishable_from_missing_witness :
  (In "interest_expense" ["interest_expense"; "tax_expense"; "depreciation"] /\ 0 # 5 == 0) /\
  compute_ebit_from_components (<["interest_expense" := VNum (0 # 5)]> rec_ebit_150)
    = compute_ebit_from_components (delete "interest_expense" rec_ebit_150) /\
  compute_ebit_from_components (<["interest_expense" := VNone]> rec_ebit_150)
    = compute_ebit_from_components (delete "interest_expense" rec_ebit_150) /\
  (getq rec_ebit_150 "net_profit" <> None ->
   In (not_identified_note "interest_expense")
      (eo_notes (compute_ebit_from_components (delete "interest_expense" rec_ebit_150)))).
Proof.
  split; [split; [left; reflexivity | reflexivity]|].
  apply C10_zero_indistinguishable_from_missing; [left; reflexivity | reflexivity].
Defined.

(** * Further properties of the code *)

Lemma list_to_map_lookup_in {A} (l : list (string * A)) (k : string) (m : A) :
  (list_to_map l : gmap string A) !! k = Some m -> In (k, m) l.
Proof. intros H. apply elem_of_list_to_map_2 in H. apply list_elem_of_In. exact H. Qed.

(** X1: In the liquidity, profitability, efficiency and leverage groups, every metric whose current value is None has the status "grey". *)
Theorem null_current_is_grey_outside_growth (cur prior prior2 : PyDict) (k : string) (m : MetricResult) :
  (calculate_liquidity cur prior prior2 !! k = Some m \/
   calculate_profitability cur prior prior2 !! k = Some m \/
   calculate_efficiency cur prior prior2 !! k = Some m \/
   calculate_leverage cur prior prior2 !! k = Some m) ->
  m_current m = None -> m_status m = "grey".
Proof.
  intros [H|[H|[H|H]]];
    [unfold calculate_liquidity in H | unfold calculate_profitability in H
    | unfold calculate_efficiency in H | unfold calculate_leverage in H];
    cbv zeta in H; apply list_to_map_lookup_in in H; simpl in H;
    repeat (destruct H as [H|H]; [injection H as _ <-; cbn [m_current m_status];
                                  intros Hc; rewrite ?Hc; reflexivity|]);
    destruct H.
Qed.

Lemma any_not_none_false_lookup (d : PyDict) (k : string) (v : Val) :
  any_not_none d = false -> d !! k = Some v -> v = VNone.
Proof.
  intros Hn Hk. unfold any_not_none in Hn.
  apply elem_of_map_to_list in Hk. apply list_elem_of_In in Hk.
  destruct v; [reflexivity| | | |];
    exfalso; assert (existsb (fun kv : string * Val => match kv.2 with VNone => false | _ => true end)
                       (map_to_list d) = true) as Ht
      by (apply existsb_exists; eexists; split; [exact Hk | reflexivity]);
    congruence.
Qed.

Lemma any_not_none_false_getq (d : PyDict) (k : string) :
  any_not_none d = false -> getq d k = None.
Proof.
  intros Hn. unfold getq, get. destruct (d !! k) as [v|] eqn:E; [|reflexivity].
  rewrite (any_not_none_false_lookup d k v Hn E). reflexivity.
Qed.

Lemma calculate_growth_no_prior (cur prior prior2 : PyDict) :
  any_not_none prior = false -> calculate_growth cur prior prior2 = ∅.
Proof. intros Hn. unfold calculate_growth. rewrite Hn, orb_true_r. reflexivity. Qed.

Lemma detect_red_flags_ok (cur prior prior2 : PyDict) (metrics : Metrics) :
  metrics !! "expense_growth" = None -> exists flags, detect_red_flags cur prior prior2 metrics = Ok flags.
Proof. intros H. unfold detect_red_flags. cbv zeta. rewrite H. eexists. reflexivity. Qed.

Lemma precompute_keeps_all_none (h : Heap) (refs : list (option positive)) (r : option positive) :
  any_not_none (deref h r) = false -> any_not_none (deref (precompute h refs) r) = false.
Proof.
  intros Hn. destruct r as [l|]; [|exact Hn]. unfold deref in *.
  destruct (precompute_grows h refs l) as [HN HS].
  destruct (h !! l) as [d|] eqn:E.
  - destruct (HS d eq_refl) as (d' & Hd' & _ & Hnp).
    rewrite Hd'. simpl in *. rewrite Hnp; [exact Hn|].
    apply any_not_none_false_getq. exact Hn.
  - rewrite HN by reflexivity. exact Hn.
Qed.

(** X2: When the prior period record is missing or holds only None values, run_analysis returns a result and raises no error. *)
Theorem run_analysis_ok_without_prior (fd : FinancialData) (h : Heap) :
  any_not_none (deref h (period_ref h (fd_data fd) "prior")) = false ->
  exists r, fst (run_analysis fd h) = Ok r.
Proof.
  intros Hn. unfold run_analysis. cbv zeta.
  match goal with |- context [detect_red_flags ?c ?p ?p2 ?m] =>
    destruct (detect_red_flags_ok c p p2 m) as [flags Hf]; [|rewrite Hf; eexists; reflexivity]
  end.
  rewrite calculate_growth_no_prior by (apply precompute_keeps_all_none; exact Hn).
  apply lookup_union_None; split; [apply lookup_union_None; split|].
  all: try (apply lookup_union_None; split).
  all: try (apply lookup_union_None; split).
  all: try apply lookup_empty.
  all: first [unfold calculate_leverage | unfold calculate_efficiency
             | unfold calculate_profitability | unfold calculate_liquidity];
       cbv zeta; apply not_elem_of_list_to_map_1; simpl; set_solver.
Qed.

(** X4: _trend on two numbers returns "→" exactly when |current - prior| < 0.001. A rise of at least 0.001 gives "↑" when higher is better and "↓" otherwise; a fall of at least 0.001 gives "↓" when higher is better and "↑" otherwise. *)
Theorem trend_arrows (c p : Q) (higher_better : bool) :
  (trend (Some c) (Some p) higher_better = "→" <-> Qabs (c - p) < 1 # 1000) /\
  (trend (Some c) (Some p) higher_better = (if higher_better then "↑" else "↓") <->
     1 # 1000 <= c - p) /\
  (trend (Some c) (Some p) higher_better = (if higher_better then "↓" else "↑") <->
     1 # 1000 <= p - c).
Proof.
  assert (Ha : (0 <= c - p /\ Qabs (c - p) == c - p) \/ (c - p <= 0 /\ Qabs (c - p) == - (c - p))).
  { destruct (Qlt_le_dec 0 (c - p)).
    - left. split; [lra | apply Qabs_pos; lra].
    - right. split; [lra | apply Qabs_neg; lra]. }
  unfold trend, Qgtb, Qltb.
  destruct (Qle_bool (1 # 1000) (Qabs (c - p))) eqn:E1, (Qle_bool c p) eqn:E2;
    qbool; destruct Ha as [[Ha1 Ha2]|[Ha1 Ha2]]; destruct higher_better; cbn [negb];
    repeat split; intros H; first [reflexivity | discriminate | lra | exfalso; lra].
Qed.

(** X5: _traffic_light is monotone in the value, ranking red < amber < green: with green-above thresholds a larger value never gets a worse status, and with green-below thresholds a smaller value never does. *)
Theorem traffic_light_monotone (g a v w : Q) :
  v <= w ->
  (status_rank (traffic_light (Some v) (GreenAbove g a))
     <= status_rank (traffic_light (Some w) (GreenAbove g a)))%nat /\
  (status_rank (traffic_light (Some w) (GreenBelow g a))
     <= status_rank (traffic_light (Some v) (GreenBelow g a)))%nat.
Proof.
  intros Hvw. unfold traffic_light, Qgeb. split.
  - destruct (Qle_bool g v) eqn:E1, (Qle_bool a v) eqn:E2, (Qle_bool g w) eqn:E3,
      (Qle_bool a w) eqn:E4; qbool; unfold status_rank; cbn; first [lia | exfalso; lra].
  - destruct (Qle_bool v g) eqn:E1, (Qle_bool v a) eqn:E2, (Qle_bool w g) eqn:E3,
      (Qle_bool w a) eqn:E4; qbool; unfold status_rank; cbn; first [lia | exfalso; lra].
Qed.

Lemma deviation_le (x w : Q) : 1 <= w -> (x / w * 100 <= 20 <-> x <= w / 5).
Proof.
  intros Hw. remember (x / w) as y eqn:Ey.
  assert (Hx : x == y * w) by (rewrite Ey; field; intros H; lra).
  assert (Hw5 : w / 5 == w * (1 # 5)) by (field).
  rewrite Hw5. split; intros H; nra.
Qed.

Lemma deviation_bool (x w : Q) : 1 <= w -> (Qle_bool (x / w * 100) 20 = true <-> x <= w / 5).
Proof. intros Hw. rewrite Qle_bool_iff. apply deviation_le, Hw. Qed.

(** X6: benchmark_status returns "green" exactly when low <= actual <= high, "amber" when actual lies outside the range by at most 20% of max(high - low, 1), and "red" when it lies outside by more, whatever higher_is_better is. *)
Theorem benchmark_status_bands (a low high : Q) (higher_is_better : bool) :
  (benchmark_status (Some a) low high higher_is_better = "green" <-> low <= a /\ a <= high) /\
  (benchmark_status (Some a) low high higher_is_better = "amber" <->
     ~ (low <= a /\ a <= high) /\
     ((a < low /\ low - a <= Qmax (high - low) 1 / 5) \/
      (low <= a /\ a - high <= Qmax (high - low) 1 / 5))) /\
  (benchmark_status (Some a) low high higher_is_better = "red" <->
     (a < low /\ Qmax (high - low) 1 / 5 < low - a) \/
     (low <= a /\ high < a /\ Qmax (high - low) 1 / 5 < a - high)).
Proof.
  unfold benchmark_status, Qltb. cbv zeta.
  assert (Hw : 1 <= Qmax (high - low) 1) by apply Q.le_max_r.
  set (w := Qmax (high - low) 1) in *.
  pose proof (deviation_bool (low - a) w Hw) as D1.
  pose proof (deviation_bool (a - high) w Hw) as D2.
  destruct (Qle_bool low a) eqn:E1, (Qle_bool a high) eqn:E2; cbn [andb negb];
    [| destruct (Qle_bool ((a - high) / w * 100) 20) eqn:E3
     | destruct (Qle_bool ((low - a) / w * 100) 20) eqn:E3
     | destruct (Qle_bool ((low - a) / w * 100) 20) eqn:E3];
    try (apply D1 in E3 || apply D2 in E3);
    try (assert (E3' : ~ (low - a <= w / 5)) by (rewrite <- D1; congruence));
    try (assert (E3' : ~ (a - high <= w / 5)) by (rewrite <- D2; congruence));
    qbool;
    (split; [|split]); split; intros H;
    first [reflexivity | discriminate | intuition lra | exfalso; intuition lra].
Qed.

Lemma benchmark_fold_notin cur rev bms L acc k :
  ~ In k (map fst L) ->
  fold_left (benchmark_step cur rev bms) L acc !! k = acc !! k.
Proof.
  revert acc; induction L as [|[bk [dk lb]] L IH]; intros acc Hk; simpl in *; [reflexivity|].
  rewrite IH by tauto. destruct (negb _); [reflexivity|].
  apply lookup_insert_ne. intros ->. tauto.
Qed.

Lemma benchmark_fold_in cur rev bms L acc bk dk lb :
  In (bk, (dk, lb)) L -> NoDup (map fst L) ->
  fold_left (benchmark_step cur rev bms) L acc !! bk =
  benchmark_step cur rev bms acc (bk, (dk, lb)) !! bk.
Proof.
  revert acc; induction L as [|[bk' [dk' lb']] L IH]; intros acc Hin Hnd; simpl in *; [tauto|].
  inversion Hnd as [|x l Hnotin Hnd']; subst. rewrite list_elem_of_In in Hnotin.
  destruct Hin as [Heq|Hin].
  - injection Heq as <- <- <-. apply benchmark_fold_notin. exact Hnotin.
  - rewrite IH by assumption.
    assert (Hne : bk' <> bk).
    { intros ->. apply Hnotin. apply in_map_iff. exists (bk, (dk, lb)). auto. }
    unfold benchmark_step. destruct (negb (dict_truthy (default ∅ (bms !! bk)))),
      (negb (dict_truthy (default ∅ (bms !! bk')))); try reflexivity;
      rewrite ?lookup_insert_eq, ?lookup_insert_ne by congruence; try reflexivity.
Qed.

Lemma benchmark_map_NoDup : NoDup (map fst benchmark_map).
Proof. simpl. repeat constructor; set_solver. Qed.

Lemma benchmark_comparisons_lookup cur bms k :
  calculate_benchmark_comparisons cur bms !! k =
  if negb (truthyq (getq cur "revenue")) || Nat.eqb (size bms) 0 then None else
  match find (fun e => String.eqb e.1 k) benchmark_map with
  | Some e => benchmark_step cur (getq cur "revenue") bms ∅ e !! k
  | None => None
  end.
Proof.
  unfold calculate_benchmark_comparisons.
  destruct (negb (truthyq (getq cur "revenue")) || Nat.eqb (size bms) 0); [apply lookup_empty|].
  cbn [find fst].
  destruct (String.eqb "cost_of_sales" k) eqn:E1;
    [apply String.eqb_eq in E1; subst; apply benchmark_fold_in; [simpl; tauto | apply benchmark_map_NoDup]|].
  destruct (String.eqb "labour" k) eqn:E2;
    [apply String.eqb_eq in E2; subst; apply benchmark_fold_in; [simpl; tauto | apply benchmark_map_NoDup]|].
  destruct (String.eqb "rent" k) eqn:E3;
    [apply String.eqb_eq in E3; subst; apply benchmark_fold_in; [simpl; tauto | apply benchmark_map_NoDup]|].
  destruct (String.eqb "motor_vehicle" k) eqn:E4;
    [apply String.eqb_eq in E4; subst; apply benchmark_fold_in; [simpl; tauto | apply benchmark_map_NoDup]|].
  rewrite benchmark_fold_notin; [rewrite lookup_empty; unfold benchmark_map; cbn [find fst]; rewrite E1, E2, E3, E4; reflexivity|].
  apply String.eqb_neq in E1, E2, E3, E4. simpl. intuition congruence.
Qed.

(** X7: calculate_benchmark_comparisons returns an empty dict when revenue is missing or zero or there are no benchmarks. Otherwise it has an entry exactly for each of cost_of_sales, labour, rent and motor_vehicle whose benchmark dict is present and non-empty. *)
Theorem benchmark_comparisons_keys (cur : PyDict) (bms : gmap string PyDict) :
  ((truthyq (getq cur "revenue") = false \/ bms = ∅) ->
     calculate_benchmark_comparisons cur bms = ∅) /\
  (forall k, is_Some (calculate_benchmark_comparisons cur bms !! k) <->
     truthyq (getq cur "revenue") = true /\
     In k ["cost_of_sales"; "labour"; "rent"; "motor_vehicle"] /\
     dict_truthy (default ∅ (bms !! k)) = true).
Proof.
  split.
  - intros [H| ->]; unfold calculate_benchmark_comparisons; [rewrite H; reflexivity|].
    rewrite map_size_empty, orb_true_r. reflexivity.
  - intros k. rewrite benchmark_comparisons_lookup.
    destruct (truthyq (getq cur "revenue")); cbn [negb orb];
      [|split; [intros [? H]; discriminate | intros [H _]; discriminate]].
    destruct (Nat.eqb (size bms) 0) eqn:Es.
    + apply Nat.eqb_eq, map_size_empty_iff in Es. subst bms.
      rewrite lookup_empty. cbn. split; [intros [? H]; discriminate | intros [_ [_ H]]; discriminate].
    + unfold benchmark_map. cbn [find fst].
      destruct (String.eqb "cost_of_sales" k) eqn:E1;
        [apply String.eqb_eq in E1; subst|];
      [|destruct (String.eqb "labour" k) eqn:E2;
        [apply String.eqb_eq in E2; subst|]];
      [| |destruct (String.eqb "rent" k) eqn:E3;
        [apply String.eqb_eq in E3; subst|]];
      [| | |destruct (String.eqb "motor_vehicle" k) eqn:E4;
        [apply String.eqb_eq in E4; subst|]].
      1-4: unfold benchmark_step; destruct (dict_truthy (default ∅ (bms !! _))) eqn:Ed; cbn [negb];
        [rewrite lookup_insert_eq; split; [intros _; simpl; tauto | intros _; eexists; reflexivity]
        | rewrite lookup_empty; split; [intros [? H]; discriminate | intros [_ [_ H]]; discriminate]].
      apply String.eqb_neq in E1, E2, E3, E4.
      split; [intros [? H]; discriminate | intros [_ [H _]]; simpl in H; intuition congruence].
Qed.

(** X8: Each comparison carries the benchmark's low and high unchanged. Its actual percentage is cogs/revenue for cost_of_sales and operating_expenses/revenue for labour (None when the numerator is missing or zero), and always None for rent and motor_vehicle. *)
Theorem benchmark_comparisons_values (cur : PyDict) (bms : gmap string PyDict) (k : string) (c : Comparison) :
  calculate_benchmark_comparisons cur bms !! k = Some c ->
  c_benchmark_low c = get (default ∅ (bms !! k)) "low" /\
  c_benchmark_high c = get (default ∅ (bms !! k)) "high" /\
  (k = "cost_of_sales" -> c_actual_pct c =
     if truthyq (getq cur "cogs") then pct (getq cur "cogs") (getq cur "revenue") else None) /\
  (k = "labour" -> c_actual_pct c =
     if truthyq (getq cur "operating_expenses")
     then pct (getq cur "operating_expenses") (getq cur "revenue") else None) /\
  (k = "rent" \/ k = "motor_vehicle" -> c_actual_pct c = None).
Proof.
  rewrite benchmark_comparisons_lookup.
  destruct (negb (truthyq (getq cur "revenue")) || Nat.eqb (size bms) 0); [discriminate|].
  unfold benchmark_map. cbn [find fst].
  destruct (String.eqb "cost_of_sales" k) eqn:E1;
    [apply String.eqb_eq in E1; subst|];
  [|destruct (String.eqb "labour" k) eqn:E2;
    [apply String.eqb_eq in E2; subst|]];
  [| |destruct (String.eqb "rent" k) eqn:E3;
    [apply String.eqb_eq in E3; subst|]];
  [| | |destruct (String.eqb "motor_vehicle" k) eqn:E4;
    [apply String.eqb_eq in E4; subst|]]; [| | | |discriminate].
  all: unfold benchmark_step; destruct (dict_truthy (default ∅ (bms !! _))); cbn [negb];
    [rewrite lookup_insert_eq; intros H; injection H as <-; cbn;
     repeat split; intros; first [reflexivity | discriminate | destruct H as [H|H]; discriminate]
    | rewrite lookup_empty; discriminate].
Qed.

Lemma benchmark_comparisons_values_witness :
  let cur : PyDict := <["revenue" := VNum 200]> (<["cogs" := VNum 50]> ∅) in
  let bms : gmap string PyDict := <["cost_of_sales" := <["low" := VNum 20]> (<["high" := VNum 30]> ∅)]> ∅ in
  calculate_benchmark_comparisons cur bms !! "cost_of_sales" =
    Some (mkComparison "Cost of Sales" (Some (5000 # 200)) (VNum 20) (VNum 30)) /\
  c_actual_pct (mkComparison "Cost of Sales" (Some (5000 # 200)) (VNum 20) (VNum 30)) =
    (if truthyq (getq cur "cogs") then pct (getq cur "cogs") (getq cur "revenue") else None).
Proof.
  intros cur bms. split; [vm_compute; reflexivity|].
  apply (benchmark_comparisons_values cur bms "cost_of_sales"); [vm_compute; reflexivity | reflexivity].
Defined.

(** X3: detect_red_flags raises exactly when the expense-growth rule fires (expense growth or 0 exceeds revenue growth or 0 plus 2) while one of the two growth values is None, since formatting None with :.1f fails. *)
Theorem detect_red_flags_raises (cur prior prior2 : PyDict) (metrics : Metrics) :
  (exists e, detect_red_flags cur prior prior2 metrics = Err e) <->
  exists em rm,
    metrics !! "expense_growth" = Some em /\ metrics !! "revenue_growth" = Some rm /\
    Qgtb (orq (m_current em) 0) (orq (m_current rm) 0 + 2) = true /\
    (m_current em = None \/ m_current rm = None).
Proof.
  unfold detect_red_flags. cbv zeta.
  destruct (metrics !! "expense_growth") as [em|], (metrics !! "revenue_growth") as [rm|].
  1: destruct (Qgtb (orq (m_current em) 0) (orq (m_current rm) 0 + 2)) eqn:Eg;
     [destruct (m_current em) as [e|] eqn:Ece, (m_current rm) as [r|] eqn:Ecr|].
  all: simpl.
  all: first
    [ split; [intros _; do 2 eexists; repeat split; rewrite ?Ece, ?Ecr; eauto | intros _; eexists; reflexivity]
    | split; [intros [? H]; discriminate
             | intros (em' & rm' & H1 & H2 & H3 & H4); simplify_eq; intuition congruence] ].
Qed.

Lemma run_analysis_ok_without_prior_witness :
  any_not_none (deref (heap2 (rec_rev 100) (<["revenue" := VNone]> ∅))
                  (period_ref (heap2 (rec_rev 100) (<["revenue" := VNone]> ∅))
                     (fd_data fd_two_periods) "prior")) = false /\
  exists r, fst (run_analysis fd_two_periods (heap2 (rec_rev 100) (<["revenue" := VNone]> ∅))) = Ok r.
Proof.
  split; [vm_compute; reflexivity|].
  apply run_analysis_ok_without_prior. vm_compute. reflexivity.
Defined.

Lemma traffic_light_monotone_witness :
  1 <= 2 /\
  (status_rank (traffic_light (Some (1 # 1)) (GreenAbove (3 # 2) (1 # 1)))
     <= status_rank (traffic_light (Some (2 # 1)) (GreenAbove (3 # 2) (1 # 1))))%nat /\
  (status_rank (traffic_light (Some (2 # 1)) (GreenBelow (3 # 2) (1 # 1)))
     <= status_rank (traffic_light (Some (1 # 1)) (GreenBelow (3 # 2) (1 # 1))))%nat.
Proof.
  split; [vm_compute; discriminate|].
  apply traffic_light_monotone. vm_compute. discriminate.
Defined.

Lemma null_current_is_grey_outside_growth_witness :
  exists m, calculate_liquidity ∅ ∅ ∅ !! "current_ratio" = Some m /\
    m_current m = None /\ m_status m = "grey".
Proof.
  eexists. split; [reflexivity|]. split; [reflexivity|].
  apply (null_current_is_grey_outside_growth ∅ ∅ ∅ "current_ratio").
  - left. reflexivity.
  - reflexivity.
Defined.

Lemma first_amount_not_note_ref ps line v :
  first_amount ps line = Some v -> is_likely_note_ref_value (Some v) line = false.
Proof.
  induction ps as [|p ps IH]; simpl; [discriminate|].
  destruct (re_search p line) as [g|]; [|exact IH].
  destruct (clean_amount g) as [w|] eqn:Ew; [|exact IH].
  destruct (is_likely_note_ref_value (Some w) line) eqn:En; [exact IH|].
  intros H. injection H as <-. exact En.
Qed.

(** X9: If _find_amount_in_line returns an integer between 1 and 50, the line contains a "$" and no run of four or more digits or commas; any other small integer is dropped as a note reference. *)
Theorem find_amount_small_integer (line : string) (v : Q) :
  find_amount_in_line line = Some v ->
  1 <= v -> v <= 50 -> is_integral v = true ->
  large_numbers line = false /\ contains line "$" = true.
Proof.
  intros H H1 H2 H3. apply first_amount_not_note_ref in H.
  unfold is_likely_note_ref_value in H.
  apply Qle_bool_iff in H1, H2. rewrite H1, H2, H3 in H. cbn in H.
  destruct (large_numbers line); [discriminate|].
  destruct (contains line "$"); [|discriminate]. auto.
Qed.

Lemma match_paren_other c r : c <> "("%char -> match_paren (String c r) = None.
Proof.
  intros Hc. destruct c as [[] [] [] [] [] [] [] []]; try reflexivity.
  exfalso. apply Hc. reflexivity.
Qed.

Lemma match_minus_other c r : c <> "-"%char -> match_minus (String c r) = None.
Proof.
  intros Hc. destruct c as [[] [] [] [] [] [] [] []]; try reflexivity.
  exfalso. apply Hc. reflexivity.
Qed.

Lemma contains_char_cons c c' r :
  contains (String c' r) (String c EmptyString) = false -> c' <> c /\ contains r (String c EmptyString) = false.
Proof.
  simpl. intros H. apply orb_false_iff in H as [H1 H2]. split; [|exact H2].
  intros Heq. subst c'. rewrite (proj2 (Ascii.eqb_eq c c) eq_refl) in H1. destruct r; cbn in H1; discriminate.
Qed.

Lemma re_search_paren_none s : contains s "(" = false -> re_search match_paren s = None.
Proof.
  induction s as [|c r IH]; [reflexivity|].
  intros H. apply contains_char_cons in H as [H1 H2].
  cbn [re_search]. rewrite match_paren_other by exact H1. apply IH, H2.
Qed.

Lemma re_search_minus_none s : contains s "-" = false -> re_search match_minus s = None.
Proof.
  induction s as [|c r IH]; [reflexivity|].
  intros H. apply contains_char_cons in H as [H1 H2].
  cbn [re_search]. rewrite match_minus_other by exact H1. apply IH, H2.
Qed.

(** A prefix with no digit and no comma is skipped by the search for a plain amount. *)
Lemma re_search_plain_skip l t :
  forallb (fun c => negb (digit_or_comma c)) (list_ascii_of_string l) = true ->
  re_search match_plain (l ++ t) = re_search match_plain t.
Proof.
  induction l as [|c l IH]; [reflexivity|].
  simpl. intros H. apply andb_true_iff in H as [H1 H2].
  unfold match_plain at 1. simpl. apply negb_true_iff in H1. rewrite H1. simpl.
  apply IH, H2.
Qed.

Lemma has_run4_mono s k k' :
  (k <= k')%nat -> has_run4_from k s = true -> has_run4_from k' s = true.
Proof.
  revert k k'; induction s as [|c r IH]; intros k k' Hk; cbn [has_run4_from]; [discriminate|].
  destruct (digit_or_comma c); [|tauto].
  intros H. apply orb_true_iff in H as [H|H].
  - apply Nat.leb_le in H. apply orb_true_iff. left. apply Nat.leb_le. lia.
  - apply orb_true_iff. right. apply (IH (S k)); [lia | exact H].
Qed.

Lemma has_run4_prefix p s k :
  has_run4_from 0 s = true -> has_run4_from k (p ++ s) = true.
Proof.
  revert k; induction p as [|c p IH]; intros k H; cbn [has_run4_from].
  all: try change (String c p ++ s)%string with (String c (p ++ s)); cbn [has_run4_from].
  - apply (has_run4_mono s 0); [lia | exact H].
  - destruct (digit_or_comma c); [apply orb_true_iff; right|]; apply IH, H.
Qed.

Lemma string_app_assoc (a b c : string) :
  String.append (String.append a b) c = String.append a (String.append b c).
Proof.
  induction a as [|x a IH]; [reflexivity|].
  change (String x (String.append (String.append a b) c) = String x (String.append a (String.append b c))).
  rewrite IH. reflexivity.
Qed.

(** X10: For a line made of a label without digits, a note digit 1-9, a space and a rest holding a 4+ digit number (no "(" or "-"), _find_amount_in_line returns None: the note digit is rejected and the real amount after it is never tried. *)
Theorem find_amount_note_ref_hides_amount (label rest : string) (d : ascii) :
  In d ["1"; "2"; "3"; "4"; "5"; "6"; "7"; "8"; "9"]%char ->
  forallb (fun c => negb (digit_or_comma c)) (list_ascii_of_string label) = true ->
  contains (label ++ String d (String " " rest)) "(" = false ->
  contains (label ++ String d (String " " rest)) "-" = false ->
  large_numbers rest = true ->
  find_amount_in_line (label ++ String d (String " " rest)) = None.
Proof.
  intros Hd Hl Hp Hm Hr.
  assert (HL : large_numbers (label ++ String d (String " " rest)) = true).
  { unfold large_numbers.
    replace (label ++ String d (String " " rest))%string
      with ((label ++ String d (String " " EmptyString)) ++ rest)%string
      by (rewrite string_app_assoc; reflexivity).
    apply has_run4_prefix, Hr. }
  unfold find_amount_in_line. cbn [first_amount].
  rewrite re_search_paren_none by exact Hp.
  rewrite re_search_minus_none by exact Hm.
  rewrite re_search_plain_skip by exact Hl.
  assert (Hs : re_search match_plain (String d (String " " rest)) = Some (String d EmptyString))
    by (simpl in Hd; intuition subst; reflexivity).
  rewrite Hs.
  assert (Hc : exists n, clean_amount (String d EmptyString) = Some n /\
                 is_likely_note_ref_value (Some n) (label ++ String d (String " " rest)) = true).
  { simpl in Hd; intuition subst; eexists; split; try reflexivity;
      unfold is_likely_note_ref_value; rewrite HL; reflexivity. }
  destruct Hc as (n & Hn & Hnote). rewrite Hn, Hnote. reflexivity.
Qed.

Lemma find_amount_note_ref_hides_amount_witness :
  find_amount_in_line "Sales 3 1,250,000" = None.
Proof.
  apply (find_amount_note_ref_hides_amount "Sales " "1,250,000" "3");
    [simpl; tauto | vm_compute; reflexivity ..].
Defined.

Lemma text_fields_other fields ls data k :
  ~ In k (map fst fields) -> text_fields fields ls data !! k = data !! k.
Proof.
  revert data; induction fields as [|[f kws] fields IH]; intros data Hk; simpl in *; [reflexivity|].
  destruct (String.eqb f "inventory"); [apply IH; tauto|].
  destruct (negb (has_key data f) && keyword_match ls kws); [|apply IH; tauto].
  destruct (find_amount_in_line ls); [|apply IH; tauto].
  destruct (String.eqb f "revenue" || String.eqb f "cogs");
    [destruct (is_subtotal_row ls || negb (has_key data f)); [|reflexivity]|];
    apply lookup_insert_ne; intros ->; tauto.
Qed.

Lemma text_bs_sourced st ls ll :
  inv_sourced (tx_data st) -> inv_sourced (tx_data (fst (text_bs st ls ll))).
Proof.
  intros Hinv. unfold text_bs. destruct (negb (tx_in_balance_sheet st)); [exact Hinv|].
  destruct (find_amount_in_line ls) as [amount|]; [|exact Hinv]. cbn [fst tx_data].
  destruct (has_key (tx_data st) "inventory" && _); [exact Hinv|].
  destruct (_ && keyword_match ll INVENTORY_KEYWORDS); [|exact Hinv].
  destruct (negb _); [|exact Hinv].
  right. exists amount, (take 40 ls). split.
  - rewrite lookup_insert_ne by discriminate. apply lookup_insert_eq.
  - apply lookup_insert_eq.
Qed.

Lemma SECTION_KEYWORDS_fields :
  ~ In "inventory" (map fst SECTION_KEYWORDS) /\ ~ In "_inventory_source" (map fst SECTION_KEYWORDS).
Proof. simpl. split; intuition discriminate. Qed.

Lemma text_step_sourced st line :
  inv_sourced (tx_data st) -> inv_sourced (tx_data (text_step st line)).
Proof.
  intros Hinv. unfold text_step.
  destruct (String.eqb (strip line) ""); [exact Hinv|].
  destruct (_ || _); [exact Hinv|].
  destruct (_ || _ || _ || _); [exact Hinv|].
  destruct (text_pl st (strip line) (lower (strip line))) as [st1 skip1] eqn:E1.
  pose proof (text_pl_data st (strip line) (lower (strip line))) as Hd1.
  rewrite E1 in Hd1. cbn [fst] in Hd1.
  destruct skip1; [cbn; rewrite Hd1; exact Hinv|].
  pose proof (text_bs_sourced st1 (strip line) (lower (strip line))) as Hb.
  rewrite Hd1 in Hb. specialize (Hb Hinv).
  destruct (text_bs st1 (strip line) (lower (strip line))) as [st2 skip2].
  cbn [fst] in Hb. destruct skip2; [exact Hb|].
  cbn [tx_data]. destruct SECTION_KEYWORDS_fields as [N1 N2].
  unfold inv_sourced. rewrite !text_fields_other by assumption. exact Hb.
Qed.

Lemma fold_text_step_sourced lines st :
  inv_sourced (tx_data st) -> inv_sourced (tx_data (fold_left text_step lines st)).
Proof.
  revert st; induction lines as [|line lines IH]; intros st H; simpl; [exact H|].
  apply IH, text_step_sourced, H.
Qed.

(** X11: _parse_text_to_data either returns a numeric inventory with the source "balance_sheet/current_assets (<label>)", or no inventory with the source "not_found". *)
Theorem parse_text_inventory_source (text : string) :
  (exists v s, parse_text_to_data text !! "inventory" = Some (VNum v) /\
     parse_text_to_data text !! "_inventory_source" =
       Some (VStr ("balance_sheet/current_assets (" ++ s ++ ")"))) \/
  (parse_text_to_data text !! "inventory" = None /\
   parse_text_to_data text !! "_inventory_source" = Some (VStr "not_found")).
Proof.
  unfold parse_text_to_data. cbv zeta.
  pose proof (fold_text_step_sourced (split_lines text) tx_init) as Hinv.
  destruct (fold_left text_step (split_lines text) tx_init) as [d0 ? ? ? ? rc cc]. cbn [tx_data tx_revenue_candidates tx_cogs_candidates] in *.
  specialize (Hinv (or_introl (conj eq_refl eq_refl))).
  rewrite !derive_missing_other by discriminate.
  set (d1 := apply_candidates cc "cogs" (apply_candidates rc "revenue" d0)).
  assert (E1 : d1 !! "inventory" = d0 !! "inventory")
    by (unfold d1; rewrite !apply_candidates_other by discriminate; reflexivity).
  assert (E2 : d1 !! "_inventory_source" = d0 !! "_inventory_source")
    by (unfold d1; rewrite !apply_candidates_other by discriminate; reflexivity).
  unfold mark_inventory_not_found, has_key. rewrite E1.
  destruct Hinv as [[H1 H2]|(v & s & H1 & H2)]; rewrite H1; cbn [negb].
  - right. split.
    + rewrite !lookup_insert_ne by discriminate. rewrite E1. exact H1.
    + rewrite lookup_insert_ne by discriminate. apply lookup_insert_eq.
  - left. exists v, s. rewrite E1, E2. auto.
Qed.

Lemma text_pl_in_bs st ls ll :
  tx_in_balance_sheet (fst (text_pl st ls ll)) = tx_in_balance_sheet st.
Proof.
  unfold text_pl. destruct (negb (tx_in_pl st)); [reflexivity|].
  destruct (find_amount_in_line ls); [|reflexivity].
  repeat case_match; reflexivity.
Qed.

Lemma text_step_no_bs st line :
  contains (lower (strip line)) "balance sheet" = false ->
  contains (lower (strip line)) "statement of financial position" = false ->
  tx_in_balance_sheet st = false -> tx_data st !! "inventory" = None ->
  tx_in_balance_sheet (text_step st line) = false /\
  tx_data (text_step st line) !! "inventory" = None.
Proof.
  intros Hb1 Hb2 Hin Hinv. unfold text_step.
  destruct (String.eqb (strip line) ""); [auto|].
  rewrite Hb1, Hb2. cbn [orb].
  destruct (_ || _ || _ || _); [cbn; auto|].
  destruct (text_pl st (strip line) (lower (strip line))) as [st1 skip1] eqn:E1.
  pose proof (text_pl_data st (strip line) (lower (strip line))) as Hd1.
  pose proof (text_pl_in_bs st (strip line) (lower (strip line))) as Hb.
  rewrite E1 in Hd1, Hb. cbn [fst] in Hd1, Hb.
  destruct skip1; [rewrite Hd1, Hb; auto|].
  unfold text_bs. rewrite Hb, Hin. cbn [negb fst snd].
  cbn [tx_data tx_in_balance_sheet]. split; [rewrite Hb; exact Hin|].
  rewrite text_fields_other by apply SECTION_KEYWORDS_fields. rewrite Hd1. exact Hinv.
Qed.

(** X12: If no line of the text mentions "balance sheet" or "statement of financial position", _parse_text_to_data records no inventory and the source "not_found", whatever inventory lines the text has. *)
Theorem parse_text_no_balance_sheet (text : string) :
  Forall (fun line => contains (lower (strip line)) "balance sheet" = false /\
                      contains (lower (strip line)) "statement of financial position" = false)
    (split_lines text) ->
  parse_text_to_data text !! "inventory" = None /\
  parse_text_to_data text !! "_inventory_source" = Some (VStr "not_found").
Proof.
  intros Hall.
  assert (Hf : forall lines st,
             Forall (fun line => contains (lower (strip line)) "balance sheet" = false /\
                      contains (lower (strip line)) "statement of financial position" = false) lines ->
             tx_in_balance_sheet st = false -> tx_data st !! "inventory" = None ->
             tx_data (fold_left text_step lines st) !! "inventory" = None).
  { induction lines as [|line lines IH]; intros st Hl Hin Hinv; simpl; [exact Hinv|].
    inversion Hl as [|? ? [Hb1 Hb2] Hl']; subst.
    destruct (text_step_no_bs st line Hb1 Hb2 Hin Hinv) as [Hin' Hinv'].
    apply IH; assumption. }
  specialize (Hf (split_lines text) tx_init Hall eq_refl eq_refl).
  destruct (parse_text_inventory_source text) as [(v & s & H1 & H2)|H]; [|exact H].
  exfalso. revert H1. unfold parse_text_to_data. cbv zeta.
  destruct (fold_left text_step (split_lines text) tx_init) as [d0 ? ? ? ? rc cc].
  cbn [tx_data tx_revenue_candidates tx_cogs_candidates] in *.
  rewrite derive_missing_other by discriminate.
  unfold mark_inventory_not_found. case_match;
    rewrite ?lookup_insert_ne by discriminate; rewrite !apply_candidates_other by discriminate;
    rewrite Hf; discriminate.
Qed.

Lemma parse_text_no_balance_sheet_witness :
  let text := ("Profit and Loss" ++ String "010" "Inventory 8,000" ++
               String "010" "Revenue 100,000")%string in
  Forall (fun line => contains (lower (strip line)) "balance sheet" = false /\
                      contains (lower (strip line)) "statement of financial position" = false)
    (split_lines text) /\
  parse_text_to_data text !! "inventory" = None /\
  parse_text_to_data text !! "_inventory_source" = Some (VStr "not_found").
Proof.
  intros text.
  assert (H : Forall (fun line => contains (lower (strip line)) "balance sheet" = false /\
                      contains (lower (strip line)) "statement of financial position" = false)
                (split_lines text))
    by (vm_compute; repeat constructor).
  split; [exact H|]. apply parse_text_no_balance_sheet. exact H.
Defined.

Lemma get_confirm_value cv k : get (confirm_value <$> cv) k = confirm_value (get cv k).
Proof. unfold get. rewrite lookup_fmap. destruct (cv !! k); reflexivity. Qed.

Lemma confirm_tag_inventory_other r k :
  k <> "_inventory_source" -> confirm_tag_inventory r !! k = r !! k.
Proof. intros H. unfold confirm_tag_inventory. case_match; [apply lookup_insert_ne; congruence | reflexivity]. Qed.

Lemma confirm_gross_profit_other r k :
  k <> "gross_profit" -> confirm_gross_profit r !! k = r !! k.
Proof. intros H. unfold confirm_gross_profit. repeat case_match; try reflexivity. apply lookup_insert_ne; congruence. Qed.

Lemma confirm_ebit_other r k :
  k <> "ebit" -> k <> "_ebit_components" -> confirm_ebit r !! k = r !! k.
Proof.
  intros H1 H2. unfold confirm_ebit. case_match; try reflexivity.
  rewrite !lookup_insert_ne by congruence. reflexivity.
Qed.

Lemma confirm_ebitda_other r k : k <> "ebitda" -> confirm_ebitda r !! k = r !! k.
Proof. intros H. unfold confirm_ebitda. case_match; try reflexivity. apply lookup_insert_ne; congruence. Qed.

Lemma get_of_lookup (r r' : PyDict) k : r !! k = r' !! k -> get r k = get r' k.
Proof. unfold get. intros ->. reflexivity. Qed.

(** X13: When the confirmed net_profit is a number, build_confirmed_data sets ebit to net_profit + tax + interest and ebitda to that ebit + depreciation (a missing or zero component counting as 0), ignoring any confirmed ebit or ebitda, and stores the three EBIT components under _ebit_components. *)
Theorem build_confirmed_ebit_recomputed (cv : PyDict) (np : Q) :
  confirm_value (get cv "net_profit") = VNum np ->
  let tax := orq (num (confirm_value (get cv "tax_expense"))) 0 in
  let interest := orq (num (confirm_value (get cv "interest_expense"))) 0 in
  let dep := orq (num (confirm_value (get cv "depreciation"))) 0 in
  build_confirmed_data cv !! "ebit" = Some (VNum (np + tax + interest)) /\
  build_confirmed_data cv !! "ebitda" = Some (VNum (np + tax + interest + dep)) /\
  build_confirmed_data cv !! "_ebit_components" =
    Some (VDict [("net_profit", VNum np); ("interest_expense", VNum interest);
                 ("tax_expense", VNum tax)]).
Proof.
  intros Hnp tax interest dep. unfold build_confirmed_data.
  set (r2 := confirm_gross_profit (confirm_tag_inventory (confirm_value <$> cv))).
  assert (G : forall k, k <> "gross_profit" -> k <> "_inventory_source" ->
                get r2 k = confirm_value (get cv k)).
  { intros k H1 H2. unfold r2. rewrite <- get_confirm_value. apply get_of_lookup.
    rewrite confirm_gross_profit_other, confirm_tag_inventory_other by assumption. reflexivity. }
  assert (Ee : confirm_ebit r2 !! "ebit" = Some (VNum (np + tax + interest))
             /\ confirm_ebit r2 !! "_ebit_components" =
                Some (VDict [("net_profit", VNum np); ("interest_expense", VNum interest);
                             ("tax_expense", VNum tax)])).
  { unfold confirm_ebit. rewrite G, Hnp by discriminate. unfold getq.
    rewrite !G by discriminate. split.
    - rewrite lookup_insert_ne by discriminate. apply lookup_insert_eq.
    - apply lookup_insert_eq. }
  destruct Ee as [Ee Ec].
  assert (Eg : get (confirm_ebit r2) "ebit" = VNum (np + tax + interest))
    by (unfold get; rewrite Ee; reflexivity).
  unfold confirm_ebitda. rewrite Eg.
  split; [|split].
  - rewrite lookup_insert_ne by discriminate. exact Ee.
  - rewrite lookup_insert_eq. unfold getq.
    rewrite (get_of_lookup _ r2 "depreciation") by (apply confirm_ebit_other; discriminate).
    rewrite G by discriminate. reflexivity.
  - rewrite lookup_insert_ne by discriminate. exact Ec.
Qed.

Lemma build_confirmed_ebit_recomputed_witness :
  let cv : PyDict := list_to_map [("net_profit", VNum 100); ("tax_expense", VStr "30");
                                  ("interest_expense", VNum 20); ("ebit", VNum 999999)] in
  confirm_value (get cv "net_profit") = VNum 100 /\
  build_confirmed_data cv !! "ebit" =
    Some (VNum (100 + orq (num (confirm_value (get cv "tax_expense"))) 0
                    + orq (num (confirm_value (get cv "interest_expense"))) 0)).
Proof.
  intros cv. split; [reflexivity|].
  apply (build_confirmed_ebit_recomputed cv 100). reflexivity.
Defined.

(** X14: build_confirmed_data keeps every field other than gross_profit, ebit, ebitda, _inventory_source and _ebit_components as its cleaned confirmed value, and keeps gross_profit too when its cleaned value is not None. *)
Theorem build_confirmed_keeps_fields (cv : PyDict) :
  (forall k, ~ In k ["gross_profit"; "ebit"; "ebitda"; "_inventory_source"; "_ebit_components"] ->
     build_confirmed_data cv !! k = confirm_value <$> cv !! k) /\
  (is_none (confirm_value (get cv "gross_profit")) = false ->
     build_confirmed_data cv !! "gross_profit" = confirm_value <$> cv !! "gross_profit").
Proof.
  split.
  - intros k Hk. simpl in Hk. unfold build_confirmed_data.
    rewrite confirm_ebitda_other, confirm_ebit_other, confirm_gross_profit_other,
      confirm_tag_inventory_other by (intros ->; apply Hk; simpl; tauto).
    apply lookup_fmap.
  - intros Hgp. unfold build_confirmed_data.
    rewrite confirm_ebitda_other, confirm_ebit_other by discriminate.
    unfold confirm_gross_profit.
    replace (get (confirm_tag_inventory (confirm_value <$> cv)) "gross_profit")
      with (confirm_value (get cv "gross_profit"))
      by (rewrite <- get_confirm_value; apply get_of_lookup;
          rewrite confirm_tag_inventory_other by discriminate; reflexivity).
    rewrite Hgp. cbn [andb].
    rewrite confirm_tag_inventory_other by discriminate. apply lookup_fmap.
Qed.

(** X15: When the cleaned inventory is not None, build_confirmed_data sets _inventory_source to "balance_sheet/current_assets (user confirmed)"; otherwise _inventory_source is the cleaned confirmed value, if any. *)
Theorem build_confirmed_inventory_tag (cv : PyDict) :
  (is_none (confirm_value (get cv "inventory")) = false ->
     build_confirmed_data cv !! "_inventory_source" =
       Some (VStr "balance_sheet/current_assets (user confirmed)")) /\
  (is_none (confirm_value (get cv "inventory")) = true ->
     build_confirmed_data cv !! "_inventory_source" = confirm_value <$> cv !! "_inventory_source").
Proof.
  unfold build_confirmed_data.
  rewrite confirm_ebitda_other, confirm_ebit_other, confirm_gross_profit_other by discriminate.
  unfold confirm_tag_inventory. rewrite get_confirm_value.
  split; intros H; rewrite H; cbn [negb].
  - apply lookup_insert_eq.
  - apply lookup_fmap.
Qed.

Lemma numeric_fields_insert d k v :
  numeric_fields d -> (k = "_inventory_source" \/ k = "_ebit_components" \/ none_or_num v) ->
  numeric_fields (<[k := v]> d).
Proof.
  intros Hd Hv k' v' Hk' H1 H2.
  destruct (String.eqb_spec k k') as [->|Hne].
  - rewrite lookup_insert_eq in Hk'. injection Hk' as <-. intuition.
  - rewrite lookup_insert_ne in Hk' by exact Hne. eapply Hd; eauto.
Qed.

(** X16: Every value build_confirmed_data returns, apart from _inventory_source and _ebit_components, is None or a number: strings are parsed with _clean_amount or become None. *)
Theorem build_confirmed_values_numeric (cv : PyDict) (k : string) (v : Val) :
  build_confirmed_data cv !! k = Some v ->
  k <> "_inventory_source" -> k <> "_ebit_components" ->
  v = VNone \/ exists q, v = VNum q.
Proof.
  revert k v. fold (numeric_fields (build_confirmed_data cv)).
  assert (H0 : numeric_fields (confirm_value <$> cv)).
  { intros k v Hk _ _. rewrite lookup_fmap in Hk.
    destruct (cv !! k) as [w|]; [|discriminate]. injection Hk as <-.
    destruct w as [| q | s | l | kv]; cbn [confirm_value];
      [left; reflexivity | right; eauto | | left; reflexivity | left; reflexivity].
    destruct (String.eqb (strip s) ""); [left; reflexivity|].
    destruct (clean_amount s); [right; eauto | left; reflexivity]. }
  unfold build_confirmed_data.
  assert (H1 : numeric_fields (confirm_tag_inventory (confirm_value <$> cv))).
  { unfold confirm_tag_inventory. case_match; [|exact H0].
    apply numeric_fields_insert; auto. }
  assert (H2 : numeric_fields (confirm_gross_profit (confirm_tag_inventory (confirm_value <$> cv)))).
  { unfold confirm_gross_profit. repeat case_match; try exact H1.
    apply numeric_fields_insert; [exact H1 | right; right; right; eauto]. }
  assert (H3 : numeric_fields (confirm_ebit (confirm_gross_profit
                 (confirm_tag_inventory (confirm_value <$> cv))))).
  { unfold confirm_ebit. case_match; try exact H2.
    apply numeric_fields_insert; [|auto].
    apply numeric_fields_insert; [exact H2 | right; right; right; eauto]. }
  unfold confirm_ebitda at 1. case_match; try exact H3.
  apply numeric_fields_insert; [exact H3 | right; right; right; eauto].
Qed.

Lemma build_confirmed_values_numeric_witness :
  let cv : PyDict := list_to_map [("revenue", VStr "1,200"); ("cogs", VStr "n/a")] in
  build_confirmed_data cv !! "revenue" = Some (VNum 1200) /\
  (VNum 1200 = VNone \/ exists q, VNum 1200 = VNum q).
Proof.
  intros cv. assert (H : build_confirmed_data cv !! "revenue" = Some (VNum 1200))
    by (vm_compute; reflexivity).
  split; [exact H|].
  apply (build_confirmed_values_numeric cv "revenue"); [exact H | discriminate | discriminate].
Defined.

(** X17: After the merge step of parse_pdf, the inventory is never a negative number. *)
Theorem pdf_merge_inventory_nonnegative (text_data table_data : PyDict) (q : Q) :
  getq (parse_pdf_merge text_data table_data) "inventory" = Some q -> 0 <= q.
Proof.
  unfold parse_pdf_merge.
  set (m := if _ && _ then _ else _).
  destruct (num (get m "inventory")) as [inv|] eqn:Ei.
  - destruct (Qltb inv 0) eqn:El.
    + unfold getq, get. rewrite lookup_insert_ne by discriminate.
      rewrite lookup_insert_eq. discriminate.
    + unfold getq. rewrite Ei. intros H. injection H as <-.
      unfold Qltb in El. apply negb_false_iff, Qle_bool_iff in El. exact El.
  - unfold getq. rewrite Ei. discriminate.
Qed.

Lemma pdf_merge_balance_sheet (text_data table_data : PyDict) (v : Q) (src : string) :
  text_data !! "inventory" = Some (VNum v) -> 0 <= v ->
  text_data !! "_inventory_source" = Some (VStr src) ->
  startswith src "balance_sheet" = true ->
  parse_pdf_merge text_data table_data !! "inventory" = Some (VNum v) /\
  parse_pdf_merge text_data table_data !! "_inventory_source" = Some (VStr src).
Proof.
  intros Hi Hv Hs Hp. unfold parse_pdf_merge.
  unfold get_or, has_key. rewrite Hs, Hi. cbn [default id vstr]. rewrite Hp. cbn [andb].
  unfold get. rewrite Hs, Hi. cbn [default id].
  rewrite lookup_insert_ne by discriminate. rewrite lookup_insert_eq. cbn [num].
  assert (El : Qltb v 0 = false)
    by (unfold Qltb; apply negb_false_iff, Qle_bool_iff; exact Hv).
  cbn [default id num]. rewrite El. split.
  - rewrite lookup_insert_ne by discriminate. apply lookup_insert_eq.
  - apply lookup_insert_eq.
Qed.

(** X18: If the text parser found a non-negative balance-sheet inventory, the merged result of parse_pdf keeps it, with its balance_sheet/current_assets source, whatever the tables contain. *)
Theorem pdf_merge_prefers_balance_sheet_inventory (text : string) (tables : list Table) (v : Q) :
  parse_text_to_data text !! "inventory" = Some (VNum v) -> 0 <= v ->
  parse_pdf_merge (parse_text_to_data text) (parse_tables_to_data tables) !! "inventory" =
    Some (VNum v) /\
  exists s, parse_pdf_merge (parse_text_to_data text) (parse_tables_to_data tables)
              !! "_inventory_source" = Some (VStr ("balance_sheet/current_assets (" ++ s ++ ")")).
Proof.
  intros Hi Hv.
  destruct (parse_text_inventory_source text) as [(w & s & H1 & H2)|[H1 _]];
    [|rewrite H1 in Hi; discriminate].
  rewrite H1 in Hi. injection Hi as ->.
  destruct (pdf_merge_balance_sheet (parse_text_to_data text) (parse_tables_to_data tables)
              v _ H1 Hv H2 eq_refl) as [E1 E2].
  split; [exact E1|]. exists s. exact E2.
Qed.

Lemma find_amount_small_integer_witness :
  find_amount_in_line "Fees $ 12" = Some 12 /\
  large_numbers "Fees $ 12" = false /\ contains "Fees $ 12" "$" = true.
Proof.
  assert (H : find_amount_in_line "Fees $ 12" = Some 12) by (vm_compute; reflexivity).
  split; [exact H|].
  apply (find_amount_small_integer "Fees $ 12" 12 H); vm_compute; first [discriminate | reflexivity].
Defined.

Lemma pdf_merge_inventory_nonnegative_witness :
  getq (parse_pdf_merge {[ "inventory" := VNum 5 ]} ∅) "inventory" = Some 5 /\ 0 <= 5.
Proof.
  assert (H : getq (parse_pdf_merge {[ "inventory" := VNum 5 ]} ∅) "inventory" = Some 5)
    by (vm_compute; reflexivity).
  split; [exact H|]. exact (pdf_merge_inventory_nonnegative _ _ 5 H).
Defined.

Lemma pdf_merge_prefers_balance_sheet_inventory_witness :
  let text := ("Balance Sheet" ++ String "010" "Current Assets" ++
               String "010" "Inventory 8,000")%string in
  parse_text_to_data text !! "inventory" = Some (VNum 8000) /\
  parse_pdf_merge (parse_text_to_data text) (parse_tables_to_data [pl_table]) !! "inventory" =
    Some (VNum 8000).
Proof.
  intros text.
  assert (H : parse_text_to_data text !! "inventory" = Some (VNum 8000)) by (vm_compute; reflexivity).
  split; [exact H|].
  apply (pdf_merge_prefers_balance_sheet_inventory text [pl_table] 8000 H).
  vm_compute. discriminate.
Defined.

Lemma sum_q_app_single (l : list Q) (v : Q) : sum_q (l ++ [v]) == sum_q l + v.
Proof.
  unfold sum_q. induction l as [|a l IH]; simpl.
  - ring.
  - rewrite IH. ring.
Qed.

Lemma sum_all_fold_inv (kws : list string) (vcol : string) (rows : list Row)
    (total : Q) (comps : list (string * Q)) (seen : list string) :
  total == sum_q (map snd comps) ->
  seen = rev (map (fun c => lower c.1) comps) ->
  NoDup (map (fun c => lower c.1) comps) ->
  Forall (fun c => matches_keywords c.1 kws = true) comps ->
  Forall (fun c => Xero.is_subtotal_row c.1 = false) comps ->
  let '(total', comps', seen') := fold_left (sum_all_step kws vcol) rows (total, comps, seen) in
  total' == sum_q (map snd comps') /\
  NoDup (map (fun c => lower c.1) comps') /\
  Forall (fun c => matches_keywords c.1 kws = true) comps' /\
  Forall (fun c => Xero.is_subtotal_row c.1 = false) comps'.
Proof.
  revert total comps seen.
  induction rows as [|r rows IH]; intros total comps seen Ht Hs Hnd Hm Hsub; simpl.
  - auto.
  - unfold sum_all_step at 1.
    destruct (Xero.is_subtotal_row (strip (r_label r))) eqn:Esub; [apply IH; auto|].
    destruct (matches_keywords (strip (r_label r)) kws) eqn:Em; cbn [andb]; [|apply IH; auto].
    destruct (existsb (String.eqb (lower (strip (r_label r)))) seen) eqn:Ee; cbn [negb];
      [apply IH; auto|].
    destruct (Xero.clean_amount (cell_at r vcol)) as [v|]; [|apply IH; auto].
    apply IH.
    + rewrite map_app. cbn [map fst snd]. rewrite sum_q_app_single, Ht. reflexivity.
    + rewrite Hs, map_app, rev_app_distr. reflexivity.
    + rewrite map_app. apply NoDup_app. split; [exact Hnd|]. split.
      * intros x Hx Hx'. apply list_elem_of_In in Hx'. simpl in Hx'.
        destruct Hx' as [<-|[]]. apply list_elem_of_In in Hx.
        assert (Hin : In (lower (strip (r_label r))) seen) by (rewrite Hs, <- in_rev; exact Hx).
        assert (existsb (String.eqb (lower (strip (r_label r)))) seen = true).
        { apply existsb_exists. exists (lower (strip (r_label r))). split; [exact Hin|].
          apply String.eqb_refl. }
        congruence.
      * simpl. constructor; [set_solver|constructor].
    + apply Forall_app. split; [exact Hm|]. constructor; [exact Em|constructor].
    + apply Forall_app. split; [exact Hsub|]. constructor; [exact Esub|constructor].
Qed.

Lemma first_subtotal_hit_spec (kws : list string) (vcol : string) (rows : list Row) v l :
  first_subtotal_hit kws vcol rows = Some (v, l) ->
  matches_keywords l kws = true /\ Xero.is_subtotal_row l = true.
Proof.
  induction rows as [|r rows IH]; simpl; [discriminate|].
  unfold subtotal_hit.
  destruct (matches_keywords (strip (r_label r)) kws && Xero.is_subtotal_row (strip (r_label r))) eqn:E;
    [|exact IH].
  destruct (Xero.clean_amount (cell_at r vcol)); [|exact IH].
  intros [= <- <-]. apply andb_true_iff in E. exact E.
Qed.

(** X19: _sum_all_matching returns components with distinct lowercased labels that all match the keywords, and a total equal to their sum (None exactly when there are none). The components are either a single subtotal row or non-subtotal rows only. *)
Theorem sum_all_matching_components (df : Frame) (keywords : list string) (col_idx : nat)
    (skip_cols : list string) :
  let '(total, components) := sum_all_matching df keywords col_idx skip_cols in
  opt_Qeq total (match components with [] => None | _ => Some (sum_q (map snd components)) end) /\
  NoDup (map (fun c => lower c.1) components) /\
  Forall (fun c => matches_keywords c.1 keywords = true) components /\
  ((exists label v, components = [(label, v)] /\ Xero.is_subtotal_row label = true) \/
   Forall (fun c => Xero.is_subtotal_row c.1 = false) components).
Proof.
  unfold sum_all_matching.
  destruct (nth_error (value_cols df skip_cols) col_idx) as [vcol|].
  2:{ cbn. split; [exact I|]. split; [constructor|]. split; [constructor|]. right; constructor. }
  destruct (first_subtotal_hit keywords vcol (f_rows df)) as [[v l]|] eqn:Ef.
  - apply first_subtotal_hit_spec in Ef as [Hm Hs].
    split; [cbn; unfold sum_q; simpl; ring|].
    split; [constructor; [set_solver|constructor]|].
    split; [constructor; [exact Hm|constructor]|].
    left. eauto.
  - pose proof (sum_all_fold_inv keywords vcol (f_rows df) 0 [] []) as Hinv.
    specialize (Hinv ltac:(reflexivity) eq_refl ltac:(constructor) ltac:(constructor) ltac:(constructor)).
    destruct (fold_left (sum_all_step keywords vcol) (f_rows df) (0, [], [])) as [[total comps] seen].
    destruct Hinv as (Ht & Hnd & Hm & Hsub).
    split; [|auto].
    destruct comps; cbn; [exact I|exact Ht].
Qed.

Lemma section_loop_skip_pre (kws : list string) (vcol : string) (pre rest : list Row) :
  Forall (fun r => is_section_header kws vcol r = false) pre ->
  section_loop kws vcol (pre ++ rest) false [] = section_loop kws vcol rest false [].
Proof.
  induction pre as [|r pre IH]; intros Hpre; [reflexivity|].
  inversion Hpre as [|? ? Hr Hpre']; subst.
  cbn [app section_loop negb]. unfold is_section_header in Hr.
  rewrite Hr. apply IH. exact Hpre'.
Qed.

(** X20: Rows before the first section header (a keyword row without a value) never affect _sum_section_lines, and without any header it returns None. *)
Theorem sum_section_lines_header_required (cols : list string) (pre rest : list Row)
    (keywords : list string) (col_idx : nat) (skip_cols : list string) :
  (forall vcol, nth_error (value_cols (mkFrame cols pre) skip_cols) col_idx = Some vcol ->
     Forall (fun r => is_section_header keywords vcol r = false) pre) ->
  sum_section_lines (mkFrame cols (pre ++ rest)) keywords col_idx skip_cols =
    sum_section_lines (mkFrame cols rest) keywords col_idx skip_cols /\
  sum_section_lines (mkFrame cols pre) keywords col_idx skip_cols = None.
Proof.
  intros H. unfold sum_section_lines. cbn [f_rows].
  unfold value_cols in *; cbn [f_columns] in *.
  destruct (nth_error _ col_idx) as [vcol|] eqn:E; [|split; reflexivity].
  specialize (H vcol eq_refl). split.
  - apply section_loop_skip_pre. exact H.
  - rewrite <- (app_nil_r pre). rewrite section_loop_skip_pre by exact H. reflexivity.
Qed.

Lemma sum_section_lines_header_required_witness :
  sum_section_lines (mkFrame ["Account"; "2024"]
     ([mkRow "Other revenue" [("2024", CNum 7)]] ++ f_rows sec_frame)) ["revenue"] 0 [] =
  sum_section_lines sec_frame ["revenue"] 0 [] /\
  sum_section_lines (mkFrame ["Account"; "2024"] [mkRow "Other revenue" [("2024", CNum 7)]])
    ["revenue"] 0 [] = None.
Proof.
  apply (sum_section_lines_header_required ["Account"; "2024"]
           [mkRow "Other revenue" [("2024", CNum 7)]] (f_rows sec_frame) ["revenue"] 0 []).
  intros vcol Hv. vm_compute in Hv. injection Hv as <-.
  repeat constructor.
Defined.

Lemma capture_ne (k k' : string) (c : bool) (v : Q) (d : PyDict) :
  k' <> k -> capture k c v d !! k' = d !! k'.
Proof.
  intros Hne. unfold capture. destruct (not_in d k && c); [|reflexivity].
  apply lookup_insert_ne. congruence.
Qed.

Lemma not_in_capture_ne (k k' : string) (c : bool) (v : Q) (d : PyDict) :
  k' <> k -> not_in (capture k c v d) k' = not_in d k'.
Proof. intros Hne. unfold not_in. rewrite capture_ne by exact Hne. reflexivity. Qed.

Lemma bs_capture_inventory (f : BsFlags) (label : string) (v : Q) (d : PyDict) :
  bs_capture f label v d !! "inventory" =
    (if inventory_captured f label d then Some (VNum v) else d !! "inventory") /\
  bs_capture f label v d !! "_inventory_source" =
    (if inventory_captured f label d
     then Some (VStr ("balance_sheet/current_assets (" ++ label ++ ")")) else d !! "_inventory_source").
Proof.
  unfold bs_capture. cbv zeta.
  rewrite ?capture_ne by discriminate.
  unfold capture_inventory, inventory_captured.
  rewrite !not_in_capture_ne by discriminate.
  destruct (not_in d "inventory" && in_current_assets f && matches_keywords label Xero.INVENTORY_KEYWORDS).
  - rewrite lookup_insert_ne by discriminate. rewrite !lookup_insert_eq. split; reflexivity.
  - rewrite !capture_ne by discriminate. split; reflexivity.
Qed.

Lemma bs_step_inventory (vcol : string) (st : BsState) (r : Row) :
  (bs_data (bs_step vcol st r) !! "inventory" = bs_data st !! "inventory" /\
   bs_data (bs_step vcol st r) !! "_inventory_source" = bs_data st !! "_inventory_source") \/
  (exists v, Xero.clean_amount (cell_at r vcol) = Some v /\
     not_in (bs_data st) "inventory" = true /\
     in_current_assets (bs_flags st) = true /\
     matches_keywords (strip (r_label r)) Xero.INVENTORY_KEYWORDS = true /\
     bs_data (bs_step vcol st r) !! "inventory" = Some (VNum v) /\
     bs_data (bs_step vcol st r) !! "_inventory_source" =
       Some (VStr ("balance_sheet/current_assets (" ++ strip (r_label r) ++ ")"))).
Proof.
  destruct st as [f data items]. unfold bs_step. cbn [bs_data bs_flags].
  destruct (Xero.clean_amount (cell_at r vcol)) as [v|] eqn:Ec; [|left; split; reflexivity].
  repeat (match goal with
          | |- context [if ?c then _ else _] =>
              lazymatch c with
              | inventory_captured _ _ _ => fail
              | _ => destruct c
              end
          end; cbn [bs_data];
          try (left; rewrite ?capture_ne, ?lookup_insert_ne by discriminate; split; reflexivity)).
  destruct (bs_capture_inventory f (strip (r_label r)) v data) as [Hi Hs].
  rewrite Hi, Hs. unfold inventory_captured.
  destruct (not_in data "inventory") eqn:En; [|left; split; reflexivity].
  destruct (in_current_assets f) eqn:Ef; [|left; split; reflexivity].
  destruct (matches_keywords (strip (r_label r)) Xero.INVENTORY_KEYWORDS) eqn:Em; cbn [andb];
    [|left; split; reflexivity].
  right. exists v. repeat split.
Qed.

Lemma bs_fold_inventory (vcol : string) (rows : list Row) :
  let st := fold_left (bs_step vcol) rows bs_init in
  (not_in (bs_data st) "inventory" = true /\ bs_data st !! "_inventory_source" = None) \/
  (exists pre r post v, rows = pre ++ r :: post /\
     in_current_assets (bs_flags (fold_left (bs_step vcol) pre bs_init)) = true /\
     matches_keywords (strip (r_label r)) Xero.INVENTORY_KEYWORDS = true /\
     Xero.clean_amount (cell_at r vcol) = Some v /\
     bs_data st !! "inventory" = Some (VNum v) /\
     bs_data st !! "_inventory_source" =
       Some (VStr ("balance_sheet/current_assets (" ++ strip (r_label r) ++ ")"))).
Proof.
  induction rows as [|x rows IH] using rev_ind; cbv zeta.
  - left. split; reflexivity.
  - rewrite fold_left_app. cbn [fold_left].
    destruct (bs_step_inventory vcol (fold_left (bs_step vcol) rows bs_init) x)
      as [[Hi Hs]|(v & Hc & Hn & Hf & Hm & Hi & Hs)].
    + destruct IH as [[Hn Hs0]|(pre & r & post & v & -> & Hf & Hm & Hc & Hi0 & Hs0)].
      * left. unfold not_in in *. rewrite Hi, Hs. auto.
      * right. exists pre, r, (post ++ [x]), v.
        rewrite <- app_assoc. rewrite Hi, Hs. repeat split; assumption.
    + right. exists rows, x, [], v. repeat split; assumption.
Qed.

Lemma fallback_current_assets_ne (d : PyDict) (k : string) :
  k <> "current_assets" -> fallback_current_assets d !! k = d !! k.
Proof.
  intros Hk. unfold fallback_current_assets.
  destruct (is_none (get d "current_assets")); [|reflexivity].
  case_match; [reflexivity|]. apply lookup_insert_ne. congruence.
Qed.

Lemma fallback_total_assets_ne (d : PyDict) (k : string) :
  k <> "total_assets" -> fallback_total_assets d !! k = d !! k.
Proof.
  intros Hk. unfold fallback_total_assets.
  destruct (is_none (get d "total_assets")); [|reflexivity].
  repeat case_match; try reflexivity. apply lookup_insert_ne. congruence.
Qed.

Lemma fallback_total_liabilities_ne (d : PyDict) (k : string) :
  k <> "total_liabilities" -> fallback_total_liabilities d !! k = d !! k.
Proof.
  intros Hk. unfold fallback_total_liabilities.
  destruct (is_none (get d "total_liabilities")); [|reflexivity].
  repeat case_match; try reflexivity. apply lookup_insert_ne. congruence.
Qed.

Lemma bs_fallbacks_inventory_keys (d : PyDict) (k : string) :
  k = "inventory" \/ k = "_inventory_source" ->
  bs_fallbacks d !! k = fallback_inventory d !! k.
Proof.
  intros Hk. unfold bs_fallbacks.
  rewrite fallback_total_liabilities_ne, fallback_total_assets_ne, fallback_current_assets_ne;
    [reflexivity| |  |]; destruct Hk as [->| ->]; discriminate.
Qed.

(** X21: _extract_balance_sheet_data takes inventory only from an inventory-keyword row met while the Current Assets section is open, with the source "balance_sheet/current_assets (<label>)". Otherwise inventory is None with the source "not_found", or the dict is empty when the period column does not exist. *)
Theorem xero_bs_inventory_only_from_current_assets (df : Frame) (col_idx : nat)
    (skip_cols : list string) :
  let d := (extract_balance_sheet_data df col_idx skip_cols).1 in
  (nth_error (value_cols df skip_cols) col_idx = None /\ d = ∅) \/
  (exists vcol, nth_error (value_cols df skip_cols) col_idx = Some vcol /\
   ((d !! "inventory" = Some VNone /\ d !! "_inventory_source" = Some (VStr "not_found")) \/
    (exists pre r post v, f_rows df = pre ++ r :: post /\
       in_current_assets (bs_flags (fold_left (bs_step vcol) pre bs_init)) = true /\
       matches_keywords (strip (r_label r)) Xero.INVENTORY_KEYWORDS = true /\
       Xero.clean_amount (cell_at r vcol) = Some v /\
       d !! "inventory" = Some (VNum v) /\
       d !! "_inventory_source" =
         Some (VStr ("balance_sheet/current_assets (" ++ strip (r_label r) ++ ")"))))).
Proof.
  cbv zeta. unfold extract_balance_sheet_data.
  destruct (nth_error (value_cols df skip_cols) col_idx) as [vcol|] eqn:Ev; [|left; split; reflexivity].
  right. exists vcol. split; [reflexivity|]. cbn [fst].
  rewrite !bs_fallbacks_inventory_keys by tauto.
  destruct (bs_fold_inventory vcol (f_rows df))
    as [[Hn Hs]|(pre & r & post & v & Hrows & Hf & Hm & Hc & Hi & Hs)].
  - left. unfold fallback_inventory. rewrite Hn.
    rewrite lookup_insert_ne by discriminate. rewrite !lookup_insert_eq. split; reflexivity.
  - right. exists pre, r, post, v. unfold fallback_inventory, not_in. rewrite Hi.
    repeat split; assumption.
Qed.

Lemma derive_gross_profit_ne (d : PyDict) (k : string) :
  k <> "gross_profit" -> derive_gross_profit d !! k = d !! k.
Proof.
  intros Hk. unfold derive_gross_profit.
  destruct (_ && _ && _); [|reflexivity].
  repeat case_match; try reflexivity. apply lookup_insert_ne. congruence.
Qed.

Lemma derive_ebitda_ne (d : PyDict) (k : string) :
  k <> "ebitda" -> derive_ebitda d !! k = d !! k.
Proof.
  intros Hk. unfold derive_ebitda.
  destruct (_ && _); [|reflexivity].
  repeat case_match; try reflexivity. apply lookup_insert_ne. congruence.
Qed.

Lemma components_ok_of_sum_all (d : PyDict) (tk ck : string) (df : Frame) (kws : list string)
    (col_idx : nat) (skip_cols : list string) total items :
  sum_all_matching df kws col_idx skip_cols = (total, items) ->
  d !! ck = Some (components_val items) ->
  d !! tk = Some (val_of total) ->
  components_ok d tk ck kws.
Proof.
  intros Hs Hc Ht.
  pose proof (sum_all_matching_components df kws col_idx skip_cols) as H.
  rewrite Hs in H. destruct H as (Hq & Hnd & Hm & _).
  exists items. split; [exact Hc|]. split; [exact Hnd|]. split; [exact Hm|].
  destruct items as [|c items].
  - destruct total; [contradiction|]. exact Ht.
  - destruct total as [t|]; [|contradiction]. exists t. split; [exact Ht|exact Hq].
Qed.

(** X22: In the dict of _extract_period_data, depreciation, interest_expense and tax_expense each equal the sum of the component tuples stored beside them (None when there are none), and those components have distinct labels matching the keyword list. *)
Theorem xero_period_components_sum (df : Frame) (col_idx : nat) (skip_cols : list string) :
  let d := extract_period_data df col_idx skip_cols in
  components_ok d "depreciation" "_dep_components" DEPRECIATION_KEYWORDS /\
  components_ok d "interest_expense" "_interest_components" INTEREST_KEYWORDS /\
  components_ok d "tax_expense" "_tax_components" TAX_KEYWORDS.
Proof.
  cbv zeta. unfold extract_period_data. cbv zeta.
  destruct (sum_all_matching df DEPRECIATION_KEYWORDS col_idx skip_cols) as [dt di] eqn:Ed.
  destruct (sum_all_matching df INTEREST_KEYWORDS col_idx skip_cols) as [it ii] eqn:Ei.
  destruct (sum_all_matching df TAX_KEYWORDS col_idx skip_cols) as [tt ti] eqn:Et.
  split; [|split]; (eapply components_ok_of_sum_all; [eassumption| |]);
    repeat first
      [ rewrite derive_ebitda_ne by discriminate
      | rewrite derive_gross_profit_ne by discriminate
      | rewrite lookup_insert_eq
      | rewrite lookup_insert_ne by discriminate ];
    reflexivity.
Qed.

Lemma merge_fold_lookup (pl bs : XeroParsed) (cf : option XeroParsed) (periods : list string)
    (m : gmap string PyDict) (period : string) :
  fold_left (merge_period pl bs cf) periods m !! period =
    if existsb (String.eqb period) periods &&
       existsb (fun v => negb (is_none v))
         (map snd (map_to_list (period_of pl period)) ++ map snd (map_to_list (period_of bs period)))
    then Some ((match cf with Some c => period_of c period | None => ∅ end)
               ∪ (period_of bs period ∪ period_of pl period))
    else m !! period.
Proof.
  revert m. induction periods as [|p ps IH]; intros m; [reflexivity|].
  cbn [fold_left existsb]. rewrite IH.
  destruct (String.eqb_spec period p) as [->|Hne]; cbn [orb].
  - destruct (existsb (fun v => negb (is_none v)) _) eqn:E; cbn [andb].
    + destruct (existsb (String.eqb p) ps); [reflexivity|].
      unfold merge_period. rewrite E. cbn [negb]. apply lookup_insert_eq.
    + destruct (existsb (String.eqb p) ps); unfold merge_period; rewrite E; reflexivity.
  - destruct (existsb (String.eqb period) ps && _); [reflexivity|].
    unfold merge_period. destruct (negb _); [reflexivity|].
    apply lookup_insert_ne. congruence.
Qed.

Lemma existsb_not_none_app (a b : PyDict) :
  existsb (fun v => negb (is_none v)) (map snd (map_to_list a) ++ map snd (map_to_list b)) =
  any_not_none a || any_not_none b.
Proof.
  rewrite existsb_app. unfold any_not_none.
  assert (Hl : forall l : list (string * Val),
    existsb (fun v => negb (is_none v)) (map snd l) =
    existsb (fun kv => match kv.2 with VNone => false | _ => true end) l).
  { induction l as [|[k v] l IH]; [reflexivity|]. cbn [map existsb snd]. rewrite IH.
    destruct v; reflexivity. }
  rewrite !Hl. reflexivity.
Qed.

(** X23: merge_financial_data keeps a period among current, prior and prior2 exactly when its P&L or balance-sheet dict has a non-None value, so cash-flow data alone never keeps it. A kept period takes each value from cash flow first, then the balance sheet, then the P&L. *)
Theorem merge_financial_data_periods (pl_data bs_data : XeroParsed) (cf_data : option XeroParsed)
    (period k : string) :
  let pl := period_of pl_data period in
  let bs := period_of bs_data period in
  let cf := match cf_data with Some c => period_of c period | None => ∅ end in
  let merged := m_data (merge_financial_data pl_data bs_data cf_data) in
  (is_Some (merged !! period) <->
     In period ["current"; "prior"; "prior2"] /\
     (any_not_none pl = true \/ any_not_none bs = true)) /\
  (forall d, merged !! period = Some d ->
     d !! k = match cf !! k with
              | Some v => Some v
              | None => match bs !! k with Some v => Some v | None => pl !! k end
              end).
Proof.
  cbv zeta. unfold merge_financial_data. cbn [m_data].
  rewrite merge_fold_lookup, existsb_not_none_app, lookup_empty.
  assert (Hp : existsb (String.eqb period) ["current"; "prior"; "prior2"] = true <->
               In period ["current"; "prior"; "prior2"]).
  { split; intros H.
    - apply existsb_exists in H as (x & Hx & Heq). apply String.eqb_eq in Heq. subst. exact Hx.
    - apply existsb_exists. exists period. split; [exact H|apply String.eqb_refl]. }
  split.
  - split.
    + intros H. destruct (_ && _) eqn:E; [|apply is_Some_None in H; contradiction].
      apply andb_true_iff in E as [E1 E2]. apply orb_true_iff in E2.
      split; [apply Hp; exact E1|exact E2].
    + intros [Hin Hor]. rewrite (proj2 Hp Hin), (proj2 (orb_true_iff _ _) Hor).
      eexists; reflexivity.
  - intros d Hd. destruct (_ && _); [|discriminate].
    injection Hd as <-. rewrite !lookup_union.
    destruct (_ !! k), (_ !! k), (_ !! k); reflexivity.
Qed.
